(** * CR95HF contactless-reader driver: a shallow embedding

    The driver (drivers/rfid, compatible [st_cr95hf]) talks to the chip over a
    chip-select gated SPI bus.  Every driver function is embedded as a
    function on an explicit [world]: the driver's private data
    ([struct rfid_cr95hf_data]) together with the hardware the driver can
    observe (the replies of the SPI primitive still to come, the IRQ_OUT
    line, the monotonic clock, the output pins) and a trace of everything the
    driver did to that hardware. *)

From Stdlib Require Import ZArith List Bool Lia.
Import ListNotations.
Open Scope Z_scope.

(** ** errno values used by the driver *)

Module Errno.

Definition EPERM : Z := 1.

Definition EINTR : Z := 4.

Definition EIO : Z := 5.

Definition EINVAL : Z := 22.

End Errno.
Import Errno.

(** ** include/zephyr/drivers/rfid.h *)

Inductive rfid_mode_t : Type :=
| UNINITIALIZED
| POWER_UP
| READY
| HIBERNATE
| SLEEP
| TAG_DETECTOR
| READER
| INVALID.

(** The integer value of an enumerator, as the comparison
    [req_mode >= INVALID] sees it. *)
Definition mode_value (m : rfid_mode_t) : Z :=
  match m with
  | UNINITIALIZED => 0
  | POWER_UP => 1
  | READY => 2
  | HIBERNATE => 3
  | SLEEP => 4
  | TAG_DETECTOR => 5
  | READER => 6
  | INVALID => 7
  end.

Definition mode_eqb (a b : rfid_mode_t) : bool := mode_value a =? mode_value b.

Inductive rfid_protocol_t : Type :=
| FIELD_OFF
| ISO_15693
| ISO_14443A
| ISO_14443B
| ISO_18092.

(** ** Hardware seen by the driver *)

Inductive line : Type := CS | IRQ_IN | IRQ_OUT.

(** What the driver did, in program order. *)
Inductive event : Type :=
| GpioSet (l : line) (v : Z)
| GpioGet (l : line) (v : Z)
| IrqConfigure (l : line) (edge_to_active : bool)
| SemTake
| Sleep (us : Z)
| SpiTransceive (tx : list Z) (rx_len : Z) (err : Z)
| SpiWrite (tx : list Z) (err : Z).

(** One answer of the bus primitive: its return code and the bytes the chip
    shifts out during the transfer. *)
Record reply : Type := { r_err : Z; r_data : list Z }.

Record hardware : Type := {
  bus : list reply;          (* answers of the SPI primitive still to come *)
  irq_out_reads : list Z;    (* values gpio_pin_get_dt(irq_out) will return *)
  irq_out_edges : nat;       (* active edges of IRQ_OUT still to come *)
  uptime_us : Z;             (* monotonic clock, microseconds since boot *)
  cs_level : Z;              (* logical level last written to CS *)
  irq_in_level : Z;          (* logical level last written to IRQ_IN *)
  trace : list event
}.

(** ** Driver data *)

Record rfid_cr95hf_spi_config : Type := {
  irq_out : option line      (* NULL when the device tree has no irq-out *)
}.

Record rfid_cr95hf_data : Type := {
  current_mode : rfid_mode_t;
  cm_timestamp : Z;
  tag_detector_msg : list Z;     (* uint8_t [17] *)
  protocol_msg : list Z;         (* uint8_t [13] *)
  protocol_msg_len : Z;
  spi_snd_buffer_len : Z;        (* spi_snd_buffer.len *)
  spi_rcv_buffer_len : Z;        (* spi_rcv_buffer.len *)
  rcv_buffer : list Z;           (* uint8_t [CR95HF_RCV_BUF_SIZE] *)
  snd_buffer : list Z;           (* uint8_t [CR95HF_SND_BUF_SIZE] *)
  irq_out_sem : Z                (* count of the semaphore, limit 1 *)
}.

Record world : Type := { dev : rfid_cr95hf_data; hw : hardware }.

(** Field updates. *)

Definition with_dev (f : rfid_cr95hf_data -> rfid_cr95hf_data) (w : world) : world :=
  {| dev := f (dev w); hw := hw w |}.

Definition with_hw (f : hardware -> hardware) (w : world) : world :=
  {| dev := dev w; hw := f (hw w) |}.

Definition set_current_mode (m : rfid_mode_t) (d : rfid_cr95hf_data) :=
  {| current_mode := m; cm_timestamp := cm_timestamp d;
     tag_detector_msg := tag_detector_msg d; protocol_msg := protocol_msg d;
     protocol_msg_len := protocol_msg_len d;
     spi_snd_buffer_len := spi_snd_buffer_len d;
     spi_rcv_buffer_len := spi_rcv_buffer_len d;
     rcv_buffer := rcv_buffer d; snd_buffer := snd_buffer d;
     irq_out_sem := irq_out_sem d |}.

Definition set_cm_timestamp (t : Z) (d : rfid_cr95hf_data) :=
  {| current_mode := current_mode d; cm_timestamp := t;
     tag_detector_msg := tag_detector_msg d; protocol_msg := protocol_msg d;
     protocol_msg_len := protocol_msg_len d;
     spi_snd_buffer_len := spi_snd_buffer_len d;
     spi_rcv_buffer_len := spi_rcv_buffer_len d;
     rcv_buffer := rcv_buffer d; snd_buffer := snd_buffer d;
     irq_out_sem := irq_out_sem d |}.

Definition set_spi_snd_buffer_len (n : Z) (d : rfid_cr95hf_data) :=
  {| current_mode := current_mode d; cm_timestamp := cm_timestamp d;
     tag_detector_msg := tag_detector_msg d; protocol_msg := protocol_msg d;
     protocol_msg_len := protocol_msg_len d;
     spi_snd_buffer_len := n;
     spi_rcv_buffer_len := spi_rcv_buffer_len d;
     rcv_buffer := rcv_buffer d; snd_buffer := snd_buffer d;
     irq_out_sem := irq_out_sem d |}.

Definition set_spi_rcv_buffer_len (n : Z) (d : rfid_cr95hf_data) :=
  {| current_mode := current_mode d; cm_timestamp := cm_timestamp d;
     tag_detector_msg := tag_detector_msg d; protocol_msg := protocol_msg d;
     protocol_msg_len := protocol_msg_len d;
     spi_snd_buffer_len := spi_snd_buffer_len d;
     spi_rcv_buffer_len := n;
     rcv_buffer := rcv_buffer d; snd_buffer := snd_buffer d;
     irq_out_sem := irq_out_sem d |}.

Definition set_rcv_buffer (b : list Z) (d : rfid_cr95hf_data) :=
  {| current_mode := current_mode d; cm_timestamp := cm_timestamp d;
     tag_detector_msg := tag_detector_msg d; protocol_msg := protocol_msg d;
     protocol_msg_len := protocol_msg_len d;
     spi_snd_buffer_len := spi_snd_buffer_len d;
     spi_rcv_buffer_len := spi_rcv_buffer_len d;
     rcv_buffer := b; snd_buffer := snd_buffer d;
     irq_out_sem := irq_out_sem d |}.

Definition set_snd_buffer (b : list Z) (d : rfid_cr95hf_data) :=
  {| current_mode := current_mode d; cm_timestamp := cm_timestamp d;
     tag_detector_msg := tag_detector_msg d; protocol_msg := protocol_msg d;
     protocol_msg_len := protocol_msg_len d;
     spi_snd_buffer_len := spi_snd_buffer_len d;
     spi_rcv_buffer_len := spi_rcv_buffer_len d;
     rcv_buffer := rcv_buffer d; snd_buffer := b;
     irq_out_sem := irq_out_sem d |}.

Definition set_irq_out_sem (n : Z) (d : rfid_cr95hf_data) :=
  {| current_mode := current_mode d; cm_timestamp := cm_timestamp d;
     tag_detector_msg := tag_detector_msg d; protocol_msg := protocol_msg d;
     protocol_msg_len := protocol_msg_len d;
     spi_snd_buffer_len := spi_snd_buffer_len d;
     spi_rcv_buffer_len := spi_rcv_buffer_len d;
     rcv_buffer := rcv_buffer d; snd_buffer := snd_buffer d;
     irq_out_sem := n |}.

Definition set_bus (b : list reply) (h : hardware) :=
  {| bus := b; irq_out_reads := irq_out_reads h;
     irq_out_edges := irq_out_edges h; uptime_us := uptime_us h;
     cs_level := cs_level h; irq_in_level := irq_in_level h;
     trace := trace h |}.

Definition set_irq_out_reads (r : list Z) (h : hardware) :=
  {| bus := bus h; irq_out_reads := r;
     irq_out_edges := irq_out_edges h; uptime_us := uptime_us h;
     cs_level := cs_level h; irq_in_level := irq_in_level h;
     trace := trace h |}.

Definition set_irq_out_edges (n : nat) (h : hardware) :=
  {| bus := bus h; irq_out_reads := irq_out_reads h;
     irq_out_edges := n; uptime_us := uptime_us h;
     cs_level := cs_level h; irq_in_level := irq_in_level h;
     trace := trace h |}.

Definition set_uptime_us (t : Z) (h : hardware) :=
  {| bus := bus h; irq_out_reads := irq_out_reads h;
     irq_out_edges := irq_out_edges h; uptime_us := t;
     cs_level := cs_level h; irq_in_level := irq_in_level h;
     trace := trace h |}.

Definition set_cs_level (v : Z) (h : hardware) :=
  {| bus := bus h; irq_out_reads := irq_out_reads h;
     irq_out_edges := irq_out_edges h; uptime_us := uptime_us h;
     cs_level := v; irq_in_level := irq_in_level h;
     trace := trace h |}.

Definition set_irq_in_level (v : Z) (h : hardware) :=
  {| bus := bus h; irq_out_reads := irq_out_reads h;
     irq_out_edges := irq_out_edges h; uptime_us := uptime_us h;
     cs_level := cs_level h; irq_in_level := v;
     trace := trace h |}.

Definition log (e : event) (h : hardware) :=
  {| bus := bus h; irq_out_reads := irq_out_reads h;
     irq_out_edges := irq_out_edges h; uptime_us := uptime_us h;
     cs_level := cs_level h; irq_in_level := irq_in_level h;
     trace := trace h ++ [e] |}.

(** ** Byte arrays *)

(** [a[i]] for an index inside the array. *)
Definition byte_at (a : list Z) (i : nat) : Z := nth i a 0.

(** [a[i] = v]; the driver only writes at constant indices inside its
    arrays, an index outside leaves the array as it is. *)
Fixpoint store (i : nat) (v : Z) (a : list Z) : list Z :=
  match a, i with
  | [], _ => []
  | _ :: t, O => v :: t
  | h :: t, S i' => h :: store i' v t
  end.

(** [memcpy(dst, src, |src|)], cut at the end of [dst]. *)
Fixpoint blit (src dst : list Z) : list Z :=
  match src, dst with
  | s :: src', _ :: dst' => s :: blit src' dst'
  | _, _ => dst
  end.

(** The first [n] bytes the chip shifts out; a transfer longer than the
    answer reads zeroes. *)
Definition clocked (n : nat) (data : list Z) : list Z :=
  firstn n (data ++ repeat 0 n).

(** 8-bit wrap-around of [uint8_t] arithmetic. *)
Definition u8 (x : Z) : Z := x mod 256.

(** ** Control flow of a C function body

    A statement either falls through to the next one ([Next]) or leaves the
    function with a value ([Return]).  A statement that waits for something
    the hardware never delivers has no outcome: [None]. *)

Inductive flow (R A : Type) : Type :=
| Next (a : A)
| Return (r : R).
Arguments Next {R A} a.
Arguments Return {R A} r.

Definition M (R A : Type) : Type := world -> option (flow R A * world).

(** A finished call: the returned value and the world it leaves. *)
Definition proc (A : Type) : Type := world -> option (A * world).

Definition ret {R A} (a : A) : M R A := fun w => Some (Next a, w).

Definition return_ {R A} (r : R) : M R A := fun w => Some (Return r, w).

Definition bind {R A B} (m : M R A) (f : A -> M R B) : M R B :=
  fun w =>
    match m w with
    | Some (Next a, w') => f a w'
    | Some (Return r, w') => Some (Return r, w')
    | None => None
    end.

Notation "x <- m ;; k" := (bind m (fun x => k))
  (at level 61, m at next level, right associativity).
Notation "m ;; k" := (bind m (fun _ => k))
  (at level 61, right associativity).
Notation "' pat <- m ;; k" := (bind m (fun x => match x with pat => k end))
  (at level 61, pat pattern, m at next level, right associativity).

(** A function body, run to its [return]. *)
Definition fn {R} (body : M R R) : proc R :=
  fun w =>
    match body w with
    | Some (Next r, w') => Some (r, w')
    | Some (Return r, w') => Some (r, w')
    | None => None
    end.

(** A call statement inside another body. *)
Definition call {R A} (p : proc A) : M R A :=
  fun w =>
    match p w with
    | Some (a, w') => Some (Next a, w')
    | None => None
    end.

Definition when {R} (c : bool) (m : M R unit) : M R unit :=
  if c then m else ret tt.

(** [if (err) return err;] *)
Definition nonzero (x : Z) : bool := negb (x =? 0).

Definition read {R A} (f : world -> A) : M R A := fun w => Some (Next (f w), w).

Definition modify {R} (f : world -> world) : M R unit :=
  fun w => Some (Next tt, f w).

Definition data_set {R} (f : rfid_cr95hf_data -> rfid_cr95hf_data) : M R unit :=
  modify (with_dev f).

Definition hw_set {R} (f : hardware -> hardware) : M R unit :=
  modify (with_hw f).

(** [data->snd_buffer[i] = v;] *)
Definition snd_buffer_store {R} (i : nat) (v : Z) : M R unit :=
  data_set (fun d => set_snd_buffer (store i v (snd_buffer d)) d).

(** [data->rcv_buffer[i] = v;] *)
Definition rcv_buffer_store {R} (i : nat) (v : Z) : M R unit :=
  data_set (fun d => set_rcv_buffer (store i v (rcv_buffer d)) d).

(** [data->snd_buffer[i] = data->rcv_buffer[j];] *)
Definition snd_buffer_store_rcv {R} (i j : nat) : M R unit :=
  data_set (fun d => set_snd_buffer (store i (byte_at (rcv_buffer d) j) (snd_buffer d)) d).

(** [data->rcv_buffer[i]] *)
Definition rcv {R} (i : nat) : M R Z :=
  read (fun w => byte_at (rcv_buffer (dev w)) i).

(** [data->snd_buffer[i]] *)
Definition snd {R} (i : nat) : M R Z :=
  read (fun w => byte_at (snd_buffer (dev w)) i).

(** ** Kernel and bus primitives

    The driver consumes these from the kernel, the GPIO and the SPI
    subsystems; their sources are not at hand, so each is a small model of
    what the description of the driver's collaborators says it does. *)

(** Modelled from the spec: durations, kept in microseconds. *)
Definition K_MSEC (ms : Z) : Z := 1000 * ms.

(** Modelled from the spec: durations, kept in microseconds. *)
Definition K_USEC (us : Z) : Z := us.

(** Modelled from the spec: the bounded-duration sleep primitive.  The call
    is logged and the clock moves on by the time asked for. *)
Definition k_sleep {R} (us : Z) : M R unit :=
  hw_set (fun h => set_uptime_us (uptime_us h + us) (log (Sleep us) h)).

(** Modelled from the spec: the monotonic clock, in milliseconds since
    boot. *)
Definition k_uptime_get {R} : M R Z :=
  read (fun w => uptime_us (hw w) / 1000).

(** Modelled from the spec: writing a digital output line (chip-select, the
    wake line).  The level is logged and remembered. *)
Definition gpio_pin_set_dt {R} (l : line) (v : Z) : M R unit :=
  hw_set (fun h =>
    match l with
    | CS => set_cs_level v (log (GpioSet l v) h)
    | IRQ_IN => set_irq_in_level v (log (GpioSet l v) h)
    | IRQ_OUT => log (GpioSet l v) h
    end).

(** Modelled from the spec: reading the digital input line.  Reads the next
    scripted level; a script that has run out gives no outcome. *)
Definition gpio_pin_get_dt {R} (l : line) : M R Z :=
  fun w =>
    match irq_out_reads (hw w) with
    | [] => None
    | v :: rest =>
        Some (Next v, with_hw (fun h => set_irq_out_reads rest (log (GpioGet l v) h)) w)
    end.

(** Modelled from the spec: arming ([GPIO_INT_EDGE_TO_ACTIVE]) and disarming
    ([GPIO_INT_DISABLE]) the edge interrupt of the input line. *)
Definition gpio_pin_interrupt_configure_dt {R} (l : line) (edge_to_active : bool)
  : M R unit :=
  hw_set (log (IrqConfigure l edge_to_active)).

(** Modelled from the spec: the blocking wait primitive,
    [k_sem_take(&data->irq_out_sem, K_FOREVER)].  Takes a count that is
    there, else waits for the interrupt callback to give one; with no edge
    to come the wait never ends. *)
Definition k_sem_take_irq_out_sem {R} : M R unit :=
  fun w =>
    if 0 <? irq_out_sem (dev w) then
      Some (Next tt,
            with_hw (log SemTake)
              (with_dev (fun d => set_irq_out_sem (irq_out_sem d - 1) d) w))
    else
      match irq_out_edges (hw w) with
      | O => None
      | S n => Some (Next tt, with_hw (fun h => set_irq_out_edges n (log SemTake h)) w)
      end.

(** The bytes the send buffer set describes. *)
Definition tx_bytes (w : world) : list Z :=
  firstn (Z.to_nat (spi_snd_buffer_len (dev w))) (snd_buffer (dev w)).

(** Modelled from the spec: one call of the byte-exchange primitive of the
    bus.  Takes the next scripted answer, writes the received bytes into the
    receive buffer when the transfer succeeds and has a receive part, and
    returns the primitive's return code; it blocks on a bus that answers no
    more. *)
Definition spi_call {R} (ev : Z -> event) (rx_len : Z) : M R Z :=
  fun w =>
    match bus (hw w) with
    | [] => None
    | r :: rest =>
        let w1 := with_hw (fun h => set_bus rest (log (ev (r_err r)) h)) w in
        let w2 :=
          if r_err r =? 0 then
            with_dev (fun d =>
              set_rcv_buffer
                (blit (clocked (Z.to_nat rx_len) (r_data r)) (rcv_buffer d)) d) w1
          else w1 in
        Some (Next (r_err r), w2)
    end.

(** Modelled from the spec: the full-duplex and the read-only exchange,
    [spi_transceive_dt(&config->spi, tx, &data->spi_rcv_buffer_arr)], where
    [tx] is the send buffer set or NULL. *)
Definition spi_transceive_dt {R} (with_tx : bool) : M R Z :=
  fun w =>
    spi_call
      (SpiTransceive (if with_tx then tx_bytes w else []) (spi_rcv_buffer_len (dev w)))
      (spi_rcv_buffer_len (dev w)) w.

(** Modelled from the spec: the write-only exchange,
    [spi_write_dt(&config->spi, &data->spi_snd_buffer_arr)]. *)
Definition spi_write_dt {R} : M R Z :=
  fun w => spi_call (SpiWrite (tx_bytes w)) 0 w.

(** ** drivers/rfid/rfid_cr95hf.c *)

Section Driver.

(** Capacity of the receive buffer; the header that defines it
    (rfid_cr95hf.h) is not part of the sources at hand. *)
Variable CR95HF_RCV_BUF_SIZE : Z.

Variable config : rfid_cr95hf_spi_config.

Definition rfid_cr95hf_setmode {R} (mode : rfid_mode_t) : M R unit :=
  data_set (set_current_mode mode) ;;
  now <- k_uptime_get ;;
  data_set (set_cm_timestamp now).

Definition rfid_cr95hf_wait_for_irq_out_low (irq_out : line) : proc unit :=
  fn (
    level <- gpio_pin_get_dt irq_out ;;
    when (nonzero level) (return_ tt) ;;
    gpio_pin_interrupt_configure_dt irq_out true ;;
    k_sem_take_irq_out_sem ;;
    gpio_pin_interrupt_configure_dt irq_out false
  ).

Definition rfid_cr95hf_transceive (release_cs : bool) : proc Z :=
  fn (
    gpio_pin_set_dt CS 1 ;;
    k_sleep (K_MSEC 1) ;;
    snd_len <- read (fun w => spi_snd_buffer_len (dev w)) ;;
    rcv_len <- read (fun w => spi_rcv_buffer_len (dev w)) ;;
    (if (0 <? snd_len) && (0 <? rcv_len) then
       err <- spi_transceive_dt true ;;
       when (nonzero err) (return_ err)
     else if 0 <? snd_len then
       err <- spi_write_dt ;;
       when (nonzero err) (return_ err)
     else if 0 <? rcv_len then
       err <- spi_transceive_dt false ;;
       when (nonzero err) (return_ err)
     else
       ret tt) ;;
    when release_cs (
      k_sleep (K_MSEC 1) ;;
      gpio_pin_set_dt CS 0) ;;
    k_sleep (K_MSEC 1) ;;
    return_ 0
  ).

(** The [while (1)] loop of [rfid_cr95hf_polling].  Every turn takes one
    answer from the bus, so the number of turns is bounded by the answers
    left; [turns] is that bound. *)
Fixpoint rfid_cr95hf_polling_loop (turns : nat) (ready_read ready_send : bool)
  : M Z Z :=
  match turns with
  | O => fun _ => None
  | S turns' =>
      rcv_buffer_store 0 0 ;;
      err <- call (rfid_cr95hf_transceive true) ;;
      when (nonzero err) (return_ err) ;;
      flags <- rcv 0 ;;
      when (ready_read && nonzero (Z.land flags 8)) (return_ 0) ;;
      when (ready_send && nonzero (Z.land flags 4)) (return_ 0) ;;
      rfid_cr95hf_polling_loop turns' ready_read ready_send
  end.

Definition rfid_cr95hf_polling (ready_read ready_send : bool) : proc Z :=
  fn (
    snd_buffer_store 0 3 ;;
    data_set (set_spi_snd_buffer_len 1) ;;
    data_set (set_spi_rcv_buffer_len 0) ;;
    err <- call (rfid_cr95hf_transceive true) ;;
    when (nonzero err) (return_ err) ;;
    data_set (set_spi_snd_buffer_len 0) ;;
    data_set (set_spi_rcv_buffer_len 1) ;;
    left <- read (fun w => length (bus (hw w))) ;;
    rfid_cr95hf_polling_loop (S left) ready_read ready_send
  ).

(** [void]: the value [rfid_cr95hf_polling] returns is dropped. *)
Definition rfid_cr95hf_wait : proc unit :=
  fn (
    match irq_out config with
    | None =>
        _ <- call (rfid_cr95hf_polling true true) ;;
        ret tt
    | Some irq_out =>
        call (rfid_cr95hf_wait_for_irq_out_low irq_out)
    end
  ).

Definition rfid_cr95hf_response : proc Z :=
  fn (
    snd_buffer_store 0 2 ;;
    data_set (set_spi_snd_buffer_len 1) ;;
    data_set (set_spi_rcv_buffer_len 3) ;;
    err <- call (rfid_cr95hf_transceive false) ;;
    when (nonzero err) (return_ err) ;;
    response_code <- rcv 1 ;;
    data_len <- rcv 2 ;;
    let data_len :=
      if CR95HF_RCV_BUF_SIZE <? data_len then CR95HF_RCV_BUF_SIZE else data_len in
    data_set (set_spi_snd_buffer_len 0) ;;
    data_set (set_spi_rcv_buffer_len data_len) ;;
    err <- call (rfid_cr95hf_transceive true) ;;
    when (nonzero err) (return_ err) ;;
    return_ 0
  ).

Definition rfid_cr95hf_select_mode (req_mode : rfid_mode_t) : proc Z :=
  fn (
    current_mode <- read (fun w => current_mode (dev w)) ;;
    when (mode_eqb req_mode current_mode) (return_ 0) ;;
    when (mode_value INVALID <=? mode_value req_mode) (return_ (- EINVAL)) ;;
    (* Wait if the last state switch is lower than 10ms *)
    cm_timestamp <- read (fun w => cm_timestamp (dev w)) ;;
    when (cm_timestamp <? 10) (k_sleep (K_MSEC (10 - cm_timestamp))) ;;
    (* Transition to READY STATE if not already in that state *)
    when (negb (mode_eqb current_mode READY)) (
      if mode_eqb current_mode READER then
        ret tt                       (* LOG_ERR only *)
      else
        gpio_pin_set_dt IRQ_IN 1 ;;
        k_sleep (K_USEC 10) ;;
        gpio_pin_set_dt IRQ_IN 0 ;;
        rfid_cr95hf_setmode READY) ;;
    k_sleep (K_MSEC 10) ;;
    match req_mode with
    | TAG_DETECTOR =>
        msg <- read (fun w => tag_detector_msg (dev w)) ;;
        data_set (fun d => set_snd_buffer (blit (firstn 17 msg) (snd_buffer d)) d) ;;
        data_set (set_spi_snd_buffer_len 17) ;;
        data_set (set_spi_rcv_buffer_len 0) ;;
        err <- call (rfid_cr95hf_transceive true) ;;
        when (nonzero err) (return_ err) ;;
        rfid_cr95hf_setmode TAG_DETECTOR ;;
        call rfid_cr95hf_wait ;;
        err <- call rfid_cr95hf_response ;;
        when (nonzero err) (return_ err) ;;
        rfid_cr95hf_setmode READY ;;
        return_ 0
    | _ =>
        return_ (- EINVAL)
    end
  ).

(** What [rfid_cr95hf_iso14443A_get_uid] leaves behind: its return value,
    the caller's array [uid] (absent for a NULL pointer) and [*uid_len]. *)
Record get_uid_result : Type := {
  uid_ret : Z;
  uid_buf : option (list Z);
  uid_length : Z
}.

Definition get_uid_return (err : Z) (uid : list Z) (uid_len : Z)
  : M get_uid_result unit :=
  return_ {| uid_ret := err; uid_buf := Some uid; uid_length := uid_len |}.

Definition rfid_cr95hf_iso14443A_get_uid (uid_ptr : option (list Z)) (uid_len : Z)
  : proc get_uid_result :=
  fn (
    when ((uid_len <? 10) || match uid_ptr with None => true | Some _ => false end)
      (return_ {| uid_ret := - EINVAL; uid_buf := uid_ptr; uid_length := uid_len |}) ;;
    let uid := match uid_ptr with Some a => a | None => [] end in
    (* REQA *)
    snd_buffer_store 0 0x00 ;;
    snd_buffer_store 1 0x04 ;;
    snd_buffer_store 2 0x02 ;;
    snd_buffer_store 3 0x26 ;;
    snd_buffer_store 4 0x07 ;;
    data_set (set_spi_snd_buffer_len 5) ;;
    data_set (set_spi_rcv_buffer_len 0) ;;
    err <- call (rfid_cr95hf_transceive true) ;;
    when (nonzero err) (get_uid_return err uid uid_len) ;;
    call rfid_cr95hf_wait ;;
    err <- call rfid_cr95hf_response ;;
    when (nonzero err) (get_uid_return err uid uid_len) ;;
    (* SEL_CL1 *)
    snd_buffer_store 0 0x00 ;;
    snd_buffer_store 1 0x04 ;;
    snd_buffer_store 2 0x03 ;;
    snd_buffer_store 3 0x93 ;;
    snd_buffer_store 4 0x20 ;;
    snd_buffer_store 5 0x08 ;;
    data_set (set_spi_snd_buffer_len 6) ;;
    data_set (set_spi_rcv_buffer_len 0) ;;
    err <- call (rfid_cr95hf_transceive true) ;;
    when (nonzero err) (get_uid_return err uid uid_len) ;;
    call rfid_cr95hf_wait ;;
    err <- call rfid_cr95hf_response ;;
    when (nonzero err) (get_uid_return err uid uid_len) ;;
    r0 <- rcv 0 ;; r1 <- rcv 1 ;; r2 <- rcv 2 ;; r3 <- rcv 3 ;;
    let '(uid, uid_len) :=
      if r0 =? 0x88 then
        (store 2 r3 (store 1 r2 (store 0 r1 uid)), uid_len)
      else
        (store 3 r3 (store 2 r2 (store 1 r1 (store 0 r0 uid))), 4) in
    (* SEL_CL1 complete *)
    snd_buffer_store 0 0x00 ;;
    snd_buffer_store 1 0x04 ;;
    snd_buffer_store 2 0x08 ;;
    snd_buffer_store 3 0x93 ;;
    snd_buffer_store 4 0x70 ;;
    snd_buffer_store_rcv 5 0 ;;
    snd_buffer_store_rcv 6 1 ;;
    snd_buffer_store_rcv 7 2 ;;
    snd_buffer_store_rcv 8 3 ;;
    snd_buffer_store_rcv 9 4 ;;
    snd_buffer_store 10 0x28 ;;
    data_set (set_spi_snd_buffer_len 11) ;;
    data_set (set_spi_rcv_buffer_len 0) ;;
    err <- call (rfid_cr95hf_transceive true) ;;
    when (nonzero err) (get_uid_return err uid uid_len) ;;
    call rfid_cr95hf_wait ;;
    err <- call rfid_cr95hf_response ;;
    when (nonzero err) (get_uid_return err uid uid_len) ;;
    sak_byte <- rcv 0 ;;
    (* cascade level 2 *)
    '(sak_byte, uid, uid_len) <-
      (if nonzero (Z.land sak_byte 0x04) then
         snd_buffer_store 0 0x00 ;;
         snd_buffer_store 1 0x04 ;;
         snd_buffer_store 2 0x03 ;;
         snd_buffer_store 3 0x95 ;;
         snd_buffer_store 4 0x20 ;;
         snd_buffer_store 5 0x08 ;;
         data_set (set_spi_snd_buffer_len 6) ;;
         data_set (set_spi_rcv_buffer_len 0) ;;
         err <- call (rfid_cr95hf_transceive true) ;;
         when (nonzero err) (get_uid_return err uid uid_len) ;;
         call rfid_cr95hf_wait ;;
         err <- call rfid_cr95hf_response ;;
         when (nonzero err) (get_uid_return err uid uid_len) ;;
         r0 <- rcv 0 ;; r1 <- rcv 1 ;; r2 <- rcv 2 ;; r3 <- rcv 3 ;;
         let '(uid, uid_len) :=
           if r0 =? 0x88 then
             (store 5 r3 (store 4 r2 (store 3 r1 uid)), uid_len)
           else
             (store 6 r3 (store 5 r2 (store 4 r1 (store 3 r0 uid))), 7) in
         snd_buffer_store 0 0x00 ;;
         snd_buffer_store 1 0x04 ;;
         snd_buffer_store 2 0x08 ;;
         snd_buffer_store 3 0x95 ;;
         snd_buffer_store 4 0x70 ;;
         snd_buffer_store_rcv 5 0 ;;
         snd_buffer_store_rcv 6 1 ;;
         snd_buffer_store_rcv 7 2 ;;
         snd_buffer_store_rcv 8 3 ;;
         snd_buffer_store_rcv 9 4 ;;
         snd_buffer_store 10 0x28 ;;
         data_set (set_spi_snd_buffer_len 11) ;;
         data_set (set_spi_rcv_buffer_len 0) ;;
         err <- call (rfid_cr95hf_transceive true) ;;
         when (nonzero err) (get_uid_return err uid uid_len) ;;
         call rfid_cr95hf_wait ;;
         err <- call rfid_cr95hf_response ;;
         when (nonzero err) (get_uid_return err uid uid_len) ;;
         sak_byte <- rcv 0 ;;
         ret (sak_byte, uid, uid_len)
       else
         ret (sak_byte, uid, uid_len)) ;;
    (* cascade level 3 *)
    '(sak_byte, uid, uid_len) <-
      (if nonzero (Z.land sak_byte 0x04) then
         snd_buffer_store 0 0x00 ;;
         snd_buffer_store 1 0x04 ;;
         snd_buffer_store 2 0x03 ;;
         snd_buffer_store 3 0x97 ;;
         snd_buffer_store 4 0x20 ;;
         snd_buffer_store 5 0x08 ;;
         data_set (set_spi_snd_buffer_len 6) ;;
         data_set (set_spi_rcv_buffer_len 0) ;;
         err <- call (rfid_cr95hf_transceive true) ;;
         when (nonzero err) (get_uid_return err uid uid_len) ;;
         call rfid_cr95hf_wait ;;
         err <- call rfid_cr95hf_response ;;
         when (nonzero err) (get_uid_return err uid uid_len) ;;
         r0 <- rcv 0 ;; r1 <- rcv 1 ;; r2 <- rcv 2 ;; r3 <- rcv 3 ;;
         let uid := store 9 r3 (store 8 r2 (store 7 r1 (store 6 r0 uid))) in
         let uid_len := 10 in
         snd_buffer_store 0 0x00 ;;
         snd_buffer_store 1 0x04 ;;
         snd_buffer_store 2 0x08 ;;
         snd_buffer_store 3 0x97 ;;
         snd_buffer_store 4 0x70 ;;
         snd_buffer_store_rcv 5 0 ;;
         snd_buffer_store_rcv 6 1 ;;
         snd_buffer_store_rcv 7 2 ;;
         snd_buffer_store_rcv 8 3 ;;
         snd_buffer_store_rcv 9 4 ;;
         snd_buffer_store 10 0x28 ;;
         data_set (set_spi_snd_buffer_len 11) ;;
         data_set (set_spi_rcv_buffer_len 0) ;;
         err <- call (rfid_cr95hf_transceive true) ;;
         when (nonzero err) (get_uid_return err uid uid_len) ;;
         call rfid_cr95hf_wait ;;
         err <- call rfid_cr95hf_response ;;
         when (nonzero err) (get_uid_return err uid uid_len) ;;
         sak_byte <- snd 0 ;;
         ret (sak_byte, uid, uid_len)
       else
         ret (sak_byte, uid, uid_len)) ;;
    return_ {| uid_ret := 0; uid_buf := Some uid; uid_length := uid_len |}
  ).

Definition rfid_cr95hf_protocol_select (proto : rfid_protocol_t) : proc Z :=
  fn (
    match proto with
    | ISO_14443A =>
        msg <- read (fun w => protocol_msg (dev w)) ;;
        len <- read (fun w => protocol_msg_len (dev w)) ;;
        data_set (fun d =>
          set_snd_buffer (blit (firstn (Z.to_nat len) msg) (snd_buffer d)) d) ;;
        data_set (set_spi_snd_buffer_len len) ;;
        data_set (set_spi_rcv_buffer_len 0) ;;
        err <- call (rfid_cr95hf_transceive true) ;;
        when (nonzero err) (return_ err) ;;
        call rfid_cr95hf_wait ;;
        err <- call rfid_cr95hf_response ;;
        when (nonzero err) (return_ err) ;;
        return_ 0
    | _ =>
        return_ (- EINVAL)
    end
  ).

Definition rfid_cr95hf_transceive_api : proc Z :=
  fn (return_ (- EPERM)).

(** [for (int i = first; i < first + count; i++) body] *)
Fixpoint for_range {R} (count first : nat) (body : nat -> M R unit) : M R unit :=
  match count with
  | O => ret tt
  | S count' => body first ;; for_range count' (S first) body
  end.

(** The [switch (i)] of [rfid_cr95hf_calibration].  [snd_buffer[14]] is a
    [uint8_t]: the compound assignments wrap at 8 bits, while the value
    returned at step 7 is computed in [int]. *)
Definition rfid_cr95hf_calibration_switch (i : nat) : M Z unit :=
  r0 <- rcv 0 ;; r1 <- rcv 1 ;; r2 <- rcv 2 ;;
  dac <- snd 14 ;;
  let is011 := (r0 =? 0) && (r1 =? 1) && (r2 =? 1) in
  let is012 := (r0 =? 0) && (r1 =? 1) && (r2 =? 2) in
  match i with
  | 0%nat =>
      when (negb is012) (return_ (- EIO)) ;;
      snd_buffer_store 14 0xFC
  | 1%nat =>
      when (negb is011) (return_ (- EIO)) ;;
      snd_buffer_store 14 (u8 (dac - 0x80))
  | 2%nat =>
      if is011 then snd_buffer_store 14 (u8 (dac - 0x40))
      else if is012 then snd_buffer_store 14 (u8 (dac + 0x40))
      else return_ (- EIO)
  | 3%nat =>
      if is011 then snd_buffer_store 14 (u8 (dac - 0x20))
      else if is012 then snd_buffer_store 14 (u8 (dac + 0x20))
      else return_ (- EIO)
  | 4%nat =>
      if is011 then snd_buffer_store 14 (u8 (dac - 0x10))
      else if is012 then snd_buffer_store 14 (u8 (dac + 0x10))
      else return_ (- EIO)
  | 5%nat =>
      if is011 then snd_buffer_store 14 (u8 (dac - 0x08))
      else if is012 then snd_buffer_store 14 (u8 (dac + 0x08))
      else return_ (- EIO)
  | 6%nat =>
      if is011 then snd_buffer_store 14 (u8 (dac - 0x04))
      else if is012 then snd_buffer_store 14 (u8 (dac + 0x04))
      else return_ (- EIO)
  | 7%nat =>
      if is011 then return_ (dac - 4)
      else if is012 then return_ dac
      else return_ (- EIO)
  | _ => ret tt                      (* __ASSERT_NO_MSG(0) *)
  end.

(** One turn of the loop of [rfid_cr95hf_calibration]. *)
Definition rfid_cr95hf_calibration_step (i : nat) : M Z unit :=
  data_set (set_spi_snd_buffer_len 17) ;;
  data_set (set_spi_rcv_buffer_len 0) ;;
  err <- call (rfid_cr95hf_transceive true) ;;
  when (nonzero err) (return_ err) ;;
  call rfid_cr95hf_wait ;;
  err <- call rfid_cr95hf_response ;;
  when (nonzero err) (return_ err) ;;
  rfid_cr95hf_calibration_switch i.

Definition rfid_cr95hf_calibration : proc Z :=
  fn (
    snd_buffer_store 0 0x00 ;;
    snd_buffer_store 1 0x07 ;;
    snd_buffer_store 2 0x0E ;;
    snd_buffer_store 3 0x03 ;;
    snd_buffer_store 4 0xA1 ;;
    snd_buffer_store 5 0x00 ;;
    snd_buffer_store 6 0xF8 ;;
    snd_buffer_store 7 0x01 ;;
    snd_buffer_store 8 0x18 ;;
    snd_buffer_store 9 0x00 ;;
    snd_buffer_store 10 0x20 ;;
    snd_buffer_store 11 0x60 ;;
    snd_buffer_store 12 0x60 ;;
    snd_buffer_store 13 0x00 ;;
    snd_buffer_store 14 0x00 ;;
    snd_buffer_store 15 0x3F ;;
    snd_buffer_store 16 0x01 ;;
    for_range 8 0 rfid_cr95hf_calibration_step ;;
    return_ (- EIO)                  (* after __ASSERT_NO_MSG(0) *)
  ).

End Driver.

(** ** Vocabulary of the statements *)

Section Commands.

Variable CR95HF_RCV_BUF_SIZE : Z.
Variable config : rfid_cr95hf_spi_config.

(** The three statements every command of the driver ends with: send the
    frame set up in the send buffer, wait for the chip, read its answer. *)
Definition exchange : M Z unit :=
  err <- call (rfid_cr95hf_transceive true) ;;
  when (nonzero err) (return_ err) ;;
  call (rfid_cr95hf_wait config) ;;
  err <- call (rfid_cr95hf_response CR95HF_RCV_BUF_SIZE) ;;
  when (nonzero err) (return_ err).

(** REQA: [00 04 02 26 07]. *)
Definition send_reqa : M Z unit :=
  snd_buffer_store 0 0x00 ;;
  snd_buffer_store 1 0x04 ;;
  snd_buffer_store 2 0x02 ;;
  snd_buffer_store 3 0x26 ;;
  snd_buffer_store 4 0x07 ;;
  data_set (set_spi_snd_buffer_len 5) ;;
  data_set (set_spi_rcv_buffer_len 0) ;;
  exchange.

(** SEL_CLn: [00 04 03 sel 20 08] with [sel] one of 93, 95, 97. *)
Definition send_select (sel : Z) : M Z unit :=
  snd_buffer_store 0 0x00 ;;
  snd_buffer_store 1 0x04 ;;
  snd_buffer_store 2 0x03 ;;
  snd_buffer_store 3 sel ;;
  snd_buffer_store 4 0x20 ;;
  snd_buffer_store 5 0x08 ;;
  data_set (set_spi_snd_buffer_len 6) ;;
  data_set (set_spi_rcv_buffer_len 0) ;;
  exchange.

(** SEL_CLn complete: [00 04 08 sel 70], the five bytes just received, [28]. *)
Definition send_select_complete (sel : Z) : M Z unit :=
  snd_buffer_store 0 0x00 ;;
  snd_buffer_store 1 0x04 ;;
  snd_buffer_store 2 0x08 ;;
  snd_buffer_store 3 sel ;;
  snd_buffer_store 4 0x70 ;;
  snd_buffer_store_rcv 5 0 ;;
  snd_buffer_store_rcv 6 1 ;;
  snd_buffer_store_rcv 7 2 ;;
  snd_buffer_store_rcv 8 3 ;;
  snd_buffer_store_rcv 9 4 ;;
  snd_buffer_store 10 0x28 ;;
  data_set (set_spi_snd_buffer_len 11) ;;
  data_set (set_spi_rcv_buffer_len 0) ;;
  exchange.

End Commands.

(** [m] runs from [w] to its end without an error and leaves [w']. *)
Definition completes (m : M Z unit) (w w' : world) : Prop :=
  m w = Some (Next tt, w').

(** The answer the driver finds in its receive buffer. *)
Definition response (w : world) (i : nat) : Z := byte_at (rcv_buffer (dev w)) i.

(** SAK bit 0x04: another cascade level follows. *)
Definition sak_more (w : world) : bool := nonzero (Z.land (response w 0) 0x04).

(** What one cascade level leaves in [uid]: with the cascade tag 0x88 in
    front, the three bytes after it go to [uid[base .. base+2]]; without it,
    the four bytes go to [uid[base .. base+3]]. *)
Definition cascade_uid (base : nat) (w : world) (uid : list Z) : list Z :=
  if response w 0 =? 0x88 then
    store (base + 2) (response w 3)
      (store (base + 1) (response w 2) (store base (response w 1) uid))
  else
    store (base + 3) (response w 3)
      (store (base + 2) (response w 2)
         (store (base + 1) (response w 1) (store base (response w 0) uid))).

(** ... and in [*uid_len]: written only without the cascade tag. *)
Definition cascade_len (final : Z) (w : world) (uid_len : Z) : Z :=
  if response w 0 =? 0x88 then uid_len else final.

(** What cascade level 3 leaves in [uid]: four bytes at [uid[6 .. 9]]. *)
Definition level3_uid (w : world) (uid : list Z) : list Z :=
  store 9 (response w 3)
    (store 8 (response w 2) (store 7 (response w 1) (store 6 (response w 0) uid))).

(** [e] is a bus transfer that failed with [err]. *)
Definition is_spi_failure (e : event) (err : Z) : Prop :=
  match e with
  | SpiTransceive _ _ r => r = err
  | SpiWrite _ r => r = err
  | _ => False
  end.

(** *** Calibration in the words of its description *)

(** The outcome of a probe, read off the first three bytes of the answer:
    [00 01 01] is LOW, [00 01 02] is HIGH. *)
Inductive outcome : Type := Low | High | Other.

Definition classify (w : world) : outcome :=
  if (response w 0 =? 0) && (response w 1 =? 1) && (response w 2 =? 1) then Low
  else if (response w 0 =? 0) && (response w 1 =? 1) && (response w 2 =? 2) then High
  else Other.

(** The candidate reference value travels in byte 14 of the command. *)
Definition candidate (w : world) : Z := byte_at (snd_buffer (dev w)) 14.

Inductive verdict : Type :=
| Continue (next_candidate : Z)
| Calibrated (reference : Z)
| ProtocolViolation.

Definition step_size (i : nat) : Z :=
  match i with
  | 1%nat => 0x80
  | 2%nat => 0x40
  | 3%nat => 0x20
  | 4%nat => 0x10
  | 5%nat => 0x08
  | 6%nat => 0x04
  | _ => 0
  end.

(** The rule of the successive approximation as the description gives it,
    every value an 8-bit one: step 0 wants HIGH and sets FC; step 1 wants
    LOW and subtracts 80; steps 2 to 6 subtract the step size on LOW and add
    it on HIGH; step 7 gives the candidate minus 4 on LOW and the candidate
    on HIGH; anything else is a protocol violation. *)
Definition calibration_rule (i : nat) (o : outcome) (c : Z) : verdict :=
  match i, o with
  | 0%nat, High => Continue 0xFC
  | 0%nat, _ => ProtocolViolation
  | 1%nat, Low => Continue (u8 (c - step_size i))
  | 1%nat, _ => ProtocolViolation
  | 7%nat, Low => Calibrated (u8 (c - 4))
  | 7%nat, High => Calibrated c
  | _, Low => Continue (u8 (c - step_size i))
  | _, High => Continue (u8 (c + step_size i))
  | _, Other => ProtocolViolation
  end.

(** What a verdict means for the loop: go on with the new candidate in
    byte 14, return the reference, or return [-EIO]. *)
Definition carry_out (v : verdict) : M Z unit :=
  match v with
  | Continue c => snd_buffer_store 14 c
  | Calibrated r => return_ r
  | ProtocolViolation => return_ (- EIO)
  end.

(** ** Test bench: a scripted chip *)

Definition ok (data : list Z) : reply := {| r_err := 0; r_data := data |}.

Definition failed (err : Z) : reply := {| r_err := err; r_data := [] |}.

(** No irq-out line: the driver polls. *)
Definition polled : rfid_cr95hf_spi_config := {| irq_out := None |}.

(** With an irq-out line: the driver waits for the line. *)
Definition signalled : rfid_cr95hf_spi_config := {| irq_out := Some IRQ_OUT |}.

(** Driver data of the bench.  The two command templates are sample bytes:
    the macros that fill them at build time come from rfid_cr95hf.h, as do
    the buffer sizes, taken as 64 here. *)
Definition bench_data (mode : rfid_mode_t) (timestamp : Z) : rfid_cr95hf_data :=
  {| current_mode := mode; cm_timestamp := timestamp;
     tag_detector_msg := [0; 7; 14; 10; 33; 0; 121; 1; 24; 0; 32; 96; 96; 100; 116; 63; 8];
     protocol_msg := [0; 2; 2; 2; 0; 0; 0; 0; 0; 0; 0; 0; 0];
     protocol_msg_len := 7;
     spi_snd_buffer_len := 0; spi_rcv_buffer_len := 0;
     rcv_buffer := repeat 0 64; snd_buffer := repeat 0 64;
     irq_out_sem := 0 |}.

(** A device in mode [mode] since [timestamp] ms, at uptime [now] ms, on a
    bus that will give the answers of [script]. *)
Definition bench (mode : rfid_mode_t) (timestamp now : Z) (script : list reply) : world :=
  {| dev := bench_data mode timestamp;
     hw := {| bus := script; irq_out_reads := []; irq_out_edges := 0;
              uptime_us := 1000 * now; cs_level := 0; irq_in_level := 0;
              trace := [] |} |}.

(** The same bench with an IRQ_OUT line that will read [reads] and show
    [edges] active edges. *)
Definition on_irq_out (reads : list Z) (edges : nat) (w : world) : world :=
  with_hw (fun h => set_irq_out_edges edges (set_irq_out_reads reads h)) w.

(** The bus answers of one exchange of a polled chip: the command write, the
    poll write, one flag byte showing both ready bits, the three header bytes
    and the payload. *)
Definition answer (payload : list Z) : list reply :=
  [ok []; ok []; ok [0x0C]; ok [0; 0x80; Z.of_nat (length payload)]; ok payload].

(** The world a command leaves. *)
Definition run_to (m : M Z unit) (w : world) : world :=
  match m w with
  | Some (_, w') => w'
  | None => w
  end.

(** The returned value and the first [n] things the call did. *)
Definition returned_after {A} (n : nat) (r : option (A * world))
  : option (A * list event) :=
  match r with
  | Some (a, w) => Some (a, firstn n (trace (hw w)))
  | None => None
  end.

(** The returned value and the mode the device is left in. *)
Definition returned_in_mode {A} (r : option (A * world)) : option (A * rfid_mode_t) :=
  match r with
  | Some (a, w) => Some (a, current_mode (dev w))
  | None => None
  end.

(** The returned value alone. *)
Definition returned {A} (r : option (A * world)) : option A :=
  match r with
  | Some (a, _) => Some a
  | None => None
  end.

(** A card whose SEL_CL1 answer carries the cascade tag, but whose SAK says
    the UID is complete. *)
Definition tagged_card : list reply :=
  answer [0x04; 0x00] ++ answer [0x88; 0x11; 0x22; 0x33; 0x44] ++ answer [0x00].

(** A card with a four byte UID. *)
Definition plain_card : list reply :=
  answer [0x04; 0x00] ++ answer [0xAA; 0xBB; 0xCC; 0xDD; 0xEE] ++ answer [0x08].

(** A card with a ten byte UID. *)
Definition triple_card : list reply :=
  answer [0x44; 0x00] ++
  answer [0x88; 0x01; 0x02; 0x03; 0x88] ++ answer [0x04] ++
  answer [0x88; 0x04; 0x05; 0x06; 0x8F] ++ answer [0x04] ++
  answer [0x07; 0x08; 0x09; 0x0A; 0x0C] ++ answer [0x00].

(** The caller's buffer: twelve bytes of 0xFF, declared as twelve. *)
Definition caller_uid : list Z := repeat 0xFF 12.

(** Calibration answers: [00 01 01] is LOW, [00 01 02] is HIGH. *)
Definition LOW : list reply := answer [0; 1; 1].
Definition HIGH : list reply := answer [0; 1; 2].

Definition all_low : list reply :=
  HIGH ++ LOW ++ LOW ++ LOW ++ LOW ++ LOW ++ LOW ++ LOW.

Definition all_high : list reply :=
  HIGH ++ LOW ++ HIGH ++ HIGH ++ HIGH ++ HIGH ++ HIGH ++ HIGH.

(** A chip whose flag read fails once while the driver polls after the
    protocol select command. *)
Definition failing_poll : list reply :=
  [ok []; ok []; failed (- EIO); ok [0; 0x00; 0]].

(** ** Vocabulary of the further statements *)

(** The transfer [rfid_cr95hf_transceive] offers to the bus for the buffer
    lengths of [w], as the log shows it once the bus returned [err]. *)
Definition bus_event (w : world) (err : Z) : event :=
  if (0 <? spi_snd_buffer_len (dev w)) && (0 <? spi_rcv_buffer_len (dev w)) then
    SpiTransceive (tx_bytes w) (spi_rcv_buffer_len (dev w)) err
  else if 0 <? spi_snd_buffer_len (dev w) then
    SpiWrite (tx_bytes w) err
  else
    SpiTransceive [] (spi_rcv_buffer_len (dev w)) err.

(** What [rfid_cr95hf_transceive] has done when it returns: chip-select
    asserted, 1 ms, [middle], then with [release_cs] 1 ms and chip-select
    deasserted, then 1 ms. *)
Definition frame_trace (release_cs : bool) (middle : list event) : list event :=
  [GpioSet CS 1; Sleep (K_MSEC 1)] ++ middle ++
  (if release_cs then [Sleep (K_MSEC 1); GpioSet CS 0] else []) ++
  [Sleep (K_MSEC 1)].

(** The lines and the clock after a frame: only chip-select, the clock and
    the log differ from [h]. *)
Definition framed (release_cs : bool) (middle : list event) (h h' : hardware) : Prop :=
  cs_level h' = (if release_cs then 0 else 1) /\
  uptime_us h' = uptime_us h + (if release_cs then K_MSEC 3 else K_MSEC 2) /\
  trace h' = trace h ++ frame_trace release_cs middle /\
  irq_in_level h' = irq_in_level h /\
  irq_out_reads h' = irq_out_reads h /\
  irq_out_edges h' = irq_out_edges h.

(** The status byte a flag read finds: the first byte of the answer. *)
Definition flag_of (r : reply) : Z := nth 0 (r_data r) 0.

(** The test of the polling loop: a requested ready bit is set, 0x8 for
    reading, 0x4 for sending. *)
Definition ready (ready_read ready_send : bool) (flags : Z) : bool :=
  (ready_read && nonzero (Z.land flags 8)) ||
  (ready_send && nonzero (Z.land flags 4)).

(** A flag read that succeeds and shows no requested ready bit. *)
Definition not_ready_yet (ready_read ready_send : bool) (r : reply) : Prop :=
  r_err r = 0 /\ ready ready_read ready_send (flag_of r) = false.

(** The payload length [rfid_cr95hf_response] reads with: the declared
    length, cut to the capacity of the receive buffer. *)
Definition clipped (size declared : Z) : Z :=
  if size <? declared then size else declared.

(** The sleep before a mode switch, as the driver takes it from the recorded
    timestamp, and the time it takes. *)
Definition dwell (w : world) : list event :=
  if cm_timestamp (dev w) <? 10 then [Sleep (K_MSEC (10 - cm_timestamp (dev w)))]
  else [].

Definition dwell_us (w : world) : Z :=
  if cm_timestamp (dev w) <? 10 then K_MSEC (10 - cm_timestamp (dev w)) else 0.

(** The pulse on the wake line that brings the chip to READY; none from
    READY and none from READER. *)
Definition wake_pulse (mode : rfid_mode_t) : list event :=
  match mode with
  | READY | READER => []
  | _ => [GpioSet IRQ_IN 1; Sleep (K_USEC 10); GpioSet IRQ_IN 0]
  end.

(** *** What a piece of code does to the world *)

(** Every run of [m] takes the world to one related to it by [rel]. *)
Definition respects {R A : Type} (rel : world -> world -> Prop) (m : M R A) : Prop :=
  forall (w : world) (out : flow R A) (w' : world),
    m w = Some (out, w') -> rel w w'.

Definition proc_respects {A : Type} (rel : world -> world -> Prop) (p : proc A)
  : Prop :=
  forall (w : world) (a : A) (w' : world),
    p w = Some (a, w') -> rel w w'.

(** The mode the driver has recorded, with its timestamp. *)
Definition mode_record (w : world) : rfid_mode_t * Z :=
  (current_mode (dev w), cm_timestamp (dev w)).

(** The command templates set up at build time. *)
Definition templates (w : world) : list Z * list Z * Z :=
  (tag_detector_msg (dev w), protocol_msg (dev w), protocol_msg_len (dev w)).

(** Both together: what only a mode switch may change. *)
Definition settings (w : world) : rfid_mode_t * Z * (list Z * list Z * Z) :=
  (mode_record w, templates w).

(** From [w] to [w'] the settings stayed and the clock did not go back. *)
Definition quiet (w w' : world) : Prop :=
  settings w' = settings w /\ uptime_us (hw w) <= uptime_us (hw w').

(** From [w] to [w'] the templates stayed, the clock did not go back, and
    the mode record either stayed or holds READY or TAG_DETECTOR with a
    timestamp taken in between. *)
Definition switched (w w' : world) : Prop :=
  templates w' = templates w /\
  uptime_us (hw w) <= uptime_us (hw w') /\
  (mode_record w' = mode_record w \/
   ((current_mode (dev w') = READY \/ current_mode (dev w') = TAG_DETECTOR) /\
    uptime_us (hw w) / 1000 <= cm_timestamp (dev w') <= uptime_us (hw w') / 1000)).

(** *** What a piece of code establishes *)

(** From a world where [P] holds, [m] falls through only into worlds where
    [Qn] holds and returns only in worlds where [Qr] holds. *)
Definition ensures {R A : Type} (P : world -> Prop) (m : M R A)
    (Qn : A -> world -> Prop) (Qr : R -> world -> Prop) : Prop :=
  forall (w : world) (out : flow R A) (w' : world),
    P w -> m w = Some (out, w') ->
    match out with
    | Next a => Qn a w'
    | Return r => Qr r w'
    end.

(** Chip-select is known to be released when [known] is set. *)
Definition released (known : bool) (w : world) : Prop :=
  known = true -> cs_level (hw w) = 0.

(** A return with code 0 happens with chip-select released; [code] reads the
    return code off the returned value. *)
Definition released_on_success {R : Type} (code : R -> Z) (r : R) (w : world)
  : Prop :=
  code r = 0 -> cs_level (hw w) = 0.

(** A card with a seven byte UID. *)
Definition double_card : list reply :=
  answer [0x44; 0x00] ++
  answer [0x88; 0x04; 0x11; 0x22; 0xBF] ++ answer [0x04] ++
  answer [0x33; 0x44; 0x55; 0x66; 0x44] ++ answer [0x00].

(** The world a call leaves. *)
Definition left_by {A} (p : proc A) (w : world) : world :=
  match p w with
  | Some (_, w') => w'
  | None => w
  end.

(** ** Initialisation: [rfid_cr95hf_init_spi] *)

Definition ENODEV : Z := 19.
Definition EBUSY : Z := 16.

(** Modelled from the spec: what the board answers when the initialisation
    asks whether the bus and the ports are ready, and the return codes of the
    calls that configure the three lines and register the interrupt
    callback. *)
Record board : Type := {
  spi_is_ready : bool;
  cs_port_is_ready : bool;
  cs_configure : Z;
  irq_in_port_is_ready : bool;
  irq_in_configure : Z;
  irq_out_is_ready : bool;
  irq_out_configure : Z;
  irq_out_add_callback : Z
}.

(** Modelled from the spec: configuring a line; [GPIO_OUTPUT_INACTIVE] leaves
    an output line at its inactive level when the call succeeds.  Returns
    the code of the call. *)
Definition gpio_pin_configure_dt {R} (l : line) (code : Z) : M R Z :=
  when (code =? 0) (
    hw_set (fun h =>
      match l with
      | CS => set_cs_level 0 h
      | IRQ_IN => set_irq_in_level 0 h
      | IRQ_OUT => h
      end)) ;;
  ret code.

(** Modelled from the spec: [k_sem_init(&data->irq_out_sem, 0, 1)]. *)
Definition k_sem_init_irq_out_sem {R} : M R unit :=
  data_set (set_irq_out_sem 0).

(** Modelled from the spec: giving the bus back; the driver sees nothing of
    it. *)
Definition spi_release_dt {R} : M R unit := ret tt.

Definition rfid_cr95hf_IRQ_IN_pulse {R} : M R unit :=
  gpio_pin_set_dt IRQ_IN 0 ;;
  k_sleep (K_USEC 100) ;;            (* t0 *)
  gpio_pin_set_dt IRQ_IN 1 ;;
  k_sleep (K_USEC 10) ;;             (* t1 *)
  gpio_pin_set_dt IRQ_IN 0 ;;
  k_sleep (K_MSEC 11).               (* t3 *)

(** One turn of the [do ... while] of [rfid_cr95hf_init_spi], up to the
    [tries--]: reset, echo command, echo answer. *)
Definition rfid_cr95hf_init_round : M Z unit :=
  (* Send Reset Command *)
  snd_buffer_store 0 0x01 ;;
  data_set (set_spi_snd_buffer_len 1) ;;
  data_set (set_spi_rcv_buffer_len 0) ;;
  err <- call (rfid_cr95hf_transceive true) ;;
  when (nonzero err) (return_ err) ;;
  k_sleep (K_MSEC 1) ;;
  spi_release_dt ;;
  k_sleep (K_MSEC 3) ;;
  rfid_cr95hf_IRQ_IN_pulse ;;
  (* Send Echo *)
  snd_buffer_store 0 0x00 ;;
  snd_buffer_store 1 0x55 ;;
  data_set (set_spi_snd_buffer_len 2) ;;
  err <- call (rfid_cr95hf_transceive true) ;;
  when (nonzero err) (return_ err) ;;
  k_sleep (K_MSEC 1) ;;
  spi_release_dt ;;
  k_sleep (K_MSEC 3) ;;
  (* Receive Echo *)
  snd_buffer_store 0 0x02 ;;
  data_set (set_spi_snd_buffer_len 1) ;;
  data_set (set_spi_rcv_buffer_len 2) ;;
  err <- call (rfid_cr95hf_transceive true) ;;
  when (nonzero err) (return_ err) ;;
  k_sleep (K_MSEC 1) ;;
  spi_release_dt ;;
  k_sleep (K_MSEC 3).

(** The [do ... while (data->rcv_buffer[1] != 0x55 && tries > 0)] with its
    [tries--]; gives the value of [tries] at the end.  The loop is entered
    with [tries = 5], so the count is not 0 at the start of a turn. *)
Fixpoint rfid_cr95hf_init_loop (tries : nat) : M Z nat :=
  match tries with
  | O => ret O
  | S tries' =>
      rfid_cr95hf_init_round ;;
      echo <- rcv 1 ;;
      if negb (echo =? 0x55) && (0 <? tries')%nat then
        rfid_cr95hf_init_loop tries'
      else
        ret tries'
  end.

Section Init.

Variable config : rfid_cr95hf_spi_config.

Variable brd : board.

Definition rfid_cr95hf_init_spi : proc Z :=
  fn (
    (* Check if SPI is ready *)
    when (negb (spi_is_ready brd)) (return_ (- ENODEV)) ;;
    (* Check if cs is ready *)
    _ <- (if cs_port_is_ready brd then gpio_pin_configure_dt CS (cs_configure brd)
          else ret (- ENODEV)) ;;
    (* Check if IRQ_IN is ready *)
    _ <- (if irq_in_port_is_ready brd
          then gpio_pin_configure_dt IRQ_IN (irq_in_configure brd)
          else ret (- ENODEV)) ;;
    match irq_out config with
    | Some irq_out =>
        when (negb (irq_out_is_ready brd)) (return_ (- EBUSY)) ;;
        err <- gpio_pin_configure_dt irq_out (irq_out_configure brd) ;;
        when (nonzero err) (return_ err) ;;
        k_sem_init_irq_out_sem ;;
        (* Add callback to the specified GPIO device *)
        err <- ret (irq_out_add_callback brd) ;;
        when (nonzero err) (return_ err)
    | None => ret tt
    end ;;
    rfid_cr95hf_IRQ_IN_pulse ;;
    spi_release_dt ;;
    k_sleep (K_MSEC 1) ;;
    tries <- rfid_cr95hf_init_loop 5 ;;
    echo <- rcv 1 ;;
    when ((tries =? 0)%nat && negb (echo =? 0x55)) (
      (* Initialization failed *)
      rfid_cr95hf_setmode UNINITIALIZED ;;
      return_ (- EIO)) ;;
    rfid_cr95hf_setmode POWER_UP ;;
    return_ 0
  ).

End Init.

(** *** A scripted chip at power-up *)

(** The echo value a turn of the initialisation finds: byte 1 of the answer
    to the echo read. *)
Definition echo_of (r : reply) : Z := nth 1 (r_data r) 0.

(** The three answers of a turn. *)
Definition round_answers (t : reply * reply * reply) : list reply :=
  let '(a, b, c) := t in [a; b; c].

(** The bus accepts the three transfers of the turn. *)
Definition accepted (t : reply * reply * reply) : Prop :=
  let '(a, b, c) := t in r_err a = 0 /\ r_err b = 0 /\ r_err c = 0.

(** The chip is there: the turn ends with the echo 0x55. *)
Definition echoes (t : reply * reply * reply) : Prop :=
  accepted t /\ (let '(_, _, c) := t in echo_of c = 0x55).

(** The chip is not there yet: the turn ends with another byte. *)
Definition silent (t : reply * reply * reply) : Prop :=
  accepted t /\ (let '(_, _, c) := t in echo_of c <> 0x55).

(** The time a turn of the initialisation takes, in microseconds: three
    frames of 3 ms, three times 1 ms and 3 ms, one wake pulse. *)
Definition pulse_us : Z := K_USEC 100 + K_USEC 10 + K_MSEC 11.
Definition round_us : Z := 3 * K_MSEC 3 + 3 * (K_MSEC 1 + K_MSEC 3) + pulse_us.

(** A board on which everything is ready. *)
Definition ready_board : board :=
  {| spi_is_ready := true;
     cs_port_is_ready := true; cs_configure := 0;
     irq_in_port_is_ready := true; irq_in_configure := 0;
     irq_out_is_ready := true; irq_out_configure := 0;
     irq_out_add_callback := 0 |}.

(** A board whose chip-select and IRQ_IN ports are not ready. *)
Definition unready_ports : board :=
  {| spi_is_ready := true;
     cs_port_is_ready := false; cs_configure := 0;
     irq_in_port_is_ready := false; irq_in_configure := 0;
     irq_out_is_ready := true; irq_out_configure := 0;
     irq_out_add_callback := 0 |}.

(** The answers of a turn of a chip that echoes [echo]. *)
Definition turn (echo : Z) : reply * reply * reply :=
  (ok [], ok [], ok [0; echo]).

(** The IRQ_OUT line, when the device has one, is ready and takes its
    configuration and the interrupt callback. *)
Definition line_ready (config : rfid_cr95hf_spi_config) (brd : board) : Prop :=
  match irq_out config with
  | None => True
  | Some _ =>
      irq_out_is_ready brd = true /\
      irq_out_configure brd = 0 /\
      irq_out_add_callback brd = 0
  end.

(** The answers of a run of turns. *)
Definition turns_answers (turns : list (reply * reply * reply)) : list reply :=
  flat_map round_answers turns.

(** What the checks and the configuration at the start of the
    initialisation leave alone: the bus, the clock, the log, the receive
    buffer and the settings. *)
Definition prepared (w w' : world) : Prop :=
  bus (hw w') = bus (hw w) /\
  uptime_us (hw w') = uptime_us (hw w) /\
  trace (hw w') = trace (hw w) /\
  rcv_buffer (dev w') = rcv_buffer (dev w) /\
  settings w' = settings w.

(** A board whose IRQ_OUT line is not ready. *)
Definition unready_line : board :=
  {| spi_is_ready := true;
     cs_port_is_ready := true; cs_configure := 0;
     irq_in_port_is_ready := true; irq_in_configure := 0;
     irq_out_is_ready := false; irq_out_configure := 0;
     irq_out_add_callback := 0 |}.

(** A board whose bus is not ready. *)
Definition unready_bus : board :=
  {| spi_is_ready := false;
     cs_port_is_ready := true; cs_configure := 0;
     irq_in_port_is_ready := true; irq_in_configure := 0;
     irq_out_is_ready := true; irq_out_configure := 0;
     irq_out_add_callback := 0 |}.

(** A chip that answers the header read with a declared length of 2 and the
    payload [AA BB]. *)
Definition short_answer : list reply := [ok [0; 0x80; 2]; ok [0xAA; 0xBB]].

(** *** Calibration on a bus that works *)

(** Every answer still to come is a transfer the bus accepts. *)
Definition healthy (w : world) : Prop :=
  Forall (fun r => r_err r = 0) (bus (hw w)).

(** From [w] to [w'] a healthy bus stayed healthy, and the send buffer kept
    its size and the candidate in byte 14. *)
Definition steady (w w' : world) : Prop :=
  (healthy w -> healthy w') /\
  length (snd_buffer (dev w')) = length (snd_buffer (dev w)) /\
  candidate w' = candidate w.

(** The distance between the candidates that can reach step [i]. *)
Definition spacing (i : nat) : Z :=
  match i with
  | 2%nat => 256
  | 3%nat => 128
  | 4%nat => 64
  | 5%nat => 32
  | 6%nat => 16
  | 7%nat => 8
  | _ => 1
  end.

(** The candidates that can reach step [i]: FC at step 1; from step 2 on an
    8-bit value that is an odd multiple of half the spacing, less 4. *)
Definition reach (i : nat) (c : Z) : Prop :=
  match i with
  | 0%nat => True
  | 1%nat => c = 0xFC
  | _ => 0 <= c < 256 /\ 2 * ((c + 4) mod spacing i) = spacing i
  end.

(** The loop of the calibration at the start of step [i]. *)
Definition calibrating (i : nat) (w : world) : Prop :=
  healthy w /\
  (15 <= length (snd_buffer (dev w)))%nat /\
  reach i (candidate w).

(** What a calibration on a healthy bus can return. *)
Definition calibration_result (r : Z) : Prop :=
  r = - EIO \/ (- 4 <= r <= 248 /\ r mod 4 = 0).

(** *** The modes the driver records *)

(** The four modes [rfid_cr95hf_setmode] is ever called with. *)
Definition recorded_by_driver (mode : rfid_mode_t) : Prop :=
  mode = UNINITIALIZED \/ mode = POWER_UP \/ mode = READY \/ mode = TAG_DETECTOR.

(** From [w] to [w'] the mode stayed, or one of the four was recorded. *)
Definition kept_or_recorded (w w' : world) : Prop :=
  current_mode (dev w') = current_mode (dev w) \/
  recorded_by_driver (current_mode (dev w')).

(** ** Proof steps *)

(** Unfolds the statements of a body down to the calls it makes. *)
Ltac expose :=
  cbv beta iota delta
    [completes exchange send_reqa send_select send_select_complete
     bind ret return_ when call read modify data_set rcv snd
     snd_buffer_store snd_buffer_store_rcv get_uid_return].

(** Runs the next call of hypothesis [H], which says that a command
    completes, and with it the same call in the goal. *)
Ltac run_call H :=
  match type of H with
  | context [match ?p ?w with Some _ => _ | None => _ end] =>
      let E := fresh "E" in
      let e := fresh "e" in
      let wn := fresh "wn" in
      destruct (p w) as [[e wn]|] eqn:E; [ | discriminate H ];
      try (destruct (nonzero e) eqn:?; [ discriminate H | ]);
      cbv beta iota in H |- *
  end.

(** Runs a whole command: send, wait, read. *)
Ltac run_command H :=
  revert H; expose; intro H;
  run_call H; run_call H; run_call H;
  injection H as H; subst.

(** * Properties *)

(** ** Frame transport *)

(** C9. When the bus primitive fails inside [rfid_cr95hf_transceive] (here
    for either value of the release flag, so also for [true]), the call
    returns the primitive's error at once: the bus transfer is the last thing
    it did, chip-select is still asserted, and neither the deassert nor a
    settle delay follows. *)
Theorem transceive_failure_leaves_cs_asserted :
  forall (release_cs : bool) (w : world) (r : reply) (rest : list reply),
    bus (hw w) = r :: rest ->
    r_err r <> 0 ->
    0 < spi_snd_buffer_len (dev w) \/ 0 < spi_rcv_buffer_len (dev w) ->
    exists (w' : world) (e : event),
      rfid_cr95hf_transceive release_cs w = Some (r_err r, w') /\
      is_spi_failure e (r_err r) /\
      trace (hw w') = trace (hw w) ++ [GpioSet CS 1; Sleep (K_MSEC 1); e] /\
      cs_level (hw w') = 1 /\
      bus (hw w') = rest /\
      dev w' = dev w.
Proof.
  intros release_cs w r rest Hbus Herr Hlen.
  assert (Hnz : nonzero (r_err r) = true).
  { unfold nonzero. apply negb_true_iff, Z.eqb_neq, Herr. }
  assert (Heq : (r_err r =? 0) = false) by (apply Z.eqb_neq, Herr).
  unfold rfid_cr95hf_transceive, fn, bind, gpio_pin_set_dt, k_sleep, hw_set,
    modify, read, when, return_, ret, spi_transceive_dt, spi_write_dt, spi_call.
  cbn [hw dev with_hw with_dev bus log set_cs_level set_uptime_us].
  destruct (0 <? spi_snd_buffer_len (dev w)) eqn:Hs;
    destruct (0 <? spi_rcv_buffer_len (dev w)) eqn:Hr;
    cbn [andb hw dev with_hw with_dev bus log set_cs_level set_uptime_us].
  4: { apply Z.ltb_ge in Hs, Hr. lia. }
  all: rewrite Hbus, Heq, Hnz.
  all: eexists; eexists; repeat split; cbn.
  all: try (rewrite <- !app_assoc; reflexivity).
  all: cbn; reflexivity.
Qed.

(** On the bench: one byte to send, and the bus answers [-EIO]. *)
Lemma transceive_failure_leaves_cs_asserted_witness :
  exists (w' : world) (e : event),
    rfid_cr95hf_transceive true
      (with_dev (set_spi_snd_buffer_len 1) (bench READY 0 50 [failed (- EIO)])) =
      Some (- EIO, w') /\
    is_spi_failure e (- EIO) /\
    trace (hw w') = [GpioSet CS 1; Sleep (K_MSEC 1); e] /\
    cs_level (hw w') = 1 /\
    bus (hw w') = [] /\
    dev w' = set_spi_snd_buffer_len 1 (bench_data READY 0).
Proof.
  apply (transceive_failure_leaves_cs_asserted true
           (with_dev (set_spi_snd_buffer_len 1) (bench READY 0 50 [failed (- EIO)]))
           (failed (- EIO)) []).
  - reflexivity.
  - vm_compute. discriminate.
  - left. vm_compute. reflexivity.
Defined.

(** ** Readiness: the polling loop *)

(** A read-only transfer takes exactly one answer from the bus and leaves
    the two buffer lengths alone. *)
Lemma transceive_read_takes_one :
  forall (release_cs : bool) (w : world),
    spi_snd_buffer_len (dev w) = 0 ->
    0 < spi_rcv_buffer_len (dev w) ->
    match bus (hw w) with
    | [] => rfid_cr95hf_transceive release_cs w = None
    | r :: rest =>
        exists w' : world,
          rfid_cr95hf_transceive release_cs w = Some (r_err r, w') /\
          bus (hw w') = rest /\
          spi_snd_buffer_len (dev w') = 0 /\
          spi_rcv_buffer_len (dev w') = spi_rcv_buffer_len (dev w)
    end.
Proof.
  intros release_cs w Hs Hr.
  apply Z.ltb_lt in Hr.
  unfold rfid_cr95hf_transceive, fn, bind, gpio_pin_set_dt, k_sleep, hw_set,
    modify, read, when, return_, ret, spi_transceive_dt, spi_write_dt, spi_call.
  cbn [hw dev with_hw with_dev bus log set_cs_level set_uptime_us].
  rewrite Hs, Hr.
  cbn [Z.ltb Z.compare andb hw dev with_hw with_dev bus log set_cs_level set_uptime_us].
  destruct (bus (hw w)) as [|r rest]; [reflexivity|].
  unfold nonzero.
  destruct (Z.eqb_spec (r_err r) 0) as [He|He]; try rewrite He;
    cbn [negb]; destruct release_cs;
    eexists; (split; [reflexivity|]); cbn; auto.
Qed.

(** One turn of the polling loop, spelled out. *)
Lemma polling_loop_turn :
  forall (n : nat) (ready_read ready_send : bool) (w : world),
    rfid_cr95hf_polling_loop (S n) ready_read ready_send w =
    match
      rfid_cr95hf_transceive true
        (with_dev (fun d => set_rcv_buffer (store 0 0 (rcv_buffer d)) d) w)
    with
    | None => None
    | Some (err, w') =>
        if nonzero err then Some (Return err, w')
        else if ready_read && nonzero (Z.land (response w' 0) 8) then
          Some (Return 0, w')
        else if ready_send && nonzero (Z.land (response w' 0) 4) then
          Some (Return 0, w')
        else rfid_cr95hf_polling_loop n ready_read ready_send w'
    end.
Proof.
  intros n rr rs w.
  cbn [rfid_cr95hf_polling_loop].
  cbv beta iota delta [bind rcv_buffer_store data_set modify call when rcv read
                       return_ ret response].
  destruct (rfid_cr95hf_transceive true _) as [[err w']|]; [|reflexivity].
  destruct (nonzero err); [reflexivity|].
  destruct (rr && _); [reflexivity|].
  destruct (rs && _); reflexivity.
Qed.

(** The bound on the turns of the polling loop cuts nothing off: with the
    buffer lengths the loop runs under (nothing to send, something to
    receive) every turn takes one answer from the bus, so any number of
    turns above the number of answers left gives the same run. *)
Lemma polling_loop_turns :
  forall (m n : nat) (ready_read ready_send : bool) (w : world),
    spi_snd_buffer_len (dev w) = 0 ->
    0 < spi_rcv_buffer_len (dev w) ->
    length (bus (hw w)) = m ->
    (m < n)%nat ->
    rfid_cr95hf_polling_loop n ready_read ready_send w =
    rfid_cr95hf_polling_loop (S m) ready_read ready_send w.
Proof.
  induction m as [|m IH]; intros n rr rs w Hs Hr Hm Hn;
    (destruct n as [|n]; [lia|]);
    rewrite !polling_loop_turn;
    set (w0 := with_dev _ w);
    pose proof (transceive_read_takes_one true w0 Hs Hr) as Ht;
    change (bus (hw w0)) with (bus (hw w)) in Ht;
    destruct (bus (hw w)) as [|r rest]; try discriminate Hm.
  - rewrite Ht. reflexivity.
  - destruct Ht as (w' & -> & Hb & Hs' & Hr').
    destruct (nonzero (r_err r)); [reflexivity|].
    destruct (rr && _); [reflexivity|].
    destruct (rs && _); [reflexivity|].
    apply IH.
    + exact Hs'.
    + rewrite Hr'. exact Hr.
    + rewrite Hb. cbn in Hm. lia.
    + lia.
Qed.

(** [rfid_cr95hf_wait] returns nothing: whatever the polling found, an
    error included, is gone once it returns. *)
Lemma wait_drops_polling_result :
  forall (config : rfid_cr95hf_spi_config) (w w' : world) (err : Z),
    irq_out config = None ->
    rfid_cr95hf_polling true true w = Some (err, w') ->
    rfid_cr95hf_wait config w = Some (tt, w').
Proof.
  intros config w w' err Hcfg Hpoll.
  unfold rfid_cr95hf_wait, fn. rewrite Hcfg.
  unfold bind, call, ret. rewrite Hpoll. reflexivity.
Qed.

(** With an IRQ_OUT line that reads inactive, the driver arms the interrupt,
    takes the semaphore when the edge comes and disarms it again; the bus
    sees no polling. *)
Example protocol_select_waits_for_irq_out :
  returned_after 10
    (rfid_cr95hf_protocol_select 64 signalled ISO_14443A
       (on_irq_out [0] 1 (bench READY 0 50 [ok []; ok [0; 0; 0]])))
  = Some (0, [GpioSet CS 1; Sleep (K_MSEC 1);
              SpiWrite [0; 2; 2; 2; 0; 0; 0] 0;
              Sleep (K_MSEC 1); GpioSet CS 0; Sleep (K_MSEC 1);
              GpioGet IRQ_OUT 0; IrqConfigure IRQ_OUT true; SemTake;
              IrqConfigure IRQ_OUT false]).
Proof.
  vm_compute. reflexivity.
Qed.

(** With no edge to come, the call never returns. *)
Example protocol_select_waits_forever :
  rfid_cr95hf_protocol_select 64 signalled ISO_14443A
    (on_irq_out [0] 0 (bench READY 0 50 [ok []; ok [0; 0; 0]])) = None.
Proof.
  vm_compute. reflexivity.
Qed.

(** ** Anticollision: the argument check *)

(** C8. A declared buffer length below 10 makes
    [rfid_cr95hf_iso14443A_get_uid] return [-EINVAL] in the very world it was
    called in: nothing was sent on the bus, nothing was logged, and the
    caller's buffer and length are as they were. *)
Theorem get_uid_short_buffer :
  forall (size : Z) (config : rfid_cr95hf_spi_config)
         (uid : option (list Z)) (uid_len : Z) (w : world),
    uid_len < 10 ->
    rfid_cr95hf_iso14443A_get_uid size config uid uid_len w =
      Some ({| uid_ret := - EINVAL; uid_buf := uid; uid_length := uid_len |}, w).
Proof.
  intros size config uid uid_len w Hlen.
  apply Z.ltb_lt in Hlen.
  unfold rfid_cr95hf_iso14443A_get_uid, fn, bind, when.
  rewrite Hlen. reflexivity.
Qed.

(** On the bench: a buffer of nine bytes. *)
Lemma get_uid_short_buffer_witness :
  9 < 10 /\
  rfid_cr95hf_iso14443A_get_uid 64 polled (Some (repeat 0 9)) 9
    (bench READY 0 50 tagged_card) =
  Some ({| uid_ret := - EINVAL; uid_buf := Some (repeat 0 9); uid_length := 9 |},
        bench READY 0 50 tagged_card).
Proof.
  split; [ lia | apply get_uid_short_buffer; lia ].
Defined.

(** C10. A NULL [uid] pointer makes [rfid_cr95hf_iso14443A_get_uid] return
    [-EINVAL] in the world it was called in, whatever length is declared. *)
Theorem get_uid_null_buffer :
  forall (size : Z) (config : rfid_cr95hf_spi_config) (uid_len : Z) (w : world),
    rfid_cr95hf_iso14443A_get_uid size config None uid_len w =
      Some ({| uid_ret := - EINVAL; uid_buf := None; uid_length := uid_len |}, w).
Proof.
  intros size config uid_len w.
  unfold rfid_cr95hf_iso14443A_get_uid, fn, bind, when.
  rewrite orb_true_r. reflexivity.
Qed.

(** ** Anticollision: the cascade *)

(** Reading an answer off the front of the receive buffer. *)
Lemma response_of_firstn :
  forall (w : world) (a b c d e : Z),
    firstn 5 (rcv_buffer (dev w)) = [a; b; c; d; e] ->
    response w 0 = a /\ response w 1 = b /\ response w 2 = c /\
    response w 3 = d /\ response w 4 = e.
Proof.
  intros w a b c d e H. unfold response, byte_at.
  destruct (rcv_buffer (dev w)) as [|x0 [|x1 [|x2 [|x3 [|x4 l]]]]];
    cbn in H; try discriminate.
  injection H as -> -> -> -> ->. cbn. repeat split.
Qed.

Lemma store3_prefix :
  forall (uid : list Z) (a b c : Z),
    (3 <= length uid)%nat ->
    store 2 c (store 1 b (store 0 a uid)) = [a; b; c] ++ skipn 3 uid.
Proof.
  intros uid a b c H.
  destruct uid as [|x0 [|x1 [|x2 l]]]; cbn in H; try lia. reflexivity.
Qed.

Lemma store4_prefix :
  forall (uid : list Z) (a b c d : Z),
    (4 <= length uid)%nat ->
    store 3 d (store 2 c (store 1 b (store 0 a uid))) = [a; b; c; d] ++ skipn 4 uid.
Proof.
  intros uid a b c d H.
  destruct uid as [|x0 [|x1 [|x2 [|x3 l]]]]; cbn in H; try lia. reflexivity.
Qed.

Lemma store10_prefix :
  forall (uid : list Z) (a b c d e f g h i j : Z),
    (10 <= length uid)%nat ->
    store 9 j (store 8 i (store 7 h (store 6 g
      (store 5 f (store 4 e (store 3 d
        (store 2 c (store 1 b (store 0 a uid))))))))) =
    [a; b; c; d; e; f; g; h; i; j] ++ skipn 10 uid.
Proof.
  intros uid a b c d e f g h i j H.
  destruct uid as [|x0 [|x1 [|x2 [|x3 [|x4 [|x5 [|x6 [|x7 [|x8 [|x9 l]]]]]]]]]];
    cbn in H; try lia.
  reflexivity.
Qed.

(** A card that needs one cascade level: the three commands complete and the
    SAK has bit 0x04 clear. *)
Lemma get_uid_one_level :
  forall (size : Z) (config : rfid_cr95hf_spi_config)
         (uid : list Z) (uid_len : Z) (w w1 w2 w3 : world),
    10 <= uid_len ->
    completes (send_reqa size config) w w1 ->
    completes (send_select size config 0x93) w1 w2 ->
    completes (send_select_complete size config 0x93) w2 w3 ->
    sak_more w3 = false ->
    rfid_cr95hf_iso14443A_get_uid size config (Some uid) uid_len w =
      Some ({| uid_ret := 0;
               uid_buf := Some (cascade_uid 0 w2 uid);
               uid_length := cascade_len 4 w2 uid_len |}, w3).
Proof.
  intros size config uid uid_len w w1 w2 w3 Hlen H1 H2 H3 Hsak.
  apply Z.ltb_ge in Hlen.
  unfold sak_more, response in Hsak.
  unfold rfid_cr95hf_iso14443A_get_uid, fn, cascade_uid, cascade_len, response.
  expose. rewrite Hlen. cbn [orb].
  run_command H1.
  run_command H2.
  destruct (byte_at (rcv_buffer (dev w2)) 0 =? 136) eqn:Htag; cbv beta iota.
  - run_command H3. repeat (rewrite Hsak; cbv beta iota). reflexivity.
  - run_command H3. repeat (rewrite Hsak; cbv beta iota). reflexivity.
Qed.

(** A card that needs two cascade levels. *)
Lemma get_uid_two_levels :
  forall (size : Z) (config : rfid_cr95hf_spi_config)
         (uid : list Z) (uid_len : Z) (w w1 w2 w3 w4 w5 : world),
    10 <= uid_len ->
    completes (send_reqa size config) w w1 ->
    completes (send_select size config 0x93) w1 w2 ->
    completes (send_select_complete size config 0x93) w2 w3 ->
    sak_more w3 = true ->
    completes (send_select size config 0x95) w3 w4 ->
    completes (send_select_complete size config 0x95) w4 w5 ->
    sak_more w5 = false ->
    rfid_cr95hf_iso14443A_get_uid size config (Some uid) uid_len w =
      Some ({| uid_ret := 0;
               uid_buf := Some (cascade_uid 3 w4 (cascade_uid 0 w2 uid));
               uid_length := cascade_len 7 w4 (cascade_len 4 w2 uid_len) |}, w5).
Proof.
  intros size config uid uid_len w w1 w2 w3 w4 w5 Hlen H1 H2 H3 Hsak3 H4 H5 Hsak5.
  apply Z.ltb_ge in Hlen.
  unfold sak_more, response in Hsak3, Hsak5.
  unfold rfid_cr95hf_iso14443A_get_uid, fn, cascade_uid, cascade_len, response.
  expose. rewrite Hlen. cbn [orb].
  run_command H1.
  run_command H2.
  destruct (byte_at (rcv_buffer (dev w2)) 0 =? 136) eqn:Htag1; cbv beta iota;
    run_command H3; rewrite Hsak3; cbv beta iota;
    run_command H4;
    (destruct (byte_at (rcv_buffer (dev w4)) 0 =? 136) eqn:Htag2; cbv beta iota;
     run_command H5; rewrite Hsak5; cbv beta iota; reflexivity).
Qed.

(** A card that needs three cascade levels. *)
Lemma get_uid_three_levels :
  forall (size : Z) (config : rfid_cr95hf_spi_config)
         (uid : list Z) (uid_len : Z) (w w1 w2 w3 w4 w5 w6 w7 : world),
    10 <= uid_len ->
    completes (send_reqa size config) w w1 ->
    completes (send_select size config 0x93) w1 w2 ->
    completes (send_select_complete size config 0x93) w2 w3 ->
    sak_more w3 = true ->
    completes (send_select size config 0x95) w3 w4 ->
    completes (send_select_complete size config 0x95) w4 w5 ->
    sak_more w5 = true ->
    completes (send_select size config 0x97) w5 w6 ->
    completes (send_select_complete size config 0x97) w6 w7 ->
    rfid_cr95hf_iso14443A_get_uid size config (Some uid) uid_len w =
      Some ({| uid_ret := 0;
               uid_buf :=
                 Some (level3_uid w6 (cascade_uid 3 w4 (cascade_uid 0 w2 uid)));
               uid_length := 10 |}, w7).
Proof.
  intros size config uid uid_len w w1 w2 w3 w4 w5 w6 w7
    Hlen H1 H2 H3 Hsak3 H4 H5 Hsak5 H6 H7.
  apply Z.ltb_ge in Hlen.
  unfold sak_more, response in Hsak3, Hsak5.
  unfold rfid_cr95hf_iso14443A_get_uid, fn, cascade_uid, cascade_len,
    level3_uid, response.
  expose. rewrite Hlen. cbn [orb].
  run_command H1.
  run_command H2.
  destruct (byte_at (rcv_buffer (dev w2)) 0 =? 136) eqn:Htag1; cbv beta iota;
    run_command H3; rewrite Hsak3; cbv beta iota;
    run_command H4;
    (destruct (byte_at (rcv_buffer (dev w4)) 0 =? 136) eqn:Htag2; cbv beta iota;
     run_command H5; rewrite Hsak5; cbv beta iota;
     run_command H6; run_command H7; reflexivity).
Qed.

(** C6. The card answers SEL_CL1, and the SAK after SEL_CL1 complete has bit
    0x04 clear.  When the answer was [88 11 22 33 44], the call succeeds with
    [11 22 33] in [uid[0 .. 2]], the rest of [uid] as the caller left it (no
    byte of a second level) and [*uid_len] as the caller left it, which is
    not 7.  When the answer was [AA BB CC DD EE], the call succeeds with
    [AA BB CC DD] in [uid[0 .. 3]] and [*uid_len = 4]. *)
Theorem get_uid_single_level_answers :
  forall (size : Z) (config : rfid_cr95hf_spi_config)
         (uid : list Z) (uid_len : Z) (w w1 w2 w3 : world),
    10 <= uid_len ->
    uid_len <= Z.of_nat (length uid) ->
    completes (send_reqa size config) w w1 ->
    completes (send_select size config 0x93) w1 w2 ->
    completes (send_select_complete size config 0x93) w2 w3 ->
    sak_more w3 = false ->
    (firstn 5 (rcv_buffer (dev w2)) = [0x88; 0x11; 0x22; 0x33; 0x44] ->
     rfid_cr95hf_iso14443A_get_uid size config (Some uid) uid_len w =
       Some ({| uid_ret := 0;
                uid_buf := Some ([0x11; 0x22; 0x33] ++ skipn 3 uid);
                uid_length := uid_len |}, w3) /\
     uid_len <> 7)
    /\
    (firstn 5 (rcv_buffer (dev w2)) = [0xAA; 0xBB; 0xCC; 0xDD; 0xEE] ->
     rfid_cr95hf_iso14443A_get_uid size config (Some uid) uid_len w =
       Some ({| uid_ret := 0;
                uid_buf := Some ([0xAA; 0xBB; 0xCC; 0xDD] ++ skipn 4 uid);
                uid_length := 4 |}, w3)).
Proof.
  intros size config uid uid_len w w1 w2 w3 Hlen Hbuf H1 H2 H3 Hsak.
  pose proof (get_uid_one_level size config uid uid_len w w1 w2 w3
                Hlen H1 H2 H3 Hsak) as Hrun.
  unfold cascade_uid, cascade_len in Hrun.
  split; intro Hresp;
    apply response_of_firstn in Hresp;
    destruct Hresp as (R0 & R1 & R2 & R3 & _);
    rewrite R0, R1, R2, R3 in Hrun; cbn [Z.eqb Pos.eqb Nat.add] in Hrun.
  - rewrite store3_prefix in Hrun by lia. split; [exact Hrun | lia].
  - rewrite store4_prefix in Hrun by lia. exact Hrun.
Qed.

(** On the bench: the tagged card and the plain card, polled. *)
Lemma get_uid_single_level_answers_witness :
  (exists w3 : world,
     rfid_cr95hf_iso14443A_get_uid 64 polled (Some caller_uid) 12
       (bench READY 0 50 tagged_card) =
     Some ({| uid_ret := 0;
              uid_buf := Some ([0x11; 0x22; 0x33] ++ repeat 0xFF 9);
              uid_length := 12 |}, w3))
  /\
  (exists w3 : world,
     rfid_cr95hf_iso14443A_get_uid 64 polled (Some caller_uid) 12
       (bench READY 0 50 plain_card) =
     Some ({| uid_ret := 0;
              uid_buf := Some ([0xAA; 0xBB; 0xCC; 0xDD] ++ repeat 0xFF 8);
              uid_length := 4 |}, w3)).
Proof.
  split.
  - pose (w := bench READY 0 50 tagged_card).
    pose (w1 := run_to (send_reqa 64 polled) w).
    pose (w2 := run_to (send_select 64 polled 0x93) w1).
    pose (w3 := run_to (send_select_complete 64 polled 0x93) w2).
    exists w3.
    refine (proj1 (proj1
      (get_uid_single_level_answers 64 polled caller_uid 12 w w1 w2 w3
         _ _ _ _ _ _) _)).
    + lia.
    + vm_compute. discriminate.
    + vm_compute. reflexivity.
    + vm_compute. reflexivity.
    + vm_compute. reflexivity.
    + vm_compute. reflexivity.
    + vm_compute. reflexivity.
  - pose (w := bench READY 0 50 plain_card).
    pose (w1 := run_to (send_reqa 64 polled) w).
    pose (w2 := run_to (send_select 64 polled 0x93) w1).
    pose (w3 := run_to (send_select_complete 64 polled 0x93) w2).
    exists w3.
    refine (proj2
      (get_uid_single_level_answers 64 polled caller_uid 12 w w1 w2 w3
         _ _ _ _ _ _) _).
    + lia.
    + vm_compute. discriminate.
    + vm_compute. reflexivity.
    + vm_compute. reflexivity.
    + vm_compute. reflexivity.
    + vm_compute. reflexivity.
    + vm_compute. reflexivity.
Defined.

(** C7. Three cascade levels: every command completes, the answers to
    SEL_CL1 and SEL_CL2 start with the cascade tag 0x88, and the SAK has bit
    0x04 set after SEL_CL1 complete and after SEL_CL2 complete.  The call
    succeeds with [*uid_len = 10] and
    [uid[0 .. 2]] = bytes 1-3 of the first answer,
    [uid[3 .. 5]] = bytes 1-3 of the second,
    [uid[6 .. 9]] = bytes 0-3 of the third.
    The SAK read after level 3 plays no part. *)
Theorem get_uid_three_level_cascade :
  forall (size : Z) (config : rfid_cr95hf_spi_config)
         (uid : list Z) (uid_len : Z) (w w1 w2 w3 w4 w5 w6 w7 : world),
    10 <= uid_len ->
    uid_len <= Z.of_nat (length uid) ->
    completes (send_reqa size config) w w1 ->
    completes (send_select size config 0x93) w1 w2 ->
    response w2 0 = 0x88 ->
    completes (send_select_complete size config 0x93) w2 w3 ->
    sak_more w3 = true ->
    completes (send_select size config 0x95) w3 w4 ->
    response w4 0 = 0x88 ->
    completes (send_select_complete size config 0x95) w4 w5 ->
    sak_more w5 = true ->
    completes (send_select size config 0x97) w5 w6 ->
    completes (send_select_complete size config 0x97) w6 w7 ->
    rfid_cr95hf_iso14443A_get_uid size config (Some uid) uid_len w =
      Some ({| uid_ret := 0;
               uid_buf :=
                 Some ([response w2 1; response w2 2; response w2 3;
                        response w4 1; response w4 2; response w4 3;
                        response w6 0; response w6 1; response w6 2;
                        response w6 3] ++ skipn 10 uid);
               uid_length := 10 |}, w7).
Proof.
  intros size config uid uid_len w w1 w2 w3 w4 w5 w6 w7
    Hlen Hbuf H1 H2 Htag1 H3 Hsak3 H4 Htag2 H5 Hsak5 H6 H7.
  rewrite (get_uid_three_levels size config uid uid_len w w1 w2 w3 w4 w5 w6 w7)
    by assumption.
  unfold level3_uid, cascade_uid. rewrite Htag1, Htag2.
  cbn [Z.eqb Pos.eqb Nat.add].
  rewrite <- (store10_prefix uid (response w2 1) (response w2 2) (response w2 3)
                (response w4 1) (response w4 2) (response w4 3)
                (response w6 0) (response w6 1) (response w6 2) (response w6 3))
    by lia.
  reflexivity.
Qed.

(** On the bench: the card with a ten byte UID, polled. *)
Lemma get_uid_three_level_cascade_witness :
  exists w7 : world,
    rfid_cr95hf_iso14443A_get_uid 64 polled (Some caller_uid) 12
      (bench READY 0 50 triple_card) =
    Some ({| uid_ret := 0;
             uid_buf := Some ([1; 2; 3; 4; 5; 6; 7; 8; 9; 10] ++ repeat 0xFF 2);
             uid_length := 10 |}, w7).
Proof.
  pose (w := bench READY 0 50 triple_card).
  pose (w1 := run_to (send_reqa 64 polled) w).
  pose (w2 := run_to (send_select 64 polled 0x93) w1).
  pose (w3 := run_to (send_select_complete 64 polled 0x93) w2).
  pose (w4 := run_to (send_select 64 polled 0x95) w3).
  pose (w5 := run_to (send_select_complete 64 polled 0x95) w4).
  pose (w6 := run_to (send_select 64 polled 0x97) w5).
  pose (w7 := run_to (send_select_complete 64 polled 0x97) w6).
  exists w7.
  refine (get_uid_three_level_cascade 64 polled caller_uid 12
            w w1 w2 w3 w4 w5 w6 w7 _ _ _ _ _ _ _ _ _ _ _ _ _).
  - lia.
  - vm_compute. discriminate.
  - vm_compute. reflexivity.
  - vm_compute. reflexivity.
  - vm_compute. reflexivity.
  - vm_compute. reflexivity.
  - vm_compute. reflexivity.
  - vm_compute. reflexivity.
  - vm_compute. reflexivity.
  - vm_compute. reflexivity.
  - vm_compute. reflexivity.
  - vm_compute. reflexivity.
  - vm_compute. reflexivity.
Defined.

(** ** Mode state machine *)

(** C1. The wait before a mode switch is taken from the recorded timestamp
    alone, not from the time elapsed since.  The device is READY and
    TAG_DETECTOR is requested.  With the last switch at 1000 ms and the clock
    at 1005 ms, the call does not wait for the remaining 5 ms: the first
    thing it does is the fixed 10 ms settle delay, then the bus transfer.
    With the last switch at 3 ms and the clock at 5000 ms, it waits 7 ms. *)
Theorem select_mode_dwell_ignores_clock :
  returned_after 2
    (rfid_cr95hf_select_mode 64 polled TAG_DETECTOR (bench READY 1000 1005 (answer [1])))
    = Some (0, [Sleep (K_MSEC 10); GpioSet CS 1])
  /\
  returned_after 3
    (rfid_cr95hf_select_mode 64 polled TAG_DETECTOR (bench READY 3 5000 (answer [1])))
    = Some (0, [Sleep (K_MSEC 7); Sleep (K_MSEC 10); GpioSet CS 1]).
Proof.
  split; vm_compute; reflexivity.
Qed.


(** ** Error propagation *)

(** C5. A bus failure while [rfid_cr95hf_wait] polls is dropped: the flag
    read after the protocol select command fails with [-EIO], the driver
    goes on to read the response, and [rfid_cr95hf_protocol_select] returns
    0. *)
Theorem protocol_select_drops_polling_failure :
  returned (rfid_cr95hf_polling true true
              (with_dev (set_spi_rcv_buffer_len 0)
                 (bench READY 0 50 [ok []; failed (- EIO)])))
    = Some (- EIO)
  /\
  returned (rfid_cr95hf_protocol_select 64 polled ISO_14443A
              (bench READY 0 50 failing_poll))
    = Some 0.
Proof.
  split; vm_compute; reflexivity.
Qed.

(** ** Anticollision: the length on the tagged path *)

(** C2. The SEL_CL1 answer starts with the cascade tag 0x88 and the SAK has
    bit 0x04 clear: the call succeeds and [*uid_len] is never written; it
    still holds the 12 the caller declared. *)
Theorem get_uid_tagged_answer_leaves_length :
  returned (rfid_cr95hf_iso14443A_get_uid 64 polled (Some caller_uid) 12
              (bench READY 0 50 tagged_card))
    = Some {| uid_ret := 0;
              uid_buf := Some ([0x11; 0x22; 0x33] ++ repeat 0xFF 9);
              uid_length := 12 |}.
Proof.
  vm_compute. reflexivity.
Qed.

(** ** Calibration *)

(** For steps 0 to 7 the switch carries out the rule, provided the candidate
    is at least 4 when step 7 finds LOW. *)
Lemma calibration_switch_follows_rule :
  forall (i : nat) (w : world),
    (i < 8)%nat ->
    (i = 7%nat -> classify w = Low -> 4 <= candidate w < 256) ->
    rfid_cr95hf_calibration_switch i w =
    carry_out (calibration_rule i (classify w) (candidate w)) w.
Proof.
  intros i w Hi Hrange.
  unfold rfid_cr95hf_calibration_switch, classify, candidate, response in *.
  cbv beta iota delta [bind rcv snd read].
  destruct i as [|[|[|[|[|[|[|[|i]]]]]]]]; try lia;
    cbn [calibration_rule step_size];
    destruct ((byte_at (rcv_buffer (dev w)) 0 =? 0) &&
              (byte_at (rcv_buffer (dev w)) 1 =? 1) &&
              (byte_at (rcv_buffer (dev w)) 2 =? 1)) eqn:Hlow;
    try (destruct ((byte_at (rcv_buffer (dev w)) 0 =? 0) &&
                   (byte_at (rcv_buffer (dev w)) 1 =? 1) &&
                   (byte_at (rcv_buffer (dev w)) 2 =? 2)) eqn:Hhigh);
    try reflexivity.
  - (* step 0: the triple cannot be LOW and HIGH at once *)
    apply andb_true_iff in Hlow as [_ Hlow]. apply Z.eqb_eq in Hlow.
    apply andb_true_iff in Hhigh as [_ Hhigh]. apply Z.eqb_eq in Hhigh.
    lia.
  - (* step 7, LOW *)
    cbn [carry_out]. unfold u8.
    rewrite Z.mod_small by (specialize (Hrange eq_refl eq_refl); lia).
    reflexivity.
  - cbn [carry_out]. unfold u8.
    rewrite Z.mod_small by (specialize (Hrange eq_refl eq_refl); lia).
    reflexivity.
Qed.

(** At step 7, LOW with a candidate below 4 returns a negative value where
    the rule gives the 8-bit one. *)
Lemma calibration_switch_leaves_range :
  forall (w : world),
    classify w = Low ->
    0 <= candidate w < 4 ->
    rfid_cr95hf_calibration_switch 7 w = Some (Return (candidate w - 4), w) /\
    candidate w - 4 < 0 /\
    calibration_rule 7 Low (candidate w) = Calibrated (candidate w + 252).
Proof.
  intros w Hlow Hc.
  unfold rfid_cr95hf_calibration_switch, classify, candidate, response in *.
  cbv beta iota delta [bind rcv snd read].
  destruct ((byte_at (rcv_buffer (dev w)) 0 =? 0) &&
            (byte_at (rcv_buffer (dev w)) 1 =? 1) &&
            (byte_at (rcv_buffer (dev w)) 2 =? 1)).
  - repeat split; try lia.
    cbn [calibration_rule]. unfold u8. f_equal.
    symmetry. apply Z.mod_unique with (q := -1); lia.
  - destruct (_ && _); discriminate.
Qed.

(** C3. With the answers HIGH, LOW, LOW, LOW, LOW, LOW, LOW, LOW the
    candidate goes FC, 7C, 3C, 1C, 0C, 04, 00 and the value returned at step
    7 is [0 - 4] computed in [int]: the call returns -4, the negative value
    that also stands for [-EINTR], where 8-bit arithmetic gives FC. *)
Theorem calibration_all_low_returns_minus_4 :
  returned (rfid_cr95hf_calibration 64 polled (bench READY 0 50 all_low))
    = Some (- 4)
  /\ - 4 = - EINTR
  /\ u8 (0xFC - 0x80 - 0x40 - 0x20 - 0x10 - 0x08 - 0x04 - 4) = 0xFC.
Proof.
  repeat split; vm_compute; reflexivity.
Qed.

(** The answers HIGH, LOW, HIGH, HIGH, HIGH, HIGH, HIGH, HIGH give
    FC - 80 + 40 + 20 + 10 + 08 + 04 = F8. *)
Lemma calibration_all_high_returns_F8 :
  returned (rfid_cr95hf_calibration 64 polled (bench READY 0 50 all_high))
    = Some 0xF8.
Proof.
  vm_compute. reflexivity.
Qed.

(** A triple that is neither LOW nor HIGH ends the calibration with [-EIO],
    here at step 2 and at step 0. *)
Example calibration_rejects_other_triples :
  returned (rfid_cr95hf_calibration 64 polled
              (bench READY 0 50 (HIGH ++ LOW ++ answer [0; 1; 3])))
    = Some (- EIO)
  /\
  returned (rfid_cr95hf_calibration 64 polled (bench READY 0 50 LOW))
    = Some (- EIO).
Proof.
  split; vm_compute; reflexivity.
Qed.

(** * Further properties *)

(** ** Frame transport: the successful paths *)

(** A frame without a transfer. *)
Lemma transceive_idle :
  forall (release_cs : bool) (w : world),
    spi_snd_buffer_len (dev w) <= 0 ->
    spi_rcv_buffer_len (dev w) <= 0 ->
    exists w' : world,
      rfid_cr95hf_transceive release_cs w = Some (0, w') /\
      dev w' = dev w /\
      bus (hw w') = bus (hw w) /\
      framed release_cs [] (hw w) (hw w').
Proof.
  intros release_cs w Hs Hr.
  apply Z.ltb_ge in Hs, Hr.
  unfold rfid_cr95hf_transceive, fn, bind, gpio_pin_set_dt, k_sleep, hw_set,
    modify, read, when, return_, ret.
  cbn [hw dev with_hw with_dev bus log set_cs_level set_uptime_us].
  rewrite Hs, Hr. cbn [andb].
  destruct release_cs; eexists; (split; [reflexivity|]);
    unfold framed, frame_trace; cbn; rewrite <- ?app_assoc; cbn;
    repeat split; unfold K_MSEC; lia.
Qed.

(** A transfer the bus accepts: [rfid_cr95hf_transceive] returns 0, has taken
    exactly one answer, has put the bytes of the answer at the front of the
    receive buffer (as many as the receive length asks for, none for a
    write), and has changed nothing else in the driver data. *)
Lemma transceive_success :
  forall (release_cs : bool) (w : world) (r : reply) (rest : list reply),
    bus (hw w) = r :: rest ->
    r_err r = 0 ->
    0 < spi_snd_buffer_len (dev w) \/ 0 < spi_rcv_buffer_len (dev w) ->
    exists w' : world,
      rfid_cr95hf_transceive release_cs w = Some (0, w') /\
      dev w' =
        set_rcv_buffer
          (blit (clocked (Z.to_nat (spi_rcv_buffer_len (dev w))) (r_data r))
             (rcv_buffer (dev w)))
          (dev w) /\
      bus (hw w') = rest /\
      framed release_cs [bus_event w 0] (hw w) (hw w').
Proof.
  intros release_cs w r rest Hbus Herr Hlen.
  unfold rfid_cr95hf_transceive, fn, bind, gpio_pin_set_dt, k_sleep, hw_set,
    modify, read, when, return_, ret, spi_transceive_dt, spi_write_dt, spi_call,
    bus_event.
  cbn [hw dev with_hw with_dev bus log set_cs_level set_uptime_us].
  destruct (0 <? spi_snd_buffer_len (dev w)) eqn:Hs;
    destruct (0 <? spi_rcv_buffer_len (dev w)) eqn:Hr;
    cbn [andb hw dev with_hw with_dev bus log set_cs_level set_uptime_us].
  4: { apply Z.ltb_ge in Hs, Hr. lia. }
  all: rewrite Hbus, Herr; cbn [Z.eqb nonzero negb].
  all: destruct release_cs; eexists; (split; [reflexivity|]).
  all: unfold framed, frame_trace; cbn; rewrite <- ?app_assoc; cbn.
  all: repeat split; try (unfold K_MSEC; lia).
  all: apply Z.ltb_ge in Hr; destruct (spi_rcv_buffer_len (dev w)); try lia; reflexivity.
Qed.

(** X1. Frame transport: with nothing to send and nothing to receive,
    [rfid_cr95hf_transceive] makes no bus call.  It returns 0, the answers of
    the bus are all still to come, the driver data is untouched, and
    chip-select has been asserted and, with [release_cs], deasserted again,
    with the settle delays in between. *)
Theorem transceive_nothing_to_do :
  forall (release_cs : bool) (w : world),
    spi_snd_buffer_len (dev w) <= 0 ->
    spi_rcv_buffer_len (dev w) <= 0 ->
    exists w' : world,
      rfid_cr95hf_transceive release_cs w = Some (0, w') /\
      dev w' = dev w /\
      bus (hw w') = bus (hw w) /\
      cs_level (hw w') = (if release_cs then 0 else 1) /\
      trace (hw w') = trace (hw w) ++ frame_trace release_cs [].
Proof.
  intros release_cs w Hs Hr.
  destruct (transceive_idle release_cs w Hs Hr) as (w' & Hrun & Hdev & Hb & Hcs & _ & Ht & _).
  exists w'. auto.
Qed.

(** On the bench: both lengths 0. *)
Lemma transceive_nothing_to_do_witness :
  exists w' : world,
    rfid_cr95hf_transceive true (bench READY 0 50 [ok [1]]) = Some (0, w') /\
    dev w' = bench_data READY 0 /\
    bus (hw w') = [ok [1]] /\
    cs_level (hw w') = 0 /\
    trace (hw w') =
      [GpioSet CS 1; Sleep (K_MSEC 1); Sleep (K_MSEC 1); GpioSet CS 0;
       Sleep (K_MSEC 1)].
Proof.
  apply (transceive_nothing_to_do true (bench READY 0 50 [ok [1]])).
  - vm_compute. discriminate.
  - vm_compute. discriminate.
Defined.

(** X2. Frame transport: when the bus accepts the transfer,
    [rfid_cr95hf_transceive] returns 0 having made exactly one bus call, a
    full-duplex exchange when both lengths are positive, a write when only
    the send length is, a read otherwise.  The bytes received are at the
    front of the receive buffer, nothing else in the driver data has
    changed, chip-select is released exactly when [release_cs] is set, and
    the call took 3 ms of settle delays with the release and 2 ms without. *)
Theorem transceive_delivers :
  forall (release_cs : bool) (w : world) (r : reply) (rest : list reply),
    bus (hw w) = r :: rest ->
    r_err r = 0 ->
    0 < spi_snd_buffer_len (dev w) \/ 0 < spi_rcv_buffer_len (dev w) ->
    exists w' : world,
      rfid_cr95hf_transceive release_cs w = Some (0, w') /\
      dev w' =
        set_rcv_buffer
          (blit (clocked (Z.to_nat (spi_rcv_buffer_len (dev w))) (r_data r))
             (rcv_buffer (dev w)))
          (dev w) /\
      bus (hw w') = rest /\
      cs_level (hw w') = (if release_cs then 0 else 1) /\
      uptime_us (hw w') =
        uptime_us (hw w) + (if release_cs then K_MSEC 3 else K_MSEC 2) /\
      trace (hw w') = trace (hw w) ++ frame_trace release_cs [bus_event w 0].
Proof.
  intros release_cs w r rest Hbus Herr Hlen.
  destruct (transceive_success release_cs w r rest Hbus Herr Hlen)
    as (w' & Hrun & Hdev & Hb & Hcs & Hup & Ht & _).
  exists w'. auto 10.
Qed.

(** On the bench: one byte to send, chip-select kept. *)
Lemma transceive_delivers_witness :
  exists w' : world,
    rfid_cr95hf_transceive false
      (with_dev (set_spi_snd_buffer_len 1) (bench READY 0 50 [ok []; ok [1]])) =
      Some (0, w') /\
    dev w' = set_spi_snd_buffer_len 1 (bench_data READY 0) /\
    bus (hw w') = [ok [1]] /\
    cs_level (hw w') = 1 /\
    uptime_us (hw w') = 52000 /\
    trace (hw w') = [GpioSet CS 1; Sleep (K_MSEC 1); SpiWrite [0] 0; Sleep (K_MSEC 1)].
Proof.
  apply (transceive_delivers false
           (with_dev (set_spi_snd_buffer_len 1) (bench READY 0 50 [ok []; ok [1]]))
           (ok []) [ok [1]]).
  - reflexivity.
  - reflexivity.
  - left. vm_compute. reflexivity.
Defined.

(** ** Readiness: what the polling returns *)

Lemma nonzero_true : forall x : Z, nonzero x = true -> x <> 0.
Proof.
  intros x H. unfold nonzero in H. apply negb_true_iff, Z.eqb_neq in H. exact H.
Qed.

Lemma nonzero_false : forall x : Z, nonzero x = false -> x = 0.
Proof.
  intros x H. unfold nonzero in H. apply negb_false_iff, Z.eqb_eq in H. exact H.
Qed.

(** The byte a one-byte read leaves at the front of a receive buffer that
    has room for it. *)
Lemma flag_lands :
  forall (r : reply) (buffer : list Z),
    buffer <> [] ->
    byte_at (blit (clocked 1 (r_data r)) (store 0 0 buffer)) 0 = flag_of r.
Proof.
  intros r buffer Hb. unfold flag_of, clocked, byte_at.
  destruct buffer as [|b buffer]; [congruence|].
  destruct (r_data r) as [|d data]; reflexivity.
Qed.

(** The loop reads flags until one shows a requested bit. *)
Lemma polling_loop_finds_ready :
  forall (waits : list reply) (turns : nat) (ready_read ready_send : bool)
         (w : world) (r : reply) (rest : list reply),
    spi_snd_buffer_len (dev w) = 0 ->
    spi_rcv_buffer_len (dev w) = 1 ->
    rcv_buffer (dev w) <> [] ->
    bus (hw w) = waits ++ r :: rest ->
    Forall (not_ready_yet ready_read ready_send) waits ->
    r_err r = 0 ->
    ready ready_read ready_send (flag_of r) = true ->
    (length waits < turns)%nat ->
    exists w' : world,
      rfid_cr95hf_polling_loop turns ready_read ready_send w = Some (Return 0, w') /\
      bus (hw w') = rest /\
      response w' 0 = flag_of r /\
      cs_level (hw w') = 0 /\
      current_mode (dev w') = current_mode (dev w) /\
      cm_timestamp (dev w') = cm_timestamp (dev w) /\
      snd_buffer (dev w') = snd_buffer (dev w).
Proof.
  induction waits as [|x waits IH];
    intros turns rr rs w r rest Hs Hr Hbuf Hbus Hwaits Herr Hready Hturns;
    (destruct turns as [|turns]; [cbn in Hturns; lia|]);
    rewrite polling_loop_turn;
    set (w0 := with_dev (fun d => set_rcv_buffer (store 0 0 (rcv_buffer d)) d) w).
  - destruct (transceive_success true w0 r rest) as (w1 & -> & Hdev & Hb & Hf);
      [exact Hbus | exact Herr | right; cbn; lia |].
    assert (Hflag : response w1 0 = flag_of r).
    { unfold response. rewrite Hdev. cbn. rewrite Hr. apply flag_lands, Hbuf. }
    cbn [nonzero Z.eqb negb]. fold (response w1 0).
    unfold ready in Hready. rewrite Hflag.
    destruct (rr && nonzero (Z.land (flag_of r) 8)) eqn:H8.
    + exists w1. rewrite Hdev. destruct Hf as (Hcs & _).
      repeat split; auto.
    + cbn [orb] in Hready. rewrite Hready.
      exists w1. rewrite Hdev. destruct Hf as (Hcs & _).
      repeat split; auto.
  - inversion Hwaits as [|x' waits' [Hxerr Hxready] Hwaits']; subst.
    destruct (transceive_success true w0 x (waits ++ r :: rest))
      as (w1 & -> & Hdev & Hb & Hf);
      [exact Hbus | exact Hxerr | right; cbn; lia |].
    assert (Hflag : response w1 0 = flag_of x).
    { unfold response. rewrite Hdev. cbn. rewrite Hr. apply flag_lands, Hbuf. }
    cbn [nonzero Z.eqb negb]. rewrite Hflag.
    unfold ready in Hxready. apply orb_false_iff in Hxready as [H8 H4].
    rewrite H8, H4.
    destruct (IH turns rr rs w1 r rest) as (w' & Hrun & Hrest & Hfl & Hcs & Hm & Ht & Hsnd);
      try assumption.
    + rewrite Hdev. exact Hs.
    + rewrite Hdev. exact Hr.
    + rewrite Hdev. cbn. rewrite Hr. cbn.
      destruct (rcv_buffer (dev w)) as [|b l]; [congruence|].
      unfold clocked. destruct (r_data x); cbn; discriminate.
    + cbn in Hturns. lia.
    + exists w'. rewrite Hrun. rewrite Hdev in Hm, Ht, Hsnd.
      repeat split; auto.
Qed.

(** The polling, from the poll command to the first flag byte that shows a
    requested bit. *)
Lemma polling_skips_waits :
  forall (ready_read ready_send : bool) (w : world)
         (command : reply) (waits : list reply) (r : reply) (rest : list reply),
    rcv_buffer (dev w) <> [] ->
    bus (hw w) = command :: waits ++ r :: rest ->
    r_err command = 0 ->
    Forall (not_ready_yet ready_read ready_send) waits ->
    r_err r = 0 ->
    ready ready_read ready_send (flag_of r) = true ->
    exists w' : world,
      rfid_cr95hf_polling ready_read ready_send w = Some (0, w') /\
      bus (hw w') = rest /\
      response w' 0 = flag_of r /\
      cs_level (hw w') = 0 /\
      current_mode (dev w') = current_mode (dev w) /\
      cm_timestamp (dev w') = cm_timestamp (dev w) /\
      snd_buffer (dev w') = store 0 3 (snd_buffer (dev w)).
Proof.
  intros rr rs w c waits r rest Hbuf Hbus Hc Hwaits Herr Hready.
  unfold rfid_cr95hf_polling, fn.
  cbv beta iota delta [bind snd_buffer_store data_set modify call when read
                       return_ ret].
  set (w0 := with_dev (set_spi_rcv_buffer_len 0) _).
  destruct (transceive_success true w0 c (waits ++ r :: rest))
    as (w1 & -> & Hdev & Hb & Hf);
    [exact Hbus | exact Hc | left; cbn; lia |].
  cbn [nonzero Z.eqb negb].
  set (w2 := with_dev (set_spi_rcv_buffer_len 1) _).
  destruct (polling_loop_finds_ready waits (S (length (bus (hw w2)))) rr rs w2 r rest)
    as (w' & Hrun & Hrest & Hfl & Hcs & Hm & Ht & Hsnd);
    try assumption; try reflexivity.
  - cbn. rewrite Hdev. cbn. exact Hbuf.
  - cbn. rewrite Hb. rewrite length_app. cbn. lia.
  - exists w'. rewrite Hrun.
    cbn in Hm, Ht, Hsnd. rewrite Hdev in Hm, Ht, Hsnd. cbn in Hm, Ht, Hsnd.
    repeat split; auto.
Qed.

(** However the loop ends, it ends by a [return]: with the error of a flag
    read, or with 0 after a flag byte that shows a requested bit. *)
Lemma polling_loop_returns :
  forall (turns : nat) (ready_read ready_send : bool) (w w' : world)
         (outcome : flow Z Z),
    rfid_cr95hf_polling_loop turns ready_read ready_send w = Some (outcome, w') ->
    exists err : Z,
      outcome = Return err /\
      (err = 0 -> ready ready_read ready_send (response w' 0) = true).
Proof.
  induction turns as [|turns IH]; intros rr rs w w' outcome Hrun.
  - discriminate Hrun.
  - rewrite polling_loop_turn in Hrun.
    destruct (rfid_cr95hf_transceive true _) as [[err w1]|]; [|discriminate].
    destruct (nonzero err) eqn:Herr.
    + injection Hrun as <- <-. exists err. split; [reflexivity|].
      intro H0. apply nonzero_true in Herr. contradiction.
    + unfold ready.
      destruct (rr && nonzero (Z.land (response w1 0) 8)) eqn:H8.
      * injection Hrun as <- <-. exists 0. rewrite H8. split; reflexivity.
      * destruct (rs && nonzero (Z.land (response w1 0) 4)) eqn:H4.
        -- injection Hrun as <- <-. exists 0. rewrite H8, H4. split; reflexivity.
        -- apply (IH rr rs w1 w' outcome Hrun).
Qed.

(** A return of 0 means the last flag byte read shows a requested bit. *)
Lemma polling_zero_means_ready :
  forall (ready_read ready_send : bool) (w w' : world),
    rfid_cr95hf_polling ready_read ready_send w = Some (0, w') ->
    ready ready_read ready_send (response w' 0) = true.
Proof.
  intros rr rs w w' Hrun.
  unfold rfid_cr95hf_polling, fn in Hrun.
  cbv beta iota delta [bind snd_buffer_store data_set modify call when read
                       return_ ret] in Hrun.
  destruct (rfid_cr95hf_transceive true _) as [[err w1]|]; [|discriminate].
  destruct (nonzero err) eqn:Herr.
  - injection Hrun as -> <-. discriminate Herr.
  - destruct (rfid_cr95hf_polling_loop _ rr rs _) as [[outcome w2]|] eqn:Hloop;
      [|discriminate].
    apply polling_loop_returns in Hloop as (e & -> & Hready).
    injection Hrun as -> <-. apply Hready. reflexivity.
Qed.

(** X3. Polling: after the poll command, [rfid_cr95hf_polling] reads flag
    bytes for as long as they show no requested ready bit, and returns 0 at
    the first one that does: it has then taken exactly the command answer,
    the not-ready flags and that one flag from the bus, the flag byte is in
    [rcv_buffer[0]], and chip-select is released. *)
Theorem polling_returns_at_first_ready_flag :
  forall (ready_read ready_send : bool) (w : world)
         (command : reply) (waits : list reply) (r : reply) (rest : list reply),
    rcv_buffer (dev w) <> [] ->
    bus (hw w) = command :: waits ++ r :: rest ->
    r_err command = 0 ->
    Forall (not_ready_yet ready_read ready_send) waits ->
    r_err r = 0 ->
    ready ready_read ready_send (flag_of r) = true ->
    exists w' : world,
      rfid_cr95hf_polling ready_read ready_send w = Some (0, w') /\
      bus (hw w') = rest /\
      response w' 0 = flag_of r /\
      cs_level (hw w') = 0.
Proof.
  intros rr rs w c waits r rest Hbuf Hbus Hc Hwaits Herr Hready.
  destruct (polling_skips_waits rr rs w c waits r rest Hbuf Hbus Hc Hwaits Herr Hready)
    as (w' & Hrun & Hrest & Hflag & Hcs & _).
  exists w'. auto.
Qed.

(** On the bench: one flag byte without a ready bit, then one with the
    read-ready bit. *)
Lemma polling_returns_at_first_ready_flag_witness :
  exists w' : world,
    rfid_cr95hf_polling true true
      (bench READY 0 50 [ok []; ok [0]; ok [0x08]; ok [1]]) = Some (0, w') /\
    bus (hw w') = [ok [1]] /\
    response w' 0 = 0x08 /\
    cs_level (hw w') = 0.
Proof.
  apply (polling_returns_at_first_ready_flag true true
           (bench READY 0 50 [ok []; ok [0]; ok [0x08]; ok [1]])
           (ok []) [ok [0]] (ok [0x08]) [ok [1]]).
  - vm_compute. discriminate.
  - reflexivity.
  - reflexivity.
  - repeat constructor.
  - reflexivity.
  - vm_compute. reflexivity.
Defined.

(** X4. Polling: [rfid_cr95hf_polling] returns 0 only when the last flag
    byte it read shows a ready bit that was asked for; asked for neither
    bit, it never returns 0. *)
Theorem polling_success_means_ready :
  forall (ready_read ready_send : bool) (w w' : world),
    rfid_cr95hf_polling ready_read ready_send w = Some (0, w') ->
    ready ready_read ready_send (response w' 0) = true /\
    (ready_read = true \/ ready_send = true).
Proof.
  intros rr rs w w' Hrun.
  pose proof (polling_zero_means_ready rr rs w w' Hrun) as Hready.
  split; [exact Hready|].
  unfold ready in Hready. destruct rr; [left; reflexivity|].
  destruct rs; [right; reflexivity|]. discriminate Hready.
Qed.

(** On the bench: polling for read-ready only, the chip shows send-ready
    first. *)
Lemma polling_success_means_ready_witness :
  ready true false
    (response
       (left_by (rfid_cr95hf_polling true false)
          (bench READY 0 50 [ok []; ok [0x04]; ok [0x08]])) 0) = true /\
  (true = true \/ false = true).
Proof.
  apply (polling_success_means_ready true false
           (bench READY 0 50 [ok []; ok [0x04]; ok [0x08]])).
  vm_compute. reflexivity.
Defined.

(** ** Response reader *)

Lemma blit_length :
  forall (src dst : list Z), length (blit src dst) = length dst.
Proof.
  induction src as [|s src IH]; intros [|d dst]; cbn; auto.
Qed.

Lemma store_length :
  forall (i : nat) (v : Z) (a : list Z), length (store i v a) = length a.
Proof.
  intros i v a. revert i. induction a as [|h t IH]; intros [|i]; cbn; auto.
Qed.

(** The three header bytes in a receive buffer with room for them. *)
Lemma header_lands :
  forall (data buffer : list Z),
    (3 <= length buffer)%nat ->
    byte_at (blit (clocked 3 data) buffer) 1 = nth 1 data 0 /\
    byte_at (blit (clocked 3 data) buffer) 2 = nth 2 data 0.
Proof.
  intros data buffer Hb. unfold byte_at, clocked.
  destruct buffer as [|b0 [|b1 [|b2 buffer]]]; cbn in Hb; try lia.
  destruct data as [|d0 [|d1 [|d2 data]]]; cbn; auto.
Qed.

(** The length [rfid_cr95hf_response] reads the payload with: the declared
    one, cut to the capacity of the receive buffer. *)
Lemma response_success :
  forall (size : Z) (w : world) (header payload : reply) (rest : list reply),
    (3 <= length (rcv_buffer (dev w)))%nat ->
    bus (hw w) = header :: payload :: rest ->
    r_err header = 0 ->
    r_err payload = 0 ->
    0 < clipped size (nth 2 (r_data header) 0) ->
    exists w' : world,
      rfid_cr95hf_response size w = Some (0, w') /\
      dev w' =
        set_rcv_buffer
          (blit (clocked (Z.to_nat (clipped size (nth 2 (r_data header) 0)))
                   (r_data payload))
             (blit (clocked 3 (r_data header)) (rcv_buffer (dev w))))
          (set_spi_rcv_buffer_len (clipped size (nth 2 (r_data header) 0))
             (set_spi_snd_buffer_len 0
                (set_snd_buffer (store 0 2 (snd_buffer (dev w))) (dev w)))) /\
      bus (hw w') = rest /\
      cs_level (hw w') = 0 /\
      trace (hw w') =
        trace (hw w) ++
        frame_trace false
          [SpiTransceive (firstn 1 (store 0 2 (snd_buffer (dev w)))) 3 0] ++
        frame_trace true
          [SpiTransceive [] (clipped size (nth 2 (r_data header) 0)) 0].
Proof.
  intros size w header payload rest Hbuf Hbus Hh Hp Hlen.
  unfold rfid_cr95hf_response, fn.
  cbv beta iota delta [bind snd_buffer_store data_set modify call when read rcv
                       return_ ret].
  set (w0 := with_dev (set_spi_rcv_buffer_len 3) _).
  destruct (transceive_success false w0 header (payload :: rest))
    as (w1 & -> & Hdev1 & Hb1 & Hf1);
    [exact Hbus | exact Hh | left; cbn; lia |].
  cbn [nonzero Z.eqb negb].
  assert (Hdecl : byte_at (rcv_buffer (dev w1)) 2 = nth 2 (r_data header) 0).
  { rewrite Hdev1. cbn. apply header_lands. exact Hbuf. }
  rewrite Hdecl. fold (clipped size (nth 2 (r_data header) 0)).
  set (n := clipped size (nth 2 (r_data header) 0)) in *.
  set (w2 := with_dev (set_spi_rcv_buffer_len n) _).
  destruct (transceive_success true w2 payload rest)
    as (w3 & -> & Hdev3 & Hb3 & Hf3);
    [cbn; exact Hb1 | exact Hp | right; cbn; exact Hlen |].
  cbn [nonzero Z.eqb negb].
  exists w3. split; [reflexivity|].
  destruct Hf1 as (_ & _ & Ht1 & _). destruct Hf3 as (Hcs & _ & Ht3 & _).
  repeat split.
  - rewrite Hdev3. cbn. rewrite Hdev1. cbn. reflexivity.
  - exact Hb3.
  - exact Hcs.
  - rewrite Ht3. cbn [hw with_dev w2]. rewrite Ht1. cbn [hw with_dev w0].
    rewrite <- app_assoc. unfold bus_event. cbn.
    destruct n; try lia. reflexivity.
Qed.

(** A transfer the bus refuses: nothing but the log, the taken answer and
    chip-select, which stays asserted, differs afterwards. *)
Lemma transceive_failure :
  forall (release_cs : bool) (w : world) (r : reply) (rest : list reply),
    bus (hw w) = r :: rest ->
    r_err r <> 0 ->
    0 < spi_snd_buffer_len (dev w) \/ 0 < spi_rcv_buffer_len (dev w) ->
    exists w' : world,
      rfid_cr95hf_transceive release_cs w = Some (r_err r, w') /\
      dev w' = dev w /\
      bus (hw w') = rest /\
      cs_level (hw w') = 1 /\
      trace (hw w') =
        trace (hw w) ++ [GpioSet CS 1; Sleep (K_MSEC 1); bus_event w (r_err r)].
Proof.
  intros release_cs w r rest Hbus Herr Hlen.
  assert (Hnz : nonzero (r_err r) = true).
  { unfold nonzero. apply negb_true_iff, Z.eqb_neq, Herr. }
  assert (Heq : (r_err r =? 0) = false) by (apply Z.eqb_neq, Herr).
  unfold rfid_cr95hf_transceive, fn, bind, gpio_pin_set_dt, k_sleep, hw_set,
    modify, read, when, return_, ret, spi_transceive_dt, spi_write_dt, spi_call,
    bus_event.
  cbn [hw dev with_hw with_dev bus log set_cs_level set_uptime_us].
  destruct (0 <? spi_snd_buffer_len (dev w)) eqn:Hs;
    destruct (0 <? spi_rcv_buffer_len (dev w)) eqn:Hr;
    cbn [andb hw dev with_hw with_dev bus log set_cs_level set_uptime_us].
  4: { apply Z.ltb_ge in Hs, Hr. lia. }
  all: rewrite Hbus, Heq, Hnz.
  all: eexists; (split; [reflexivity|]); cbn; rewrite <- ?app_assoc; cbn.
  all: repeat split.
Qed.

(** X5. Response reader: when both transfers succeed and the header
    declares a payload, [rfid_cr95hf_response] returns 0 with the payload at
    the front of the receive buffer, read with the declared length cut to
    the capacity [size] (a longer declared length is cut without an error).
    It takes exactly the two answers from the bus, keeps chip-select
    asserted between the header and the payload, and releases it at the
    end. *)
Theorem response_reads_clipped_payload :
  forall (size : Z) (w : world) (header payload : reply) (rest : list reply),
    (3 <= length (rcv_buffer (dev w)))%nat ->
    bus (hw w) = header :: payload :: rest ->
    r_err header = 0 ->
    r_err payload = 0 ->
    0 < clipped size (nth 2 (r_data header) 0) ->
    exists w' : world,
      rfid_cr95hf_response size w = Some (0, w') /\
      rcv_buffer (dev w') =
        blit (clocked (Z.to_nat (clipped size (nth 2 (r_data header) 0)))
                (r_data payload))
          (blit (clocked 3 (r_data header)) (rcv_buffer (dev w))) /\
      spi_rcv_buffer_len (dev w') = clipped size (nth 2 (r_data header) 0) /\
      bus (hw w') = rest /\
      cs_level (hw w') = 0 /\
      trace (hw w') =
        trace (hw w) ++
        frame_trace false
          [SpiTransceive (firstn 1 (store 0 2 (snd_buffer (dev w)))) 3 0] ++
        frame_trace true
          [SpiTransceive [] (clipped size (nth 2 (r_data header) 0)) 0].
Proof.
  intros size w header payload rest Hbuf Hbus Hh Hp Hlen.
  destruct (response_success size w header payload rest Hbuf Hbus Hh Hp Hlen)
    as (w' & Hrun & Hdev & Hb & Hcs & Ht).
  exists w'. rewrite Hdev. cbn. auto 10.
Qed.

(** On the bench: a capacity of 1 for a declared length of 2. *)
Lemma response_reads_clipped_payload_witness :
  exists w' : world,
    rfid_cr95hf_response 1 (bench READY 0 50 short_answer) = Some (0, w') /\
    rcv_buffer (dev w') = [0xAA; 0x80; 2] ++ repeat 0 61 /\
    spi_rcv_buffer_len (dev w') = 1 /\
    bus (hw w') = [] /\
    cs_level (hw w') = 0 /\
    trace (hw w') =
      frame_trace false [SpiTransceive [2] 3 0] ++
      frame_trace true [SpiTransceive [] 1 0].
Proof.
  apply (response_reads_clipped_payload 1 (bench READY 0 50 short_answer)
           (ok [0; 0x80; 2]) (ok [0xAA; 0xBB]) []).
  - vm_compute. lia.
  - reflexivity.
  - reflexivity.
  - reflexivity.
  - vm_compute. reflexivity.
Defined.

(** X6. Response reader: a header that declares no payload costs one bus
    transfer only; the second frame still toggles chip-select, and the call
    returns 0 with chip-select released. *)
Theorem response_without_payload :
  forall (size : Z) (w : world) (header : reply) (rest : list reply),
    (3 <= length (rcv_buffer (dev w)))%nat ->
    bus (hw w) = header :: rest ->
    r_err header = 0 ->
    clipped size (nth 2 (r_data header) 0) <= 0 ->
    exists w' : world,
      rfid_cr95hf_response size w = Some (0, w') /\
      rcv_buffer (dev w') = blit (clocked 3 (r_data header)) (rcv_buffer (dev w)) /\
      bus (hw w') = rest /\
      cs_level (hw w') = 0 /\
      trace (hw w') =
        trace (hw w) ++
        frame_trace false
          [SpiTransceive (firstn 1 (store 0 2 (snd_buffer (dev w)))) 3 0] ++
        frame_trace true [].
Proof.
  intros size w header rest Hbuf Hbus Hh Hlen.
  unfold rfid_cr95hf_response, fn.
  cbv beta iota delta [bind snd_buffer_store data_set modify call when read rcv
                       return_ ret].
  set (w0 := with_dev (set_spi_rcv_buffer_len 3) _).
  destruct (transceive_success false w0 header rest)
    as (w1 & -> & Hdev1 & Hb1 & Hf1);
    [exact Hbus | exact Hh | left; cbn; lia |].
  cbn [nonzero Z.eqb negb].
  assert (Hdecl : byte_at (rcv_buffer (dev w1)) 2 = nth 2 (r_data header) 0).
  { rewrite Hdev1. cbn. apply header_lands. exact Hbuf. }
  rewrite Hdecl. fold (clipped size (nth 2 (r_data header) 0)).
  set (n := clipped size (nth 2 (r_data header) 0)) in *.
  set (w2 := with_dev (set_spi_rcv_buffer_len n) _).
  destruct (transceive_idle true w2) as (w3 & -> & Hdev3 & Hb3 & Hf3);
    [cbn; lia | cbn; exact Hlen |].
  exists w3. split; [reflexivity|].
  destruct Hf1 as (_ & _ & Ht1 & _). destruct Hf3 as (Hcs & _ & Ht3 & _).
  repeat split.
  - rewrite Hdev3. cbn. rewrite Hdev1. cbn. reflexivity.
  - rewrite Hb3. cbn. exact Hb1.
  - exact Hcs.
  - rewrite Ht3. cbn [hw with_dev w2]. rewrite Ht1. cbn [hw with_dev w0].
    rewrite <- app_assoc. unfold bus_event. cbn. reflexivity.
Qed.

(** On the bench: a header that declares 0 bytes. *)
Lemma response_without_payload_witness :
  exists w' : world,
    rfid_cr95hf_response 64 (bench READY 0 50 [ok [0; 0; 0]; ok [7]]) = Some (0, w') /\
    rcv_buffer (dev w') = repeat 0 64 /\
    bus (hw w') = [ok [7]] /\
    cs_level (hw w') = 0 /\
    trace (hw w') =
      frame_trace false [SpiTransceive [2] 3 0] ++ frame_trace true [].
Proof.
  apply (response_without_payload 64 (bench READY 0 50 [ok [0; 0; 0]; ok [7]])
           (ok [0; 0; 0]) [ok [7]]).
  - vm_compute. lia.
  - reflexivity.
  - reflexivity.
  - vm_compute. discriminate.
Defined.

(** ** What the driver leaves alone *)

Section Respects.

Context (rel : world -> world -> Prop).
Hypothesis rel_refl : forall w, rel w w.
Hypothesis rel_trans : forall a b c, rel a b -> rel b c -> rel a c.

Lemma respects_ret : forall {R A} (a : A), respects rel (@ret R A a).
Proof. intros R A a w out w' H. injection H as _ <-. apply rel_refl. Qed.

Lemma respects_return : forall {R A} (r : R), respects rel (@return_ R A r).
Proof. intros R A r w out w' H. injection H as _ <-. apply rel_refl. Qed.

Lemma respects_read : forall {R A} (g : world -> A), respects rel (@read R A g).
Proof. intros R A g w out w' H. injection H as _ <-. apply rel_refl. Qed.

Lemma respects_modify :
  forall {R} (g : world -> world),
    (forall w, rel w (g w)) -> respects rel (@modify R g).
Proof. intros R g Hg w out w' H. injection H as _ <-. apply Hg. Qed.

Lemma respects_bind :
  forall {R A B} (m : M R A) (k : A -> M R B),
    respects rel m -> (forall a, respects rel (k a)) -> respects rel (bind m k).
Proof.
  intros R A B m k Hm Hk w out w' H. unfold bind in H.
  destruct (m w) as [[[a|r] w1]|] eqn:E; try discriminate.
  - apply (rel_trans w w1 w'); [apply (Hm w _ w1 E) | apply (Hk a w1 out w' H)].
  - injection H as _ <-. apply (Hm w _ w1 E).
Qed.

Lemma respects_when :
  forall {R} (c : bool) (m : M R unit),
    (c = true -> respects rel m) -> respects rel (when c m).
Proof. intros R [|] m Hm; [apply Hm; reflexivity | apply respects_ret]. Qed.

Lemma respects_call :
  forall {R A} (p : proc A), proc_respects rel p -> respects rel (@call R A p).
Proof.
  intros R A p Hp w out w' H. unfold call in H.
  destruct (p w) as [[a w1]|] eqn:E; try discriminate.
  injection H as _ <-. apply (Hp w a w1 E).
Qed.

Lemma respects_fn :
  forall {R} (body : M R R), respects rel body -> proc_respects rel (fn body).
Proof.
  intros R body Hb w a w' H. unfold fn in H.
  destruct (body w) as [[[r|r] w1]|] eqn:E; try discriminate;
    injection H as _ <-; apply (Hb w _ w1 E).
Qed.

Lemma respects_for_range :
  forall {R} (count first : nat) (body : nat -> M R unit),
    (forall i, respects rel (body i)) -> respects rel (for_range count first body).
Proof.
  intros R count. induction count as [|count IH]; intros first body Hb; cbn.
  - apply respects_ret.
  - apply respects_bind; [apply Hb | intros _; apply IH, Hb].
Qed.

End Respects.

Lemma quiet_refl : forall w, quiet w w.
Proof. intro w. split; [reflexivity | lia]. Qed.

Lemma quiet_trans : forall a b c, quiet a b -> quiet b c -> quiet a c.
Proof.
  intros a b c [Hs1 Hu1] [Hs2 Hu2]. split; [congruence | lia].
Qed.

Create HintDb quiet.

(** Takes a body apart, statement by statement; what is left are the
    statements that are neither plain updates nor calls known to be
    quiet. *)
Ltac quiet_body :=
  repeat first
    [ apply (respects_bind quiet quiet_trans); [ | intro ]
    | apply (respects_ret quiet quiet_refl)
    | apply (respects_return quiet quiet_refl)
    | apply (respects_read quiet quiet_refl)
    | apply (respects_when quiet quiet_refl); intro
    | apply (respects_modify quiet); intro; split;
      [ reflexivity | cbn; unfold K_MSEC, K_USEC; lia ]
    | apply (respects_call quiet); solve [ auto with quiet ]
    | apply (respects_for_range quiet quiet_refl quiet_trans); intro
    | match goal with
      | |- respects _ (if ?c then _ else _) => destruct c
      | |- respects _ (match ?x with _ => _ end) => destruct x
      | |- respects _ (let (_, _) := ?x in _) => destruct x
      end ].

Lemma spi_call_quiet :
  forall {R} (ev : Z -> event) (rx_len : Z), respects quiet (@spi_call R ev rx_len).
Proof.
  intros R ev rx_len w out w' H. unfold spi_call in H.
  destruct (bus (hw w)) as [|r rest]; [discriminate|].
  injection H as _ <-. destruct (r_err r =? 0); split; cbn; try reflexivity; lia.
Qed.

Lemma transceive_quiet :
  forall release_cs : bool, proc_respects quiet (rfid_cr95hf_transceive release_cs).
Proof.
  intro release_cs. apply respects_fn.
  unfold gpio_pin_set_dt, k_sleep, hw_set, spi_transceive_dt, spi_write_dt.
  quiet_body.
  all: intros w out w' Hrun; apply (spi_call_quiet _ _ w out w' Hrun).
Qed.

#[local] Hint Resolve transceive_quiet : quiet.

Lemma polling_loop_quiet :
  forall (turns : nat) (ready_read ready_send : bool),
    respects quiet (rfid_cr95hf_polling_loop turns ready_read ready_send).
Proof.
  induction turns as [|turns IH]; intros rr rs.
  - intros w out w' H. discriminate H.
  - cbn [rfid_cr95hf_polling_loop].
    unfold rcv_buffer_store, rcv, data_set.
    quiet_body. apply IH.
Qed.

Lemma polling_quiet :
  forall ready_read ready_send : bool,
    proc_respects quiet (rfid_cr95hf_polling ready_read ready_send).
Proof.
  intros rr rs. apply respects_fn.
  unfold snd_buffer_store, data_set.
  quiet_body. apply polling_loop_quiet.
Qed.

Lemma wait_for_irq_out_low_quiet :
  forall irq : line, proc_respects quiet (rfid_cr95hf_wait_for_irq_out_low irq).
Proof.
  intro irq. apply respects_fn.
  unfold gpio_pin_interrupt_configure_dt, hw_set.
  apply (respects_bind quiet quiet_trans); [ | intro; quiet_body ].
  - intros w out w' H. unfold gpio_pin_get_dt in H.
    destruct (irq_out_reads (hw w)); [discriminate|].
    injection H as _ <-. split; cbn; [reflexivity | lia].
  - intros w out w' H. unfold k_sem_take_irq_out_sem in H.
    destruct (0 <? irq_out_sem (dev w)).
    + injection H as _ <-. split; cbn; [reflexivity | lia].
    + destruct (irq_out_edges (hw w)); [discriminate|].
      injection H as _ <-. split; cbn; [reflexivity | lia].
Qed.

#[local] Hint Resolve polling_quiet wait_for_irq_out_low_quiet : quiet.

Lemma wait_quiet :
  forall config : rfid_cr95hf_spi_config,
    proc_respects quiet (rfid_cr95hf_wait config).
Proof.
  intro config. apply respects_fn. quiet_body.
Qed.

Lemma response_quiet :
  forall size : Z, proc_respects quiet (rfid_cr95hf_response size).
Proof.
  intro size. apply respects_fn.
  unfold snd_buffer_store, rcv, data_set.
  quiet_body.
Qed.

#[local] Hint Resolve wait_quiet response_quiet : quiet.

Lemma get_uid_quiet :
  forall (size : Z) (config : rfid_cr95hf_spi_config)
         (uid : option (list Z)) (uid_len : Z),
    proc_respects quiet (rfid_cr95hf_iso14443A_get_uid size config uid uid_len).
Proof.
  intros size config uid uid_len. apply respects_fn.
  unfold snd_buffer_store, snd_buffer_store_rcv, rcv, snd, data_set, get_uid_return.
  quiet_body.
Qed.

Lemma protocol_select_quiet :
  forall (size : Z) (config : rfid_cr95hf_spi_config) (proto : rfid_protocol_t),
    proc_respects quiet (rfid_cr95hf_protocol_select size config proto).
Proof.
  intros size config proto. apply respects_fn.
  unfold data_set.
  quiet_body.
Qed.

Lemma calibration_quiet :
  forall (size : Z) (config : rfid_cr95hf_spi_config),
    proc_respects quiet (rfid_cr95hf_calibration size config).
Proof.
  intros size config. apply respects_fn.
  unfold rfid_cr95hf_calibration_step, rfid_cr95hf_calibration_switch,
    snd_buffer_store, rcv, snd, data_set.
  quiet_body.
Qed.

Lemma respects_weaken :
  forall {R A} (rel rel' : world -> world -> Prop) (m : M R A),
    (forall w w', rel w w' -> rel' w w') -> respects rel m -> respects rel' m.
Proof.
  intros R A rel rel' m Hsub Hm w out w' H. apply Hsub, (Hm w out w' H).
Qed.

Lemma switched_refl : forall w, switched w w.
Proof.
  intro w. split; [reflexivity|]. split; [lia|]. left. reflexivity.
Qed.

Lemma switched_trans : forall a b c, switched a b -> switched b c -> switched a c.
Proof.
  intros a b c (Ht1 & Hu1 & Hm1) (Ht2 & Hu2 & Hm2).
  assert (Hab : uptime_us (hw a) / 1000 <= uptime_us (hw b) / 1000)
    by (apply Z.div_le_mono; lia).
  assert (Hbc : uptime_us (hw b) / 1000 <= uptime_us (hw c) / 1000)
    by (apply Z.div_le_mono; lia).
  split; [congruence|]. split; [lia|].
  destruct Hm2 as [Hsame | (Hmode & Hstamp)].
  - destruct Hm1 as [Hsame1 | (Hmode1 & Hstamp1)].
    + left. congruence.
    + right. unfold mode_record in Hsame. injection Hsame as Hm Hts.
      rewrite Hm, Hts. split; [exact Hmode1 | lia].
  - right. split; [exact Hmode | lia].
Qed.

Lemma quiet_switched : forall w w', quiet w w' -> switched w w'.
Proof.
  intros w w' [Hs Hu]. unfold settings in Hs.
  assert (Hm : mode_record w' = mode_record w) by congruence.
  assert (Ht : templates w' = templates w) by congruence.
  split; [exact Ht|]. split; [exact Hu|]. left. exact Hm.
Qed.

(** Recording READY or TAG_DETECTOR stamps it with the uptime of that
    moment. *)
Lemma setmode_switched :
  forall {R} (mode : rfid_mode_t),
    mode = READY \/ mode = TAG_DETECTOR ->
    respects switched (@rfid_cr95hf_setmode R mode).
Proof.
  intros R mode Hmode w out w' H.
  unfold rfid_cr95hf_setmode, bind, data_set, modify, k_uptime_get, read in H.
  injection H as _ <-. split; [reflexivity|]. split; [cbn; lia|].
  right. cbn. split; [exact Hmode | lia].
Qed.

Lemma call_quiet_switched :
  forall {R A} (p : proc A),
    proc_respects quiet p -> respects switched (@call R A p).
Proof.
  intros R A p Hp. apply (respects_call switched).
  intros w a w' Hrun. apply quiet_switched, (Hp w a w' Hrun).
Qed.

(** [rfid_cr95hf_select_mode] changes the mode record by recording READY or
    TAG_DETECTOR only, and leaves the templates alone. *)
Lemma select_mode_switched :
  forall (size : Z) (config : rfid_cr95hf_spi_config) (req_mode : rfid_mode_t),
    proc_respects switched (rfid_cr95hf_select_mode size config req_mode).
Proof.
  intros size config req_mode. apply respects_fn.
  unfold gpio_pin_set_dt, k_sleep, hw_set, data_set.
  repeat first
    [ apply setmode_switched; auto
    | apply (respects_bind switched switched_trans); [ | intro ]
    | apply (respects_ret switched switched_refl)
    | apply (respects_return switched switched_refl)
    | apply (respects_read switched switched_refl)
    | apply (respects_when switched switched_refl); intro
    | apply (respects_modify switched); intro; apply quiet_switched; split;
      [ reflexivity | cbn; unfold K_MSEC, K_USEC; lia ]
    | apply call_quiet_switched; solve [ auto with quiet ]
    | match goal with
      | |- respects _ (if ?c then _ else _) => destruct c
      | |- respects _ (match ?x with _ => _ end) => destruct x
      end ].
  (* the sleep for the rest of the 10 ms: taken only from a timestamp below 10 *)
  match goal with H : (_ <? 10) = true |- _ => apply Z.ltb_lt in H end.
  apply (respects_modify switched). intro w. apply quiet_switched. split.
  - reflexivity.
  - cbn [hw with_hw set_uptime_us uptime_us log]. unfold K_MSEC. lia.
Qed.

(** X7. Only a mode switch touches the mode: whenever
    [rfid_cr95hf_iso14443A_get_uid], [rfid_cr95hf_protocol_select] or
    [rfid_cr95hf_calibration] return, with whatever result, the recorded
    mode, its timestamp and the two command templates are what they were. *)
Theorem operations_keep_settings :
  forall (size : Z) (config : rfid_cr95hf_spi_config) (w w' : world),
    (exists uid uid_len result,
        rfid_cr95hf_iso14443A_get_uid size config uid uid_len w = Some (result, w')) \/
    (exists proto r,
        rfid_cr95hf_protocol_select size config proto w = Some (r, w')) \/
    (exists r, rfid_cr95hf_calibration size config w = Some (r, w')) ->
    settings w' = settings w.
Proof.
  intros size config w w'
    [(uid & uid_len & result & Hrun) | [(proto & r & Hrun) | (r & Hrun)]].
  - apply (get_uid_quiet size config uid uid_len w result w' Hrun).
  - apply (protocol_select_quiet size config proto w r w' Hrun).
  - apply (calibration_quiet size config w r w' Hrun).
Qed.

(** On the bench: a protocol selection that succeeds. *)
Lemma operations_keep_settings_witness :
  settings
    (left_by (rfid_cr95hf_protocol_select 64 polled ISO_14443A)
       (bench READY 7 50 (answer []))) =
  settings (bench READY 7 50 (answer [])).
Proof.
  apply (operations_keep_settings 64 polled).
  right. left. exists ISO_14443A, 0. vm_compute. reflexivity.
Defined.

(** X8. Whenever [rfid_cr95hf_select_mode] returns, with whatever result,
    the command templates are what they were, and the mode record is either
    what it was or holds READY or TAG_DETECTOR with a timestamp between the
    uptime at the call and the uptime at the return: no other mode is ever
    recorded, and a recorded timestamp is never in the future. *)
Theorem select_mode_records_ready_or_tag_detector :
  forall (size : Z) (config : rfid_cr95hf_spi_config) (req_mode : rfid_mode_t)
         (w w' : world) (r : Z),
    rfid_cr95hf_select_mode size config req_mode w = Some (r, w') ->
    templates w' = templates w /\
    (mode_record w' = mode_record w \/
     ((current_mode (dev w') = READY \/ current_mode (dev w') = TAG_DETECTOR) /\
      uptime_us (hw w) / 1000 <= cm_timestamp (dev w') <= uptime_us (hw w') / 1000)).
Proof.
  intros size config req_mode w w' r Hrun.
  destruct (select_mode_switched size config req_mode w r w' Hrun) as (Ht & _ & Hm).
  split; assumption.
Qed.

(** On the bench: TAG_DETECTOR from POWER_UP, at uptime 50 ms. *)
Lemma select_mode_records_ready_or_tag_detector_witness :
  templates
    (left_by (rfid_cr95hf_select_mode 64 polled TAG_DETECTOR)
       (bench POWER_UP 20 50 (answer []))) =
  templates (bench POWER_UP 20 50 (answer [])) /\
  (mode_record
     (left_by (rfid_cr95hf_select_mode 64 polled TAG_DETECTOR)
        (bench POWER_UP 20 50 (answer []))) =
   mode_record (bench POWER_UP 20 50 (answer [])) \/
   ((current_mode
       (dev (left_by (rfid_cr95hf_select_mode 64 polled TAG_DETECTOR)
               (bench POWER_UP 20 50 (answer [])))) = READY \/
     current_mode
       (dev (left_by (rfid_cr95hf_select_mode 64 polled TAG_DETECTOR)
               (bench POWER_UP 20 50 (answer [])))) = TAG_DETECTOR) /\
    uptime_us (hw (bench POWER_UP 20 50 (answer []))) / 1000 <=
    cm_timestamp
      (dev (left_by (rfid_cr95hf_select_mode 64 polled TAG_DETECTOR)
              (bench POWER_UP 20 50 (answer [])))) <=
    uptime_us
      (hw (left_by (rfid_cr95hf_select_mode 64 polled TAG_DETECTOR)
             (bench POWER_UP 20 50 (answer [])))) / 1000)).
Proof.
  apply (select_mode_records_ready_or_tag_detector 64 polled TAG_DETECTOR
           (bench POWER_UP 20 50 (answer [])) _ 0).
  vm_compute. reflexivity.
Defined.

(** ** Mode state machine: the argument checks and the early ends *)

Lemma mode_eqb_eq : forall a b : rfid_mode_t, mode_eqb a b = true <-> a = b.
Proof.
  intros a b. unfold mode_eqb. rewrite Z.eqb_eq.
  split; [ | intros ->; reflexivity ].
  destruct a, b; cbn; intro H; try reflexivity; discriminate H.
Qed.

Lemma mode_eqb_neq : forall a b : rfid_mode_t, a <> b -> mode_eqb a b = false.
Proof.
  intros a b H. destruct (mode_eqb a b) eqn:E; [|reflexivity].
  apply mode_eqb_eq in E. contradiction.
Qed.

(** X9. Asking for the mode the device is in is a no-op that succeeds, for
    INVALID as for any other mode; asking for INVALID from another mode
    fails with [-EINVAL].  Either way the world is untouched: no bus
    transfer, no line moved, no sleep, no new timestamp. *)
Theorem select_mode_argument_checks :
  forall (size : Z) (config : rfid_cr95hf_spi_config) (w : world),
    rfid_cr95hf_select_mode size config (current_mode (dev w)) w = Some (0, w) /\
    (current_mode (dev w) <> INVALID ->
     rfid_cr95hf_select_mode size config INVALID w = Some (- EINVAL, w)).
Proof.
  intros size config w. split.
  - unfold rfid_cr95hf_select_mode, fn, bind, read, when.
    assert (E : mode_eqb (current_mode (dev w)) (current_mode (dev w)) = true)
      by (apply mode_eqb_eq; reflexivity).
    rewrite E. reflexivity.
  - intro Hmode.
    unfold rfid_cr95hf_select_mode, fn, bind, read, when.
    rewrite (mode_eqb_neq INVALID (current_mode (dev w))) by congruence.
    reflexivity.
Qed.

(** On the bench: READY asked for in READY, INVALID asked for in READY. *)
Lemma select_mode_argument_checks_witness :
  rfid_cr95hf_select_mode 64 polled READY (bench READY 0 50 []) =
    Some (0, bench READY 0 50 []) /\
  rfid_cr95hf_select_mode 64 polled INVALID (bench READY 0 50 []) =
    Some (- EINVAL, bench READY 0 50 []).
Proof.
  destruct (select_mode_argument_checks 64 polled (bench READY 0 50 [])) as [H1 H2].
  split; [ exact H1 | apply H2; vm_compute; discriminate ].
Defined.

(** X10. A mode the driver does not implement (any but TAG_DETECTOR) is
    refused with [-EINVAL] only at the end: before that the driver has slept,
    has pulsed the wake line unless the device was in READY or READER, and
    has recorded READY with a new timestamp.  So asking for READY from
    POWER_UP returns [-EINVAL] and leaves the device recorded as READY.  The
    bus is not used. *)
Theorem select_mode_refuses_after_waking :
  forall (size : Z) (config : rfid_cr95hf_spi_config) (req_mode : rfid_mode_t)
         (w : world),
    req_mode <> current_mode (dev w) ->
    req_mode <> INVALID ->
    req_mode <> TAG_DETECTOR ->
    exists w' : world,
      rfid_cr95hf_select_mode size config req_mode w = Some (- EINVAL, w') /\
      bus (hw w') = bus (hw w) /\
      trace (hw w') =
        trace (hw w) ++ dwell w ++ wake_pulse (current_mode (dev w)) ++
        [Sleep (K_MSEC 10)] /\
      mode_record w' =
        match current_mode (dev w) with
        | READY | READER => mode_record w
        | _ => (READY, (uptime_us (hw w) + dwell_us w + K_USEC 10) / 1000)
        end.
Proof.
  intros size config req_mode w Hreq Hinv Htag.
  unfold rfid_cr95hf_select_mode, fn, dwell, dwell_us, mode_record, wake_pulse.
  cbv beta iota delta [bind read when ret return_ k_sleep gpio_pin_set_dt hw_set
                       modify rfid_cr95hf_setmode data_set k_uptime_get].
  rewrite (mode_eqb_neq req_mode (current_mode (dev w)) Hreq).
  assert (Hrange : (mode_value INVALID <=? mode_value req_mode) = false)
    by (destruct req_mode; try reflexivity; congruence).
  rewrite Hrange.
  destruct (cm_timestamp (dev w) <? 10);
    destruct req_mode; try congruence;
    destruct (current_mode (dev w)) eqn:Hcur; try congruence;
    unfold mode_eqb; cbn [mode_value Z.eqb Pos.eqb negb];
    eexists; (split; [reflexivity|]);
    cbn [hw dev with_hw with_dev bus trace log set_uptime_us set_irq_in_level
         uptime_us current_mode cm_timestamp set_current_mode set_cm_timestamp];
    rewrite <- ?app_assoc; rewrite ?Z.add_0_r; rewrite ?app_nil_r; rewrite ?Hcur;
    repeat split; reflexivity.
Qed.

(** On the bench: READY asked for in POWER_UP, at uptime 50 ms. *)
Lemma select_mode_refuses_after_waking_witness :
  exists w' : world,
    rfid_cr95hf_select_mode 64 polled READY (bench POWER_UP 20 50 []) =
      Some (- EINVAL, w') /\
    bus (hw w') = [] /\
    trace (hw w') =
      [GpioSet IRQ_IN 1; Sleep (K_USEC 10); GpioSet IRQ_IN 0; Sleep (K_MSEC 10)] /\
    mode_record w' = (READY, 50).
Proof.
  apply (select_mode_refuses_after_waking 64 polled READY (bench POWER_UP 20 50 [])).
  - vm_compute. discriminate.
  - discriminate.
  - discriminate.
Defined.



(** ** Chip-select after a success *)

Section Ensures.

Context {R : Type} (Qr : R -> world -> Prop).

Lemma ensures_bind :
  forall {A B} (P : world -> Prop) (m : M R A) (k : A -> M R B)
         (Qmid : A -> world -> Prop) (Qn : B -> world -> Prop),
    ensures P m Qmid Qr ->
    (forall a, ensures (Qmid a) (k a) Qn Qr) ->
    ensures P (bind m k) Qn Qr.
Proof.
  intros A B P m k Qmid Qn Hm Hk w out w' HP H. unfold bind in H.
  destruct (m w) as [[[a|r] w1]|] eqn:E; try discriminate.
  - apply (Hk a w1 out w' (Hm w _ w1 HP E) H).
  - injection H as <- <-. apply (Hm w _ w1 HP E).
Qed.

Lemma ensures_ret :
  forall {A} (P : world -> Prop) (a : A) (Qn : A -> world -> Prop),
    (forall w, P w -> Qn a w) -> ensures P (ret a) Qn Qr.
Proof. intros A P a Qn HQ w out w' HP H. injection H as <- <-. apply HQ, HP. Qed.

Lemma ensures_return :
  forall {A} (P : world -> Prop) (r : R) (Qn : A -> world -> Prop),
    (forall w, P w -> Qr r w) -> ensures P (return_ r) Qn Qr.
Proof. intros A P r Qn HQ w out w' HP H. injection H as <- <-. apply HQ, HP. Qed.

Lemma ensures_read :
  forall {A} (P : world -> Prop) (g : world -> A) (Qn : A -> world -> Prop),
    (forall w, P w -> Qn (g w) w) -> ensures P (read g) Qn Qr.
Proof. intros A P g Qn HQ w out w' HP H. injection H as <- <-. apply HQ, HP. Qed.

Lemma ensures_modify :
  forall (P : world -> Prop) (g : world -> world) (Qn : unit -> world -> Prop),
    (forall w, P w -> Qn tt (g w)) -> ensures P (modify g) Qn Qr.
Proof. intros P g Qn HQ w out w' HP H. injection H as <- <-. apply HQ, HP. Qed.

Lemma ensures_call :
  forall {A} (P : world -> Prop) (p : proc A) (Qn : A -> world -> Prop),
    (forall w a w', P w -> p w = Some (a, w') -> Qn a w') ->
    ensures P (call p) Qn Qr.
Proof.
  intros A P p Qn HQ w out w' HP H. unfold call in H.
  destruct (p w) as [[a w1]|] eqn:E; try discriminate.
  injection H as <- <-. apply (HQ w a w1 HP E).
Qed.

Lemma ensures_when :
  forall (P : world -> Prop) (c : bool) (m : M R unit)
         (Qn : unit -> world -> Prop),
    (c = true -> ensures P m Qn Qr) ->
    (c = false -> forall w, P w -> Qn tt w) ->
    ensures P (when c m) Qn Qr.
Proof.
  intros P [|] m Qn Hm Hskip; cbn.
  - apply Hm. reflexivity.
  - apply ensures_ret. apply Hskip. reflexivity.
Qed.

Lemma ensures_weaken :
  forall {A} (P P' : world -> Prop) (m : M R A) (Qn Qn' : A -> world -> Prop),
    (forall w, P' w -> P w) ->
    (forall a w, Qn a w -> Qn' a w) ->
    ensures P m Qn Qr -> ensures P' m Qn' Qr.
Proof.
  intros A P P' m Qn Qn' Hpre Hpost Hm w out w' HP H.
  specialize (Hm w out w' (Hpre w HP) H). destruct out; auto.
Qed.

Lemma ensures_for_range :
  forall (P : world -> Prop) (count first : nat) (body : nat -> M R unit),
    (forall i, ensures P (body i) (fun _ => P) Qr) ->
    ensures P (for_range count first body) (fun _ => P) Qr.
Proof.
  intros P count. induction count as [|count IH]; intros first body Hb; cbn.
  - apply ensures_ret. auto.
  - apply ensures_bind with (Qmid := fun _ => P); [apply Hb | intros _; apply IH, Hb].
Qed.

End Ensures.

Lemma ensures_fn :
  forall {R} (P : world -> Prop) (body : M R R) (Q : R -> world -> Prop),
    ensures P body Q Q ->
    forall w r w', P w -> fn body w = Some (r, w') -> Q r w'.
Proof.
  intros R P body Q Hb w r w' HP H. unfold fn in H.
  destruct (body w) as [[[a|a] w1]|] eqn:E; try discriminate;
    injection H as <- <-; apply (Hb w _ w1 HP E).
Qed.

(** A frame that returns 0 with the release flag has released chip-select. *)
Lemma transceive_releases :
  forall (w w' : world),
    rfid_cr95hf_transceive true w = Some (0, w') -> cs_level (hw w') = 0.
Proof.
  intros w w' H.
  unfold rfid_cr95hf_transceive, fn, bind, gpio_pin_set_dt, k_sleep, hw_set,
    modify, read, when, return_, ret, spi_transceive_dt, spi_write_dt, spi_call in H.
  cbn [hw dev with_hw with_dev bus log set_cs_level set_uptime_us] in H.
  destruct (0 <? spi_snd_buffer_len (dev w));
    destruct (0 <? spi_rcv_buffer_len (dev w));
    cbn [andb hw dev with_hw with_dev bus log set_cs_level set_uptime_us] in H;
    try (destruct (bus (hw w)) as [|r rest]; [discriminate H|];
         destruct (Z.eqb_spec (r_err r) 0) as [He|He];
         [ rewrite He in H; cbn [nonzero Z.eqb negb] in H
         | apply Z.eqb_neq in He; unfold nonzero in H; rewrite He in H;
           cbn [negb] in H; injection H as H _; apply Z.eqb_neq in He;
           congruence ]);
    injection H as <-; reflexivity.
Qed.

(** A response that returns 0 has released chip-select. *)
Lemma response_releases :
  forall (size : Z) (w w' : world),
    rfid_cr95hf_response size w = Some (0, w') -> cs_level (hw w') = 0.
Proof.
  intros size w w' H.
  unfold rfid_cr95hf_response, fn in H.
  cbv beta iota delta [bind snd_buffer_store data_set modify call when read rcv
                       return_ ret] in H.
  destruct (rfid_cr95hf_transceive false _) as [[e1 w1]|]; [|discriminate H].
  destruct (nonzero e1) eqn:H1.
  { injection H as -> _. discriminate H1. }
  destruct (rfid_cr95hf_transceive true _) as [[e2 w2]|] eqn:E2; [|discriminate H].
  destruct (nonzero e2) eqn:H2.
  { injection H as -> _. discriminate H2. }
  injection H as <-. apply nonzero_false in H2. subst e2.
  apply (transceive_releases _ _ E2).
Qed.

Lemma released_error :
  forall {R} (code : R -> Z) (r : R) (w : world),
    code r <> 0 -> released_on_success code r w.
Proof. intros R code r w Hcode Hzero. contradiction. Qed.

(** Steps for a body whose returns with a code other than 0 need nothing. *)
Section Released.

Context {R : Type} (code : R -> Z) (Qr : R -> world -> Prop).
Hypothesis Qr_error : forall r w, code r <> 0 -> Qr r w.

Lemma rel_bind :
  forall {A B} (b : bool) (g : A -> bool) (m : M R A) (k : A -> M R B)
         (Qn : B -> world -> Prop),
    ensures (released b) m (fun a => released (g a)) Qr ->
    (forall a, ensures (released (g a)) (k a) Qn Qr) ->
    ensures (released b) (bind m k) Qn Qr.
Proof using code Qr Qr_error.
  intros A B b g m k Qn Hm Hk.
  apply (ensures_bind Qr _ m k (fun a => released (g a)) Qn Hm Hk).
Qed.

Lemma rel_modify :
  forall (b : bool) (f : world -> world),
    (forall w, cs_level (hw (f w)) = cs_level (hw w)) ->
    ensures (released b) (modify f) (fun _ => released b) Qr.
Proof using code Qr Qr_error.
  intros b f Hf. apply ensures_modify. intros w Hw Hb. rewrite Hf. apply Hw, Hb.
Qed.

Lemma rel_read :
  forall {A} (b : bool) (f : world -> A),
    ensures (released b) (read f) (fun _ => released b) Qr.
Proof using code Qr Qr_error. intros A b f. apply ensures_read. auto. Qed.

Lemma rel_ret :
  forall {A} (b : bool) (a : A),
    ensures (released b) (ret a) (fun _ => released b) Qr.
Proof using code Qr Qr_error. intros A b a. apply ensures_ret. auto. Qed.

Lemma rel_setmode :
  forall (b : bool) (mode : rfid_mode_t),
    ensures (released b) (rfid_cr95hf_setmode mode) (fun _ => released b) Qr.
Proof using code Qr Qr_error.
  intros b mode. unfold rfid_cr95hf_setmode, k_uptime_get, data_set.
  apply rel_bind with (g := fun _ => b); [ apply rel_modify; reflexivity | intros _ ].
  apply rel_bind with (g := fun _ => b); [ apply rel_read | intros now ].
  apply rel_modify. reflexivity.
Qed.

Lemma rel_call_any :
  forall {A} (b : bool) (p : proc A),
    ensures (released b) (call p) (fun _ => released false) Qr.
Proof using code Qr Qr_error.
  intros A b p. apply ensures_call. intros w a w' _ _ Hb. discriminate Hb.
Qed.

Lemma rel_call_transceive :
  forall (b : bool),
    ensures (released b) (call (rfid_cr95hf_transceive true))
      (fun err => released (negb (nonzero err))) Qr.
Proof using code Qr Qr_error.
  intros b. apply ensures_call. intros w err w' _ Hrun Hz.
  apply negb_true_iff, nonzero_false in Hz. subst err.
  apply (transceive_releases w w' Hrun).
Qed.

Lemma rel_modify_any :
  forall (f : world -> world),
    ensures (released false) (modify f) (fun _ => released false) Qr.
Proof using code Qr Qr_error.
  intros f. apply ensures_modify. intros w _ Hb. discriminate Hb.
Qed.

Lemma rel_call_response :
  forall (b : bool) (size : Z),
    ensures (released b) (call (rfid_cr95hf_response size))
      (fun err => released (negb (nonzero err))) Qr.
Proof using code Qr Qr_error.
  intros b size. apply ensures_call. intros w err w' _ Hrun Hz.
  apply negb_true_iff, nonzero_false in Hz. subst err.
  apply (response_releases size w w' Hrun).
Qed.

Lemma rel_check_response :
  forall (err : Z) (r : R),
    code r = err ->
    ensures (released (negb (nonzero err))) (when (nonzero err) (return_ r))
      (fun _ => released true) Qr.
Proof using code Qr Qr_error.
  intros err r Hcode. apply ensures_when.
  - intro Hnz. apply ensures_return. intros w _. apply Qr_error.
    apply nonzero_true in Hnz. congruence.
  - intros Hz w Hw _. apply Hw. rewrite Hz. reflexivity.
Qed.

Lemma rel_check :
  forall (b : bool) (err : Z) (r : R),
    code r = err ->
    ensures (released b) (when (nonzero err) (return_ r)) (fun _ => released b) Qr.
Proof using code Qr Qr_error.
  intros b err r Hcode. apply ensures_when.
  - intro Hnz. apply ensures_return. intros w _. apply Qr_error.
    apply nonzero_true in Hnz. congruence.
  - auto.
Qed.

Lemma rel_refuse :
  forall (b c : bool) (r : R),
    code r <> 0 ->
    ensures (released b) (when c (return_ r)) (fun _ => released b) Qr.
Proof using code Qr Qr_error.
  intros b c r Hcode. apply ensures_when.
  - intros _. apply ensures_return. intros w _. apply Qr_error, Hcode.
  - auto.
Qed.

Lemma rel_return_released :
  forall {A} (r : R) (Qn : A -> world -> Prop),
    (forall w, cs_level (hw w) = 0 -> Qr r w) ->
    ensures (released true) (return_ r) Qn Qr.
Proof using code Qr Qr_error.
  intros A r Qn Hr. apply ensures_return. intros w Hw. apply Hr, Hw. reflexivity.
Qed.

Lemma rel_return_error :
  forall {A} (b : bool) (r : R) (Qn : A -> world -> Prop),
    code r <> 0 ->
    ensures (released b) (return_ r) Qn Qr.
Proof using code Qr Qr_error.
  intros A b r Qn Hcode. apply ensures_return. intros w _. apply Qr_error, Hcode.
Qed.

Lemma rel_for_range :
  forall (count first : nat) (body : nat -> M R unit),
    (forall i, ensures (released false) (body i) (fun _ => released false) Qr) ->
    ensures (released false) (for_range count first body)
      (fun _ => released false) Qr.
Proof using code Qr Qr_error. intros count first body Hb. apply ensures_for_range, Hb. Qed.

End Released.

(** One step through a body, keeping track of whether chip-select is known
    to be released: it is after a response that returned 0, until the next
    frame.  [He] says that a return with a code other than 0 needs
    nothing. *)
Ltac released_step He :=
  first
    [ refine (rel_for_range _ _ He _ _ _ _)
    | refine (rel_setmode _ _ He _ _)
    | eapply (rel_bind _ _ He); [ | intro ]
    | refine (rel_call_response _ _ He _ _)
    | refine (rel_call_transceive _ _ He _)
    | refine (rel_call_any _ _ He _ _)
    | refine (rel_check_response _ _ He _ _ _); reflexivity
    | refine (rel_check _ _ He _ _ _ _); reflexivity
    | refine (rel_refuse _ _ He _ _ _ _); vm_compute; discriminate
    | refine (rel_modify _ _ He _ _ _); intro; reflexivity
    | refine (rel_modify_any _ _ He _)
    | refine (rel_read _ _ He _ _)
    | refine (rel_ret _ _ He _ _)
    | refine (rel_return_released _ _ He _ _ _); intros ? ? ?; assumption
    | refine (rel_return_error _ _ He _ _ _ _); vm_compute; discriminate
    | match goal with
      | |- ensures _ (if ?c then _ else _) _ _ => destruct c
      | |- ensures _ (match ?x with _ => _ end) _ _ => destruct x
      end ].

Ltac released_body He := repeat released_step He.

(** [rfid_cr95hf_protocol_select] returns 0 only with chip-select released. *)
Lemma protocol_select_releases :
  forall (size : Z) (config : rfid_cr95hf_spi_config) (proto : rfid_protocol_t)
         (w w' : world),
    rfid_cr95hf_protocol_select size config proto w = Some (0, w') ->
    cs_level (hw w') = 0.
Proof.
  intros size config proto w w' Hrun.
  refine (ensures_fn (released false) _ (released_on_success (fun r => r))
            _ w 0 w' _ Hrun eq_refl); [ | discriminate ].
  unfold rfid_cr95hf_protocol_select, data_set.
  released_body (released_error (fun r : Z => r)).
Qed.

(** [rfid_cr95hf_iso14443A_get_uid] returns 0 only with chip-select
    released. *)
Lemma get_uid_releases :
  forall (size : Z) (config : rfid_cr95hf_spi_config) (uid : option (list Z))
         (len : Z) (w w' : world) (res : get_uid_result),
    rfid_cr95hf_iso14443A_get_uid size config uid len w = Some (res, w') ->
    uid_ret res = 0 ->
    cs_level (hw w') = 0.
Proof.
  intros size config uid len w w' res Hrun Hzero.
  refine (ensures_fn (released false) _ (released_on_success uid_ret)
            _ w res w' _ Hrun Hzero); [ | discriminate ].
  unfold rfid_cr95hf_iso14443A_get_uid, get_uid_return, snd_buffer_store,
    snd_buffer_store_rcv, rcv, snd, data_set.
  released_body (released_error uid_ret).
Qed.

(** One turn of the calibration loop returns 0 only with chip-select
    released. *)
Lemma calibration_step_releases :
  forall (size : Z) (config : rfid_cr95hf_spi_config) (i : nat),
    ensures (released false) (rfid_cr95hf_calibration_step size config i)
      (fun _ => released false) (released_on_success (fun r : Z => r)).
Proof.
  intros size config i.
  eapply ensures_weaken with (P := released false);
    [ auto | | ].
  2: { unfold rfid_cr95hf_calibration_step, rfid_cr95hf_calibration_switch,
         snd_buffer_store, rcv, snd, data_set.
       released_body (released_error (fun r : Z => r)). }
  intros a w _ Hb. discriminate Hb.
Qed.

(** [rfid_cr95hf_calibration] returns 0 only with chip-select released. *)
Lemma calibration_releases :
  forall (size : Z) (config : rfid_cr95hf_spi_config) (w w' : world),
    rfid_cr95hf_calibration size config w = Some (0, w') ->
    cs_level (hw w') = 0.
Proof.
  intros size config w w' Hrun.
  refine (ensures_fn (released false) _ (released_on_success (fun r => r))
            _ w 0 w' _ Hrun eq_refl); [ | discriminate ].
  unfold rfid_cr95hf_calibration, snd_buffer_store, data_set.
  released_body (released_error (fun r : Z => r)).
  apply calibration_step_releases.
Qed.

(** X11.  A call of [rfid_cr95hf_select_mode] for a mode other than the
    current one returns 0 only for TAG_DETECTOR, and then the driver records
    READY (not TAG_DETECTOR) with the time of the return, and chip-select is
    released. *)
Theorem select_mode_success_ends_in_ready :
  forall (size : Z) (config : rfid_cr95hf_spi_config) (req : rfid_mode_t)
         (w w' : world),
    rfid_cr95hf_select_mode size config req w = Some (0, w') ->
    req <> current_mode (dev w) ->
    req = TAG_DETECTOR /\
    mode_record w' = (READY, uptime_us (hw w') / 1000) /\
    cs_level (hw w') = 0.
Proof.
  intros size config req w w' Hrun Hne.
  set (Qr := fun (r : Z) (v : world) =>
               r = 0 ->
               req = TAG_DETECTOR /\
               mode_record v = (READY, uptime_us (hw v) / 1000) /\
               cs_level (hw v) = 0).
  assert (He : forall (r : Z) (v : world), (fun x : Z => x) r <> 0 -> Qr r v).
  { intros r v Hr Hz. contradiction. }
  refine (ensures_fn (fun v => req <> current_mode (dev v)) _ Qr _ w 0 w'
            Hne Hrun eq_refl).
  unfold rfid_cr95hf_select_mode.
  eapply ensures_bind with (Qmid := fun cur _ => req <> cur).
  { apply ensures_read. auto. }
  intro cur.
  eapply ensures_bind with (Qmid := fun _ => released false).
  { apply ensures_when.
    - intro Heq. apply mode_eqb_eq in Heq. apply ensures_return.
      intros v Hv. contradiction.
    - intros _ v _ Hb. discriminate Hb. }
  intros _.
  unfold k_sleep, gpio_pin_set_dt, hw_set, data_set.
  repeat (lazymatch goal with
          | |- ensures _ (bind (rfid_cr95hf_setmode READY) (fun _ => return_ _)) _ _ =>
              fail
          | _ => idtac
          end;
          first [ released_step He
                | lazymatch goal with
                  | |- ensures _ (when ?c _) _ _ => unfold when; destruct c
                  end ]).
  intros v out v' Hrel Hstep.
  unfold rfid_cr95hf_setmode, k_uptime_get, data_set, bind, modify, read, return_
    in Hstep.
  injection Hstep as <- <-. intros _.
  split; [ reflexivity | ]. split; [ reflexivity | ].
  apply Hrel. reflexivity.
Qed.

(** On the bench: TAG_DETECTOR from READY. *)
Lemma select_mode_success_ends_in_ready_witness :
  TAG_DETECTOR = TAG_DETECTOR /\
  mode_record
    (left_by (rfid_cr95hf_select_mode 64 polled TAG_DETECTOR)
       (bench READY 20 50 (answer []))) =
  (READY,
   uptime_us
     (hw (left_by (rfid_cr95hf_select_mode 64 polled TAG_DETECTOR)
            (bench READY 20 50 (answer [])))) / 1000) /\
  cs_level
    (hw (left_by (rfid_cr95hf_select_mode 64 polled TAG_DETECTOR)
           (bench READY 20 50 (answer [])))) = 0.
Proof.
  apply (select_mode_success_ends_in_ready 64 polled TAG_DETECTOR
           (bench READY 20 50 (answer []))).
  - vm_compute. reflexivity.
  - vm_compute. discriminate.
Defined.

(** X12. Success means released: whenever
    [rfid_cr95hf_iso14443A_get_uid], [rfid_cr95hf_protocol_select] or
    [rfid_cr95hf_calibration] return 0, chip-select is released.  (A
    calibration that returns 0 has found the reference value 0, or 4 on the
    LOW branch of its last step.) *)
Theorem operations_release_chip_select_on_success :
  forall (size : Z) (config : rfid_cr95hf_spi_config) (w w' : world),
    (exists uid uid_len result,
        rfid_cr95hf_iso14443A_get_uid size config uid uid_len w = Some (result, w') /\
        uid_ret result = 0) \/
    (exists proto,
        rfid_cr95hf_protocol_select size config proto w = Some (0, w')) \/
    rfid_cr95hf_calibration size config w = Some (0, w') ->
    cs_level (hw w') = 0.
Proof.
  intros size config w w'
    [(uid & uid_len & result & Hrun & Hzero) | [(proto & Hrun) | Hrun]].
  - apply (get_uid_releases size config uid uid_len w w' result Hrun Hzero).
  - apply (protocol_select_releases size config proto w w' Hrun).
  - apply (calibration_releases size config w w' Hrun).
Qed.

(** On the bench: the card with a four byte UID. *)
Lemma operations_release_chip_select_on_success_witness :
  cs_level
    (hw (left_by (rfid_cr95hf_iso14443A_get_uid 64 polled (Some caller_uid) 12)
           (bench READY 0 50 plain_card))) = 0.
Proof.
  apply (operations_release_chip_select_on_success 64 polled
           (bench READY 0 50 plain_card)).
  left. exists (Some caller_uid), 12.
  exists {| uid_ret := 0;
            uid_buf := Some ([0xAA; 0xBB; 0xCC; 0xDD] ++ repeat 0xFF 8);
            uid_length := 4 |}.
  split; [ vm_compute; reflexivity | reflexivity ].
Defined.

(** ** A command that the bus refuses *)

(** The first frame of an operation, on a bus that refuses it. *)
Ltac refused_frame r rest Hbus Herr :=
  lazymatch goal with
  | |- context [rfid_cr95hf_transceive true ?w0] =>
      let w' := fresh "w'" in
      let Hrun := fresh "Hrun" in
      let Hb := fresh "Hb" in
      let Hcs := fresh "Hcs" in
      destruct (transceive_failure true w0 r rest) as (w' & Hrun & _ & Hb & Hcs & _);
      [ exact Hbus | exact Herr | left; cbn; lia | ];
      rewrite Hrun;
      replace (nonzero (r_err r)) with true
        by (symmetry; apply negb_true_iff, Z.eqb_neq, Herr);
      exists w'; repeat split; assumption
  end.

(** X13. When the bus refuses the very first command of
    [rfid_cr95hf_iso14443A_get_uid], [rfid_cr95hf_protocol_select] or
    [rfid_cr95hf_calibration], the call returns the code of the bus at once:
    one answer has been taken from the bus, nothing is waited for, and
    chip-select is left asserted.  [uid] and [*uid_len] are what the caller
    passed. *)
Theorem refused_command_is_returned :
  forall (size : Z) (config : rfid_cr95hf_spi_config) (w : world)
         (r : reply) (rest : list reply) (uid : list Z) (uid_len : Z),
    bus (hw w) = r :: rest ->
    r_err r <> 0 ->
    10 <= uid_len ->
    0 < protocol_msg_len (dev w) ->
    (exists w' : world,
        rfid_cr95hf_iso14443A_get_uid size config (Some uid) uid_len w =
          Some ({| uid_ret := r_err r; uid_buf := Some uid; uid_length := uid_len |},
                w') /\
        bus (hw w') = rest /\ cs_level (hw w') = 1) /\
    (exists w' : world,
        rfid_cr95hf_protocol_select size config ISO_14443A w = Some (r_err r, w') /\
        bus (hw w') = rest /\ cs_level (hw w') = 1) /\
    (exists w' : world,
        rfid_cr95hf_calibration size config w = Some (r_err r, w') /\
        bus (hw w') = rest /\ cs_level (hw w') = 1).
Proof.
  intros size config w r rest uid uid_len Hbus Herr Hlen Hmsg.
  apply Z.ltb_ge in Hlen.
  split; [ | split ].
  - unfold rfid_cr95hf_iso14443A_get_uid, fn.
    cbv beta iota delta [bind snd_buffer_store data_set modify call when read
                         return_ ret get_uid_return].
    rewrite Hlen. cbn [orb].
    refused_frame r rest Hbus Herr.
  - unfold rfid_cr95hf_protocol_select, fn.
    cbv beta iota delta [bind snd_buffer_store data_set modify call when read
                         return_ ret].
    refused_frame r rest Hbus Herr.
  - unfold rfid_cr95hf_calibration, fn.
    cbv beta iota delta [bind snd_buffer_store data_set modify call when read
                         return_ ret for_range rfid_cr95hf_calibration_step].
    refused_frame r rest Hbus Herr.
Qed.

(** On the bench: a bus that answers [-EIO] to the first transfer. *)
Lemma refused_command_is_returned_witness :
  (exists w' : world,
      rfid_cr95hf_iso14443A_get_uid 64 polled (Some caller_uid) 12
        (bench READY 0 50 [failed (- EIO); ok []]) =
        Some ({| uid_ret := - EIO; uid_buf := Some caller_uid; uid_length := 12 |},
              w') /\
      bus (hw w') = [ok []] /\ cs_level (hw w') = 1) /\
  (exists w' : world,
      rfid_cr95hf_protocol_select 64 polled ISO_14443A
        (bench READY 0 50 [failed (- EIO); ok []]) = Some (- EIO, w') /\
      bus (hw w') = [ok []] /\ cs_level (hw w') = 1) /\
  (exists w' : world,
      rfid_cr95hf_calibration 64 polled
        (bench READY 0 50 [failed (- EIO); ok []]) = Some (- EIO, w') /\
      bus (hw w') = [ok []] /\ cs_level (hw w') = 1).
Proof.
  apply (refused_command_is_returned 64 polled
           (bench READY 0 50 [failed (- EIO); ok []]) (failed (- EIO)) [ok []]
           caller_uid 12).
  - reflexivity.
  - vm_compute. discriminate.
  - lia.
  - vm_compute. reflexivity.
Defined.

(** ** Waiting on the IRQ_OUT line *)

(** X14. With an IRQ_OUT line, [rfid_cr95hf_wait] reads the line once.  On
    any reading other than 0, a negative error code of the read included,
    the call returns at once, whether or not an edge is to come.  On a
    reading of 0 it arms the edge interrupt, takes the semaphore and disarms
    the interrupt; it returns when the semaphore holds a count or an edge
    comes.  The bus, chip-select and the buffers are not touched. *)
Theorem wait_on_irq_out_line :
  forall (config : rfid_cr95hf_spi_config) (l : line) (w : world)
         (level : Z) (reads : list Z),
    irq_out config = Some l ->
    irq_out_reads (hw w) = level :: reads ->
    (level = 0 -> 0 < irq_out_sem (dev w) \/ irq_out_edges (hw w) <> 0%nat) ->
    exists w' : world,
      rfid_cr95hf_wait config w = Some (tt, w') /\
      irq_out_reads (hw w') = reads /\
      trace (hw w') =
        trace (hw w) ++
        GpioGet l level ::
        (if level =? 0 then [IrqConfigure l true; SemTake; IrqConfigure l false]
         else []) /\
      bus (hw w') = bus (hw w) /\
      cs_level (hw w') = cs_level (hw w) /\
      rcv_buffer (dev w') = rcv_buffer (dev w) /\
      snd_buffer (dev w') = snd_buffer (dev w).
Proof.
  intros config l w level reads Hcfg Hreads Hcomes.
  unfold rfid_cr95hf_wait, fn. rewrite Hcfg.
  unfold call, rfid_cr95hf_wait_for_irq_out_low, fn, bind, gpio_pin_get_dt, when,
    return_, ret, gpio_pin_interrupt_configure_dt, hw_set, modify,
    k_sem_take_irq_out_sem, nonzero.
  rewrite Hreads.
  destruct (Z.eqb_spec level 0) as [Hzero|Hother]; cbn [negb].
  - cbn [hw dev with_hw with_dev log irq_out_edges set_irq_out_reads].
    destruct (0 <? irq_out_sem (dev w)) eqn:Hsem.
    + eexists. split; [ reflexivity | ].
      cbn. rewrite <- !app_assoc. repeat split.
    + destruct (Hcomes Hzero) as [Hcount|Hedge];
        [ apply Z.ltb_lt in Hcount; congruence | ].
      destruct (irq_out_edges (hw w)) as [|n]; [ contradiction | ].
      eexists. split; [ reflexivity | ].
      cbn. rewrite <- !app_assoc. repeat split.
  - eexists. split; [ reflexivity | ]. cbn. repeat split.
Qed.

(** On the bench: a line that reads [-EIO] and never shows an edge, and a
    line that reads 0 and shows one edge. *)
Lemma wait_on_irq_out_line_witness :
  (exists w' : world,
     rfid_cr95hf_wait signalled (on_irq_out [- EIO] 0 (bench READY 0 50 [])) =
       Some (tt, w') /\
     irq_out_reads (hw w') = [] /\
     trace (hw w') = [] ++ [GpioGet IRQ_OUT (- EIO)] /\
     bus (hw w') = [] /\
     cs_level (hw w') = 0 /\
     rcv_buffer (dev w') = repeat 0 64 /\
     snd_buffer (dev w') = repeat 0 64) /\
  (exists w' : world,
     rfid_cr95hf_wait signalled (on_irq_out [0] 1 (bench READY 0 50 [])) =
       Some (tt, w') /\
     irq_out_reads (hw w') = [] /\
     trace (hw w') =
       [] ++ [GpioGet IRQ_OUT 0; IrqConfigure IRQ_OUT true; SemTake;
              IrqConfigure IRQ_OUT false] /\
     bus (hw w') = [] /\
     cs_level (hw w') = 0 /\
     rcv_buffer (dev w') = repeat 0 64 /\
     snd_buffer (dev w') = repeat 0 64).
Proof.
  split.
  - apply (wait_on_irq_out_line signalled IRQ_OUT
             (on_irq_out [- EIO] 0 (bench READY 0 50 [])) (- EIO) []).
    + reflexivity.
    + reflexivity.
    + intro H. discriminate H.
  - apply (wait_on_irq_out_line signalled IRQ_OUT
             (on_irq_out [0] 1 (bench READY 0 50 [])) 0 []).
    + reflexivity.
    + reflexivity.
    + intros _. right. vm_compute. discriminate.
Defined.

(** ** Protocol selection *)

(** X15. [rfid_cr95hf_protocol_select] knows ISO 14443-A only: every other
    protocol, FIELD_OFF included, is refused with [-EINVAL] before anything
    is sent, in the world the call was made in. *)
Theorem protocol_select_refuses_other_protocols :
  forall (size : Z) (config : rfid_cr95hf_spi_config) (proto : rfid_protocol_t)
         (w : world),
    proto <> ISO_14443A ->
    rfid_cr95hf_protocol_select size config proto w = Some (- EINVAL, w).
Proof.
  intros size config proto w Hproto.
  destruct proto; try reflexivity. contradiction.
Qed.

(** On the bench: ISO 15693. *)
Lemma protocol_select_refuses_other_protocols_witness :
  rfid_cr95hf_protocol_select 64 polled ISO_15693 (bench READY 0 50 [ok []]) =
    Some (- EINVAL, bench READY 0 50 [ok []]).
Proof.
  apply (protocol_select_refuses_other_protocols 64 polled ISO_15693).
  discriminate.
Defined.

(** ** Anticollision: a seven byte UID *)

Lemma store7_prefix :
  forall (uid : list Z) (a b c d e f g : Z),
    (7 <= length uid)%nat ->
    store 6 g (store 5 f (store 4 e (store 3 d
      (store 2 c (store 1 b (store 0 a uid)))))) =
    [a; b; c; d; e; f; g] ++ skipn 7 uid.
Proof.
  intros uid a b c d e f g H.
  destruct uid as [|x0 [|x1 [|x2 [|x3 [|x4 [|x5 [|x6 l]]]]]]];
    cbn in H; try lia.
  reflexivity.
Qed.

(** X16. Two cascade levels: every command completes, the answer to SEL_CL1
    starts with the cascade tag 0x88 and the SAK after it has bit 0x04 set,
    the answer to SEL_CL2 starts with another byte and the SAK after it has
    the bit clear.  The call succeeds with [*uid_len = 7],
    [uid[0 .. 2]] = bytes 1-3 of the first answer and
    [uid[3 .. 6]] = bytes 0-3 of the second; the rest of [uid] is the
    caller's. *)
Theorem get_uid_two_level_cascade :
  forall (size : Z) (config : rfid_cr95hf_spi_config)
         (uid : list Z) (uid_len : Z) (w w1 w2 w3 w4 w5 : world),
    10 <= uid_len ->
    uid_len <= Z.of_nat (length uid) ->
    completes (send_reqa size config) w w1 ->
    completes (send_select size config 0x93) w1 w2 ->
    response w2 0 = 0x88 ->
    completes (send_select_complete size config 0x93) w2 w3 ->
    sak_more w3 = true ->
    completes (send_select size config 0x95) w3 w4 ->
    response w4 0 <> 0x88 ->
    completes (send_select_complete size config 0x95) w4 w5 ->
    sak_more w5 = false ->
    rfid_cr95hf_iso14443A_get_uid size config (Some uid) uid_len w =
      Some ({| uid_ret := 0;
               uid_buf :=
                 Some ([response w2 1; response w2 2; response w2 3;
                        response w4 0; response w4 1; response w4 2;
                        response w4 3] ++ skipn 7 uid);
               uid_length := 7 |}, w5).
Proof.
  intros size config uid uid_len w w1 w2 w3 w4 w5
    Hlen Hbuf H1 H2 Htag1 H3 Hsak3 H4 Htag2 H5 Hsak5.
  rewrite (get_uid_two_levels size config uid uid_len w w1 w2 w3 w4 w5)
    by assumption.
  unfold cascade_uid, cascade_len. rewrite Htag1.
  apply Z.eqb_neq in Htag2. rewrite Htag2.
  cbn [Z.eqb Pos.eqb Nat.add].
  rewrite <- (store7_prefix uid (response w2 1) (response w2 2) (response w2 3)
                (response w4 0) (response w4 1) (response w4 2) (response w4 3))
    by lia.
  reflexivity.
Qed.

(** On the bench: the card with a seven byte UID, polled. *)
Lemma get_uid_two_level_cascade_witness :
  exists w5 : world,
    rfid_cr95hf_iso14443A_get_uid 64 polled (Some caller_uid) 12
      (bench READY 0 50 double_card) =
    Some ({| uid_ret := 0;
             uid_buf :=
               Some ([0x04; 0x11; 0x22; 0x33; 0x44; 0x55; 0x66] ++ repeat 0xFF 5);
             uid_length := 7 |}, w5).
Proof.
  pose (w := bench READY 0 50 double_card).
  pose (w1 := run_to (send_reqa 64 polled) w).
  pose (w2 := run_to (send_select 64 polled 0x93) w1).
  pose (w3 := run_to (send_select_complete 64 polled 0x93) w2).
  pose (w4 := run_to (send_select 64 polled 0x95) w3).
  pose (w5 := run_to (send_select_complete 64 polled 0x95) w4).
  exists w5.
  refine (get_uid_two_level_cascade 64 polled caller_uid 12
            w w1 w2 w3 w4 w5 _ _ _ _ _ _ _ _ _ _ _).
  - lia.
  - vm_compute. discriminate.
  - vm_compute. reflexivity.
  - vm_compute. reflexivity.
  - vm_compute. reflexivity.
  - vm_compute. reflexivity.
  - vm_compute. reflexivity.
  - vm_compute. reflexivity.
  - vm_compute. discriminate.
  - vm_compute. reflexivity.
  - vm_compute. reflexivity.
Defined.

(** ** Initialisation *)

(** The next frame of a body, on a bus that accepts it. *)
Ltac accepted_frame r rest :=
  lazymatch goal with
  | |- context [rfid_cr95hf_transceive true ?w0] =>
      let w1 := fresh "w" in
      let Hdev := fresh "Hdev" in
      let Hb := fresh "Hbus" in
      let Hf := fresh "Hframe" in
      destruct (transceive_success true w0 r rest) as (w1 & -> & Hdev & Hb & Hf);
      [ | | | cbn [nonzero Z.eqb negb] ]
  end.

(** The two bytes of the echo answer in a receive buffer with room for
    them. *)
Lemma echo_lands :
  forall (data buffer : list Z),
    (2 <= length buffer)%nat ->
    byte_at (blit (clocked 2 data) buffer) 1 = nth 1 data 0 /\
    length (blit (clocked 2 data) buffer) = length buffer.
Proof.
  intros data buffer Hb. unfold byte_at, clocked.
  destruct buffer as [|b0 [|b1 buffer]]; cbn in Hb; try lia.
  destruct data as [|d0 [|d1 data]]; cbn; auto.
Qed.

(** A turn on a bus that accepts its three transfers: three answers taken,
    the echo byte in [rcv_buffer[1]], chip-select released. *)
Lemma init_round_runs :
  forall (w : world) (a b c : reply) (rest : list reply),
    bus (hw w) = a :: b :: c :: rest ->
    r_err a = 0 -> r_err b = 0 -> r_err c = 0 ->
    (2 <= length (rcv_buffer (dev w)))%nat ->
    exists w' : world,
      rfid_cr95hf_init_round w = Some (Next tt, w') /\
      bus (hw w') = rest /\
      response w' 1 = echo_of c /\
      length (rcv_buffer (dev w')) = length (rcv_buffer (dev w)) /\
      cs_level (hw w') = 0 /\
      uptime_us (hw w') = uptime_us (hw w) + round_us /\
      settings w' = settings w.
Proof.
  intros w a b c rest Hbus Ha Hb Hc Hlen.
  unfold rfid_cr95hf_init_round, rfid_cr95hf_IRQ_IN_pulse, spi_release_dt.
  cbv beta iota delta [bind snd_buffer_store data_set modify call when read rcv
                       return_ ret k_sleep gpio_pin_set_dt hw_set].
  accepted_frame a (b :: c :: rest); [ exact Hbus | exact Ha | left; cbn; lia | ].
  accepted_frame b (c :: rest); [ cbn; exact Hbus0 | exact Hb | left; cbn; lia | ].
  accepted_frame c rest; [ cbn; exact Hbus1 | exact Hc | left; cbn; lia | ].
  eexists. split; [ reflexivity | ].
  destruct Hframe as (_ & Hup0 & _). destruct Hframe0 as (_ & Hup1 & _).
  destruct Hframe1 as (Hcs & Hup2 & _).
  assert (Hd0 : rcv_buffer (dev w0) = rcv_buffer (dev w) /\ settings w0 = settings w).
  { unfold settings, mode_record, templates. rewrite Hdev. split; reflexivity. }
  assert (Hd1 : rcv_buffer (dev w1) = rcv_buffer (dev w) /\ settings w1 = settings w).
  { destruct Hd0 as (Hr0 & Hs0). rewrite <- Hr0, <- Hs0.
    unfold settings, mode_record, templates. rewrite Hdev0.
    cbn [dev hw with_dev with_hw]. rewrite Hdev. split; reflexivity. }
  assert (Hd2 : rcv_buffer (dev w2) = blit (clocked 2 (r_data c)) (rcv_buffer (dev w))
                /\ settings w2 = settings w).
  { destruct Hd1 as (Hr1 & Hs1). rewrite <- Hr1, <- Hs1.
    unfold settings, mode_record, templates. rewrite Hdev1.
    split; reflexivity. }
  destruct Hd2 as (Hr2 & Hs2).
  destruct (echo_lands (r_data c) (rcv_buffer (dev w)) Hlen) as (Hecho & Hsame).
  cbn in Hup0, Hup1, Hup2.
  repeat split.
  - exact Hbus2.
  - unfold response. cbn [dev hw with_dev with_hw]. rewrite Hr2. exact Hecho.
  - cbn [dev hw with_dev with_hw]. rewrite Hr2. exact Hsame.
  - exact Hcs.
  - cbn. rewrite Hup2, Hup1, Hup0. unfold round_us, pulse_us, K_MSEC, K_USEC. lia.
  - exact Hs2.
Qed.

(** The loop ends at the first turn that finds the echo. *)
Lemma init_loop_finds_echo :
  forall (silents : list (reply * reply * reply)) (t : reply * reply * reply)
         (rest : list reply) (tries : nat) (w : world),
    Forall silent silents ->
    echoes t ->
    (length silents < tries)%nat ->
    bus (hw w) = turns_answers silents ++ round_answers t ++ rest ->
    (2 <= length (rcv_buffer (dev w)))%nat ->
    exists w' : world,
      rfid_cr95hf_init_loop tries w =
        Some (Next (tries - length silents - 1)%nat, w') /\
      bus (hw w') = rest /\
      response w' 1 = 0x55 /\
      cs_level (hw w') = 0 /\
      uptime_us (hw w') =
        uptime_us (hw w) + (Z.of_nat (length silents) + 1) * round_us /\
      settings w' = settings w.
Proof.
  induction silents as [|s silents IH]; intros t rest tries w Hs Ht Hn Hbus Hlen.
  - destruct tries as [|n]; [ cbn in Hn; lia | ].
    destruct t as [[a b] c]. destruct Ht as ((Ha & Hb & Hc) & Hecho).
    destruct (init_round_runs w a b c rest Hbus Ha Hb Hc Hlen)
      as (w1 & Hrun & Hb1 & He1 & _ & Hcs1 & Hup1 & Hs1).
    exists w1. cbn [rfid_cr95hf_init_loop]. unfold bind at 1. rewrite Hrun.
    unfold bind, rcv, read. unfold response in He1. rewrite He1, Hecho.
    cbn [Z.eqb Pos.eqb negb andb length Nat.sub]. rewrite Nat.sub_0_r.
    split; [ reflexivity | ].
    cbn [length Z.of_nat]. rewrite Hup1.
    repeat split; auto; try lia. unfold response. congruence.
  - destruct tries as [|n]; [ cbn in Hn; lia | ].
    destruct s as [[a b] c]. inversion Hs as [|? ? Hsil Hs']; subst.
    destruct Hsil as ((Ha & Hb & Hc) & Hecho).
    cbn [length] in Hn.
    cbn [turns_answers flat_map round_answers app] in Hbus.
    destruct (init_round_runs w a b c _ Hbus Ha Hb Hc Hlen)
      as (w1 & Hrun & Hb1 & He1 & Hl1 & Hcs1 & Hup1 & Hs1).
    destruct (IH t rest n w1 Hs' Ht) as (w2 & Hloop & Hb2 & He2 & Hcs2 & Hup2 & Hs2);
      [ lia | exact Hb1 | lia | ].
    exists w2. cbn [rfid_cr95hf_init_loop]. unfold bind at 1. rewrite Hrun.
    unfold bind at 1. unfold rcv, read. unfold response in He1. rewrite He1.
    apply Z.eqb_neq in Hecho. rewrite Hecho.
    replace (0 <? n)%nat with true by (symmetry; apply Nat.ltb_lt; lia).
    cbn [negb andb]. rewrite Hloop.
    split; [ reflexivity | ].
    repeat split; auto; [ | congruence ].
    rewrite Hup2, Hup1. cbn [length]. lia.
Qed.

(** Splits a conjunction into its parts. *)
Ltac conjuncts := repeat lazymatch goal with |- _ /\ _ => split end.

(** The loop ends when the count is used up. *)
Lemma init_loop_gives_up :
  forall (silents : list (reply * reply * reply)) (rest : list reply) (w : world),
    Forall silent silents ->
    silents <> [] ->
    bus (hw w) = turns_answers silents ++ rest ->
    (2 <= length (rcv_buffer (dev w)))%nat ->
    exists w' : world,
      rfid_cr95hf_init_loop (length silents) w = Some (Next 0%nat, w') /\
      bus (hw w') = rest /\
      response w' 1 <> 0x55 /\
      cs_level (hw w') = 0 /\
      uptime_us (hw w') = uptime_us (hw w) + Z.of_nat (length silents) * round_us /\
      settings w' = settings w.
Proof.
  induction silents as [|s silents IH]; intros rest w Hs Hne Hbus Hlen;
    [ contradiction | ].
  destruct s as [[a b] c]. inversion Hs as [|? ? Hsil Hs']; subst.
  destruct Hsil as ((Ha & Hb & Hc) & Hecho).
  cbn [turns_answers flat_map round_answers app] in Hbus.
  destruct (init_round_runs w a b c _ Hbus Ha Hb Hc Hlen)
    as (w1 & Hrun & Hb1 & He1 & Hl1 & Hcs1 & Hup1 & Hs1).
  cbn [length rfid_cr95hf_init_loop]. unfold bind at 1. rewrite Hrun.
  unfold bind at 1. unfold rcv, read.
  pose proof He1 as He1'. unfold response in He1'. rewrite He1'.
  pose proof Hecho as Hecho'. apply Z.eqb_neq in Hecho'. rewrite Hecho'.
  cbn [negb andb].
  destruct silents as [|s' silents'].
  - exists w1. cbn [length Nat.ltb Nat.leb]. split; [ reflexivity | ].
    conjuncts; auto. congruence.
  - destruct (IH rest w1 Hs') as (w2 & Hloop & Hb2 & He2 & Hcs2 & Hup2 & Hs2);
      [ discriminate | exact Hb1 | lia | ].
    exists w2.
    replace (0 <? length (s' :: silents'))%nat with true
      by (symmetry; apply Nat.ltb_lt; cbn [length]; lia).
    rewrite Hloop. split; [ reflexivity | ].
    conjuncts; auto; [ | congruence ].
    rewrite Hup2, Hup1. cbn [length]. lia.
Qed.

(** A statement that falls through hands its world to the next one. *)
Lemma bind_next :
  forall {R A B} (m : M R A) (k : A -> M R B) (w w1 : world) (a : A),
    m w = Some (Next a, w1) -> bind m k w = k a w1.
Proof. intros R A B m k w w1 a H. unfold bind. rewrite H. reflexivity. Qed.

(** The checks and the configuration at the start, on a board whose bus
    and IRQ_OUT line are ready; the chip-select and IRQ_IN ports may be
    ready or not, and their configuration may fail. *)
Lemma init_setup_runs :
  forall (config : rfid_cr95hf_spi_config) (brd : board) (w : world),
    spi_is_ready brd = true ->
    line_ready config brd ->
    exists w1 : world,
      prepared w w1 /\
      forall k : M Z Z,
        (when (negb (spi_is_ready brd)) (return_ (- ENODEV)) ;;
         _ <- (if cs_port_is_ready brd
               then gpio_pin_configure_dt CS (cs_configure brd)
               else ret (- ENODEV)) ;;
         _ <- (if irq_in_port_is_ready brd
               then gpio_pin_configure_dt IRQ_IN (irq_in_configure brd)
               else ret (- ENODEV)) ;;
         match irq_out config with
         | Some irq_out =>
             when (negb (irq_out_is_ready brd)) (return_ (- EBUSY)) ;;
             err <- gpio_pin_configure_dt irq_out (irq_out_configure brd) ;;
             when (nonzero err) (return_ err) ;;
             k_sem_init_irq_out_sem ;;
             err <- ret (irq_out_add_callback brd) ;;
             when (nonzero err) (return_ err)
         | None => ret tt
         end ;;
         k) w = k w1.
Proof.
  intros config brd w Hspi Hline. unfold line_ready in Hline.
  unfold gpio_pin_configure_dt, k_sem_init_irq_out_sem, data_set, hw_set.
  rewrite Hspi.
  destruct (irq_out config) as [l|];
    [ destruct Hline as (-> & -> & ->) | ];
    destruct (cs_port_is_ready brd), (irq_in_port_is_ready brd),
      (cs_configure brd =? 0), (irq_in_configure brd =? 0);
    try destruct l;
    (eexists; split; [ | intro k; reflexivity ]);
    unfold prepared; repeat split.
Qed.

(** X17. Initialisation, the chip answers: after any number of turns
    below five that end with another byte, a turn that ends with the echo
    0x55 makes [rfid_cr95hf_init_spi] return 0 with the mode POWER_UP and
    the timestamp of the return.  It has taken three answers per turn from
    the bus, chip-select is released, and the call took one wake pulse, 1 ms
    and 32.11 ms per turn.  This holds whether or not the chip-select and
    IRQ_IN ports were ready and could be configured: their outcome is never
    looked at; the echo of the fifth turn still counts. *)
Theorem init_finds_the_chip :
  forall (config : rfid_cr95hf_spi_config) (brd : board) (w : world)
         (silents : list (reply * reply * reply)) (t : reply * reply * reply)
         (rest : list reply),
    spi_is_ready brd = true ->
    line_ready config brd ->
    Forall silent silents ->
    echoes t ->
    (length silents < 5)%nat ->
    bus (hw w) = turns_answers silents ++ round_answers t ++ rest ->
    (2 <= length (rcv_buffer (dev w)))%nat ->
    exists w' : world,
      rfid_cr95hf_init_spi config brd w = Some (0, w') /\
      mode_record w' = (POWER_UP, uptime_us (hw w') / 1000) /\
      templates w' = templates w /\
      bus (hw w') = rest /\
      cs_level (hw w') = 0 /\
      uptime_us (hw w') =
        uptime_us (hw w) + pulse_us + K_MSEC 1 +
        (Z.of_nat (length silents) + 1) * round_us.
Proof.
  intros config brd w silents t rest Hspi Hline Hs Ht Hn Hbus Hlen.
  unfold rfid_cr95hf_init_spi, fn.
  destruct (init_setup_runs config brd w Hspi Hline)
    as (w1 & (Hb1 & Hup1 & _ & Hr1 & Hs1) & ->).
  unfold rfid_cr95hf_IRQ_IN_pulse.
  do 3 (erewrite bind_next; [ | reflexivity ]).
  match goal with
  | |- context [bind (rfid_cr95hf_init_loop 5) ?k ?w2] =>
      destruct (init_loop_finds_echo silents t rest 5 w2 Hs Ht Hn)
        as (w3 & Hloop & Hb3 & He3 & Hcs3 & Hup3 & Hs3);
      [ change (bus (hw w1) = turns_answers silents ++ round_answers t ++ rest);
        rewrite Hb1; exact Hbus
      | change (2 <= length (rcv_buffer (dev w1)))%nat; rewrite Hr1; exact Hlen
      | rewrite (bind_next _ _ _ _ _ Hloop);
        change (uptime_us (hw w2)) with
          (uptime_us (hw w1) + K_USEC 100 + K_USEC 10 + K_MSEC 11 + K_MSEC 1) in Hup3;
        change (settings w2) with (settings w1) in Hs3 ]
  end.
  unfold response in He3.
  unfold bind at 1. unfold rcv, read. rewrite He3.
  cbn [Z.eqb Pos.eqb negb andb when].
  rewrite andb_false_r.
  unfold rfid_cr95hf_setmode, k_uptime_get, data_set, bind, modify, read, return_, ret.
  eexists. split; [ reflexivity | ].
  unfold settings in Hs3, Hs1. 
  assert (Ht3 : templates w3 = templates w) by congruence.
  conjuncts; try assumption; try reflexivity.
  cbn [hw with_dev]. rewrite Hup3, Hup1. unfold pulse_us. lia.
Qed.

(** On the bench: ports that are not ready, a chip that echoes in the second
    turn. *)
Lemma init_finds_the_chip_witness :
  exists w' : world,
    rfid_cr95hf_init_spi polled unready_ports
      (bench UNINITIALIZED 0 0 (round_answers (turn 0) ++ round_answers (turn 0x55))) =
      Some (0, w') /\
    mode_record w' = (POWER_UP, uptime_us (hw w') / 1000) /\
    templates w' =
      templates
        (bench UNINITIALIZED 0 0 (round_answers (turn 0) ++ round_answers (turn 0x55))) /\
    bus (hw w') = [] /\
    cs_level (hw w') = 0 /\
    uptime_us (hw w') = 0 + pulse_us + K_MSEC 1 + (1 + 1) * round_us.
Proof.
  apply (init_finds_the_chip polled unready_ports
           (bench UNINITIALIZED 0 0 (round_answers (turn 0) ++ round_answers (turn 0x55)))
           [turn 0] (turn 0x55) []).
  - reflexivity.
  - exact I.
  - repeat constructor. vm_compute. discriminate.
  - repeat constructor.
  - vm_compute. lia.
  - reflexivity.
  - vm_compute. lia.
Defined.

(** X18. Initialisation, no chip: after five turns without the echo,
    [rfid_cr95hf_init_spi] returns [-EIO] with the mode UNINITIALIZED and
    the timestamp of the return, having taken exactly fifteen answers from
    the bus. *)
Theorem init_gives_up_after_five_turns :
  forall (config : rfid_cr95hf_spi_config) (brd : board) (w : world)
         (silents : list (reply * reply * reply)) (rest : list reply),
    spi_is_ready brd = true ->
    line_ready config brd ->
    Forall silent silents ->
    length silents = 5%nat ->
    bus (hw w) = turns_answers silents ++ rest ->
    (2 <= length (rcv_buffer (dev w)))%nat ->
    exists w' : world,
      rfid_cr95hf_init_spi config brd w = Some (- EIO, w') /\
      mode_record w' = (UNINITIALIZED, uptime_us (hw w') / 1000) /\
      templates w' = templates w /\
      bus (hw w') = rest /\
      cs_level (hw w') = 0 /\
      uptime_us (hw w') = uptime_us (hw w) + pulse_us + K_MSEC 1 + 5 * round_us.
Proof.
  intros config brd w silents rest Hspi Hline Hs Hn Hbus Hlen.
  unfold rfid_cr95hf_init_spi, fn.
  destruct (init_setup_runs config brd w Hspi Hline)
    as (w1 & (Hb1 & Hup1 & _ & Hr1 & Hs1) & ->).
  unfold rfid_cr95hf_IRQ_IN_pulse.
  do 3 (erewrite bind_next; [ | reflexivity ]).
  rewrite <- Hn.
  match goal with
  | |- context [bind (rfid_cr95hf_init_loop (length silents)) ?k ?w2] =>
      destruct (init_loop_gives_up silents rest w2 Hs)
        as (w3 & Hloop & Hb3 & He3 & Hcs3 & Hup3 & Hs3);
      [ intros ->; discriminate Hn
      | change (bus (hw w1) = turns_answers silents ++ rest);
        rewrite Hb1; exact Hbus
      | change (2 <= length (rcv_buffer (dev w1)))%nat; rewrite Hr1; exact Hlen
      | rewrite (bind_next _ _ _ _ _ Hloop);
        change (uptime_us (hw w2)) with
          (uptime_us (hw w1) + K_USEC 100 + K_USEC 10 + K_MSEC 11 + K_MSEC 1) in Hup3;
        change (settings w2) with (settings w1) in Hs3 ]
  end.
  unfold response in He3. apply Z.eqb_neq in He3.
  unfold bind at 1. unfold rcv, read. rewrite He3.
  cbn [Nat.eqb negb andb when].
  unfold rfid_cr95hf_setmode, k_uptime_get, data_set, bind, modify, read, return_, ret.
  eexists. split; [ reflexivity | ].
  unfold settings in Hs3, Hs1.
  assert (Ht3 : templates w3 = templates w) by congruence.
  conjuncts; try assumption; try reflexivity.
  cbn [hw with_dev]. rewrite Hup3, Hup1, Hn. unfold pulse_us. lia.
Qed.

(** On the bench: five turns without the echo. *)
Lemma init_gives_up_after_five_turns_witness :
  exists w' : world,
    rfid_cr95hf_init_spi polled ready_board
      (bench UNINITIALIZED 0 0 (turns_answers (repeat (turn 0) 5) ++ [ok [1]])) =
      Some (- EIO, w') /\
    mode_record w' = (UNINITIALIZED, uptime_us (hw w') / 1000) /\
    templates w' =
      templates
        (bench UNINITIALIZED 0 0 (turns_answers (repeat (turn 0) 5) ++ [ok [1]])) /\
    bus (hw w') = [ok [1]] /\
    cs_level (hw w') = 0 /\
    uptime_us (hw w') = 0 + pulse_us + K_MSEC 1 + 5 * round_us.
Proof.
  apply (init_gives_up_after_five_turns polled ready_board
           (bench UNINITIALIZED 0 0 (turns_answers (repeat (turn 0) 5) ++ [ok [1]]))
           (repeat (turn 0) 5) [ok [1]]).
  - reflexivity.
  - exact I.
  - repeat constructor; vm_compute; discriminate.
  - reflexivity.
  - reflexivity.
  - vm_compute. lia.
Defined.

(** X19. Initialisation on a board that is not ready: without the bus the
    call returns [-ENODEV], with or without an IRQ_OUT line, in the world it
    was called in; with the bus but without a ready IRQ_OUT line it returns
    [-EBUSY] after the attempts to configure chip-select and IRQ_IN, each of
    which leaves its line inactive when the port is ready and the call
    succeeds.  Either way it returns before the wake pulse: the bus is not
    used, the clock has not moved, the log of line writes, sleeps and
    transfers is as it was, and so is the driver data. *)
Theorem init_refuses_unready_board :
  forall (config : rfid_cr95hf_spi_config) (brd : board) (w : world),
    spi_is_ready brd = false \/
    (irq_out config <> None /\ irq_out_is_ready brd = false) ->
    exists w' : world,
      rfid_cr95hf_init_spi config brd w =
        Some (if spi_is_ready brd then - EBUSY else - ENODEV, w') /\
      dev w' = dev w /\
      bus (hw w') = bus (hw w) /\
      uptime_us (hw w') = uptime_us (hw w) /\
      trace (hw w') = trace (hw w) /\
      cs_level (hw w') =
        (if spi_is_ready brd && cs_port_is_ready brd && (cs_configure brd =? 0)
         then 0 else cs_level (hw w)) /\
      irq_in_level (hw w') =
        (if spi_is_ready brd && irq_in_port_is_ready brd &&
            (irq_in_configure brd =? 0)
         then 0 else irq_in_level (hw w)).
Proof.
  intros config brd w Hnot.
  unfold rfid_cr95hf_init_spi, fn, gpio_pin_configure_dt, hw_set.
  destruct (spi_is_ready brd).
  - destruct Hnot as [Hnot|[Hline Hnot]]; [ discriminate Hnot | ].
    destruct (irq_out config) as [l|]; [ | contradiction ].
    rewrite Hnot.
    destruct (cs_port_is_ready brd), (irq_in_port_is_ready brd),
      (cs_configure brd =? 0), (irq_in_configure brd =? 0);
      (eexists; split; [ reflexivity | ]); repeat split.
  - exists w. repeat split.
Qed.

(** On the bench: a device without IRQ_OUT line whose bus is not ready, and
    a device with an IRQ_OUT line that is not ready. *)
Lemma init_refuses_unready_board_witness :
  (exists w' : world,
     rfid_cr95hf_init_spi polled unready_bus (bench UNINITIALIZED 0 0 [ok []]) =
       Some (- ENODEV, w') /\
     dev w' = bench_data UNINITIALIZED 0 /\
     bus (hw w') = [ok []] /\
     uptime_us (hw w') = 0 /\
     trace (hw w') = [] /\
     cs_level (hw w') = 0 /\
     irq_in_level (hw w') = 0) /\
  (exists w' : world,
     rfid_cr95hf_init_spi signalled unready_line
       (with_hw (set_cs_level 1) (bench UNINITIALIZED 0 0 [ok []])) =
       Some (- EBUSY, w') /\
     dev w' = bench_data UNINITIALIZED 0 /\
     bus (hw w') = [ok []] /\
     uptime_us (hw w') = 0 /\
     trace (hw w') = [] /\
     cs_level (hw w') = 0 /\
     irq_in_level (hw w') = 0).
Proof.
  split.
  - apply (init_refuses_unready_board polled unready_bus
             (bench UNINITIALIZED 0 0 [ok []])).
    left. reflexivity.
  - apply (init_refuses_unready_board signalled unready_line
             (with_hw (set_cs_level 1) (bench UNINITIALIZED 0 0 [ok []]))).
    right. split; [ discriminate | reflexivity ].
Defined.

(** However the loop ends, chip-select is released, and a count other than
    0 means that the echo was found. *)
Lemma init_loop_ends :
  forall (Qr : Z -> world -> Prop),
    (forall r w, (fun x : Z => x) r <> 0 -> Qr r w) ->
    forall (n : nat) (b : bool),
      ensures (released b) (rfid_cr95hf_init_loop (S n))
        (fun tries w =>
           cs_level (hw w) = 0 /\ (tries <> 0%nat -> response w 1 = 0x55))
        Qr.
Proof.
  intros Qr He. induction n as [|n IH]; intro b; cbn [rfid_cr95hf_init_loop].
  - apply ensures_bind with (Qmid := fun _ => released true).
    + unfold rfid_cr95hf_init_round, rfid_cr95hf_IRQ_IN_pulse, spi_release_dt,
        k_sleep, gpio_pin_set_dt, hw_set, snd_buffer_store, data_set.
      released_body He.
    + intros _. apply ensures_bind with (Qmid := fun _ => released true).
      * released_body He.
      * intro echo. rewrite andb_false_r. apply ensures_ret.
        intros w Hw. split; [ apply Hw; reflexivity | intro H; contradiction ].
  - apply ensures_bind with (Qmid := fun _ => released true).
    + unfold rfid_cr95hf_init_round, rfid_cr95hf_IRQ_IN_pulse, spi_release_dt,
        k_sleep, gpio_pin_set_dt, hw_set, snd_buffer_store, data_set.
      released_body He.
    + intros _.
      apply ensures_bind
        with (Qmid := fun echo w => cs_level (hw w) = 0 /\ echo = response w 1).
      * apply ensures_read. intros w Hw. split; [ apply Hw; reflexivity | reflexivity ].
      * intro echo. change (0 <? S n)%nat with true. rewrite andb_true_r.
        destruct (Z.eqb_spec echo 0x55) as [He55|He55]; cbn [negb].
        -- apply ensures_ret. intros w (Hcs & Hecho). split; [ exact Hcs | ].
           intros _. congruence.
        -- apply ensures_weaken with (P := released false) (Qn :=
             fun tries w =>
               cs_level (hw w) = 0 /\ (tries <> 0%nat -> response w 1 = 0x55));
             [ intros w _ Hb; discriminate Hb | auto | apply IH ].
Qed.

(** X20. [rfid_cr95hf_init_spi] returns 0 only when the last echo read put
    0x55 into [rcv_buffer[1]]; the mode is then POWER_UP with the timestamp
    of the return, and chip-select is released. *)
Theorem init_success_means_echo :
  forall (config : rfid_cr95hf_spi_config) (brd : board) (w w' : world),
    rfid_cr95hf_init_spi config brd w = Some (0, w') ->
    mode_record w' = (POWER_UP, uptime_us (hw w') / 1000) /\
    response w' 1 = 0x55 /\
    cs_level (hw w') = 0.
Proof.
  intros config brd w w' Hrun.
  set (Qr := fun (r : Z) (v : world) =>
               r = 0 ->
               mode_record v = (POWER_UP, uptime_us (hw v) / 1000) /\
               response v 1 = 0x55 /\
               cs_level (hw v) = 0).
  assert (He : forall (r : Z) (v : world), (fun x : Z => x) r <> 0 -> Qr r v).
  { intros r v Hr Hz. contradiction. }
  refine (ensures_fn (released false) _ Qr _ w 0 w' _ Hrun eq_refl);
    [ | discriminate ].
  unfold rfid_cr95hf_init_spi, gpio_pin_configure_dt, k_sem_init_irq_out_sem,
    rfid_cr95hf_IRQ_IN_pulse, spi_release_dt, k_sleep, gpio_pin_set_dt, hw_set,
    data_set.
  repeat (lazymatch goal with
          | |- ensures _ (bind (rfid_cr95hf_init_loop _) _) _ _ => fail
          | _ => idtac
          end;
          first [ released_step He
                | lazymatch goal with
                  | |- ensures _ (when ?c _) _ _ => unfold when; destruct c
                  end ]).
  apply ensures_bind
    with (Qmid := fun tries w =>
            cs_level (hw w) = 0 /\ (tries <> 0%nat -> response w 1 = 0x55));
    [ apply (init_loop_ends Qr He 4) | intro tries ].
  intros v out v' (Hcs & Hecho) Hstep.
  unfold rfid_cr95hf_setmode, k_uptime_get, data_set, bind, rcv, read, when,
    modify, return_, ret in Hstep.
  destruct ((tries =? 0)%nat && negb (byte_at (rcv_buffer (dev v)) 1 =? 85)) eqn:Hc.
  - injection Hstep as <- <-. intro Hz. discriminate Hz.
  - injection Hstep as <- <-. intros _.
    split; [ reflexivity | ]. split; [ | exact Hcs ].
    change (response v 1 = 85).
    apply andb_false_iff in Hc as [Hc|Hc].
    + apply Hecho. apply Nat.eqb_neq, Hc.
    + apply negb_false_iff, Z.eqb_eq in Hc. exact Hc.
Qed.

(** On the bench: a chip that echoes at once. *)
Lemma init_success_means_echo_witness :
  mode_record
    (left_by (rfid_cr95hf_init_spi polled ready_board)
       (bench UNINITIALIZED 0 0 (round_answers (turn 0x55)))) =
  (POWER_UP,
   uptime_us
     (hw (left_by (rfid_cr95hf_init_spi polled ready_board)
            (bench UNINITIALIZED 0 0 (round_answers (turn 0x55))))) / 1000) /\
  response
    (left_by (rfid_cr95hf_init_spi polled ready_board)
       (bench UNINITIALIZED 0 0 (round_answers (turn 0x55)))) 1 = 0x55 /\
  cs_level
    (hw (left_by (rfid_cr95hf_init_spi polled ready_board)
           (bench UNINITIALIZED 0 0 (round_answers (turn 0x55))))) = 0.
Proof.
  apply (init_success_means_echo polled ready_board
           (bench UNINITIALIZED 0 0 (round_answers (turn 0x55)))).
  vm_compute. reflexivity.
Defined.

(** ** Calibration on a bus that works *)

(** A byte written inside the array is read back. *)
Lemma byte_at_store_same :
  forall (i : nat) (v : Z) (a : list Z),
    (i < length a)%nat -> byte_at (store i v a) i = v.
Proof.
  unfold byte_at. induction i as [|i IH]; intros v [|h t] H; cbn in *; try lia.
  apply IH. lia.
Qed.

(** Writing one byte leaves the others. *)
Lemma byte_at_store_other :
  forall (i j : nat) (v : Z) (a : list Z),
    i <> j -> byte_at (store i v a) j = byte_at a j.
Proof.
  unfold byte_at. induction i as [|i IH]; intros [|j] v [|h t] H; cbn;
    try reflexivity; try contradiction.
  apply IH. congruence.
Qed.

Lemma steady_refl : forall w, steady w w.
Proof. intro w. repeat split. auto. Qed.

Lemma steady_trans : forall a b c, steady a b -> steady b c -> steady a c.
Proof.
  intros a b c (H1 & L1 & C1) (H2 & L2 & C2). repeat split; [ auto | congruence.. ].
Qed.

Lemma snd_buffer_store_steady :
  forall {R} (i : nat) (v : Z),
    i <> 14%nat -> respects steady (@snd_buffer_store R i v).
Proof.
  intros R i v Hi. apply respects_modify. intro w. repeat split.
  - auto.
  - apply store_length.
  - apply byte_at_store_other, Hi.
Qed.

Create HintDb steady.

(** Takes a body apart, statement by statement, for [steady]. *)
Ltac steady_body :=
  repeat first
    [ apply (respects_bind steady steady_trans); [ | intro ]
    | apply (respects_ret steady steady_refl)
    | apply (respects_return steady steady_refl)
    | apply (respects_read steady steady_refl)
    | apply (respects_when steady steady_refl); intro
    | apply snd_buffer_store_steady; discriminate
    | apply (respects_modify steady); intro; repeat split; intro; assumption
    | apply (respects_call steady); solve [ auto with steady ]
    | match goal with
      | |- respects _ (if ?c then _ else _) => destruct c
      | |- respects _ (match ?x with _ => _ end) => destruct x
      end ].

Lemma spi_call_steady :
  forall {R} (ev : Z -> event) (rx_len : Z), respects steady (@spi_call R ev rx_len).
Proof.
  intros R ev rx_len w out w' H. unfold spi_call in H.
  destruct (bus (hw w)) as [|r rest] eqn:Hbus; [discriminate|].
  injection H as _ <-.
  assert (Hrest : healthy w -> Forall (fun r => r_err r = 0) rest).
  { unfold healthy. rewrite Hbus. intro Hh. inversion Hh; assumption. }
  destruct (r_err r =? 0); repeat split; exact Hrest.
Qed.

Lemma transceive_steady :
  forall release_cs : bool, proc_respects steady (rfid_cr95hf_transceive release_cs).
Proof.
  intro release_cs. apply respects_fn.
  unfold gpio_pin_set_dt, k_sleep, hw_set, spi_transceive_dt, spi_write_dt.
  steady_body.
  all: intros w out w' Hrun; apply (spi_call_steady _ _ w out w' Hrun).
Qed.

#[local] Hint Resolve transceive_steady : steady.

Lemma polling_loop_steady :
  forall (turns : nat) (ready_read ready_send : bool),
    respects steady (rfid_cr95hf_polling_loop turns ready_read ready_send).
Proof.
  induction turns as [|turns IH]; intros rr rs.
  - intros w out w' H. discriminate H.
  - cbn [rfid_cr95hf_polling_loop].
    unfold rcv_buffer_store, rcv, data_set.
    steady_body. apply IH.
Qed.

Lemma polling_steady :
  forall ready_read ready_send : bool,
    proc_respects steady (rfid_cr95hf_polling ready_read ready_send).
Proof.
  intros rr rs. apply respects_fn.
  unfold data_set.
  steady_body. apply polling_loop_steady.
Qed.

Lemma wait_for_irq_out_low_steady :
  forall irq : line, proc_respects steady (rfid_cr95hf_wait_for_irq_out_low irq).
Proof.
  intro irq. apply respects_fn.
  unfold gpio_pin_interrupt_configure_dt, hw_set.
  apply (respects_bind steady steady_trans); [ | intro; steady_body ].
  - intros w out w' H. unfold gpio_pin_get_dt in H.
    destruct (irq_out_reads (hw w)); [discriminate|].
    injection H as _ <-. repeat split. auto.
  - intros w out w' H. unfold k_sem_take_irq_out_sem in H.
    destruct (0 <? irq_out_sem (dev w)).
    + injection H as _ <-. repeat split. auto.
    + destruct (irq_out_edges (hw w)); [discriminate|].
      injection H as _ <-. repeat split. auto.
Qed.

#[local] Hint Resolve polling_steady wait_for_irq_out_low_steady : steady.

Lemma wait_steady :
  forall config : rfid_cr95hf_spi_config,
    proc_respects steady (rfid_cr95hf_wait config).
Proof.
  intro config. apply respects_fn. steady_body.
Qed.

Lemma response_steady :
  forall size : Z, proc_respects steady (rfid_cr95hf_response size).
Proof.
  intro size. apply respects_fn.
  unfold rcv, data_set.
  steady_body.
Qed.

#[local] Hint Resolve wait_steady response_steady : steady.

(** On a healthy bus a frame returns 0. *)
Lemma transceive_on_healthy_bus :
  forall (release_cs : bool) (w w' : world) (err : Z),
    rfid_cr95hf_transceive release_cs w = Some (err, w') ->
    healthy w -> err = 0.
Proof.
  intros release_cs w w' err H Hh.
  unfold rfid_cr95hf_transceive, fn, bind, gpio_pin_set_dt, k_sleep, hw_set,
    modify, read, when, return_, ret, spi_transceive_dt, spi_write_dt, spi_call in H.
  cbn [hw dev with_hw with_dev bus log set_cs_level set_uptime_us] in H.
  unfold healthy in Hh.
  destruct (0 <? spi_snd_buffer_len (dev w));
    destruct (0 <? spi_rcv_buffer_len (dev w));
    cbn [andb hw dev with_hw with_dev bus log set_cs_level set_uptime_us] in H;
    try (destruct (bus (hw w)) as [|r rest]; [discriminate H|];
         inversion Hh as [|? ? Hr _]; subst; rewrite Hr in H;
         cbn [nonzero Z.eqb negb] in H);
    destruct release_cs; injection H as <- _; reflexivity.
Qed.

(** On a healthy bus the response reader returns 0. *)
Lemma response_on_healthy_bus :
  forall (size : Z) (w w' : world) (err : Z),
    rfid_cr95hf_response size w = Some (err, w') ->
    healthy w -> err = 0.
Proof.
  intros size w w' err H Hh.
  unfold rfid_cr95hf_response, fn in H.
  cbv beta iota delta [bind snd_buffer_store data_set modify call when read rcv
                       return_ ret] in H.
  destruct (rfid_cr95hf_transceive false _) as [[e1 w1]|] eqn:E1; [|discriminate H].
  pose proof (transceive_on_healthy_bus _ _ _ _ E1 Hh) as ->.
  destruct (transceive_steady _ _ _ _ E1) as (Hh1 & _).
  cbn [nonzero Z.eqb negb] in H.
  destruct (rfid_cr95hf_transceive true _) as [[e2 w2]|] eqn:E2; [|discriminate H].
  pose proof (transceive_on_healthy_bus _ _ _ _ E2 (Hh1 Hh)) as ->.
  cbn [nonzero Z.eqb negb] in H. injection H as <- _. reflexivity.
Qed.

Lemma calibrating_steady :
  forall (i : nat) (w w' : world),
    steady w w' -> calibrating i w -> calibrating i w'.
Proof.
  intros i w w' (Hh & Hl & Hc) (H1 & H2 & H3).
  split; [ auto | ]. split; [ lia | ]. rewrite Hc. exact H3.
Qed.

(** A loop whose turn [i] takes [P i] to [P (S i)]. *)
Lemma ensures_for_steps :
  forall {R} (Qr : R -> world -> Prop) (P : nat -> world -> Prop)
         (count first : nat) (body : nat -> M R unit),
    (forall i, (first <= i < first + count)%nat ->
               ensures (P i) (body i) (fun _ => P (S i)) Qr) ->
    ensures (P first) (for_range count first body)
      (fun _ => P (first + count)%nat) Qr.
Proof.
  intros R Qr P count. induction count as [|count IH]; intros first body Hb;
    cbn [for_range].
  - apply ensures_ret. intros w Hw. rewrite Nat.add_0_r. exact Hw.
  - apply ensures_bind with (Qmid := fun _ => P (S first)).
    + apply Hb. lia.
    + intros _. replace (first + S count)%nat with (S first + count)%nat by lia.
      apply IH. intros i Hi. apply Hb. lia.
Qed.

(** The switch takes a candidate that can reach step [i] to one that can
    reach the next step, or returns a result. *)
Lemma calibration_switch_steps :
  forall (i : nat),
    (i < 8)%nat ->
    ensures (calibrating i) (rfid_cr95hf_calibration_switch i)
      (fun _ => calibrating (S i)) (fun r _ => calibration_result r).
Proof.
  intros i Hi w out w' (Hh & Hl & Hreach) Hrun.
  unfold rfid_cr95hf_calibration_switch in Hrun.
  cbv beta iota delta [bind rcv snd read] in Hrun.
  change (byte_at (snd_buffer (dev w)) 14) with (candidate w) in Hrun.
  set (c := candidate w) in *.
  assert (Hnext : forall v, reach (S i) v ->
            calibrating (S i)
              (with_dev (fun d => set_snd_buffer (store 14 v (snd_buffer d)) d) w)).
  { intros v Hv. split; [ exact Hh | ]. split.
    - cbn [dev with_dev snd_buffer set_snd_buffer]. rewrite store_length. exact Hl.
    - unfold candidate. cbn [dev with_dev snd_buffer set_snd_buffer].
      rewrite byte_at_store_same by lia. exact Hv. }
  destruct i as [|[|[|[|[|[|[|[|i]]]]]]]]; try lia;
    unfold snd_buffer_store, data_set, modify, when, return_, ret in Hrun;
    repeat match type of Hrun with
           | context [if ?b then _ else _] => destruct b
           end;
    injection Hrun as <- <-;
    try (left; reflexivity);
    try (apply Hnext);
    unfold reach, spacing, u8, calibration_result in *;
    try reflexivity;
    try right;
    subst;
    Z.div_mod_to_equations; lia.
Qed.

(** One turn of the loop, on a healthy bus. *)
Lemma calibration_step_steps :
  forall (size : Z) (config : rfid_cr95hf_spi_config) (i : nat),
    (i < 8)%nat ->
    ensures (calibrating i) (rfid_cr95hf_calibration_step size config i)
      (fun _ => calibrating (S i)) (fun r _ => calibration_result r).
Proof.
  intros size config i Hi. unfold rfid_cr95hf_calibration_step, data_set.
  assert (Hcheck : forall err : Z,
            ensures (fun w => err = 0 /\ calibrating i w)
              (when (nonzero err) (return_ err))
              (fun _ => calibrating i) (fun r _ => calibration_result r)).
  { intro err. apply ensures_when.
    - intro Hnz. apply ensures_return. intros w (-> & _). discriminate Hnz.
    - intros _ w (_ & Hw). exact Hw. }
  apply ensures_bind with (Qmid := fun _ => calibrating i);
    [ apply ensures_modify; intros w Hw; exact Hw | intros _ ].
  apply ensures_bind with (Qmid := fun _ => calibrating i);
    [ apply ensures_modify; intros w Hw; exact Hw | intros _ ].
  apply ensures_bind with (Qmid := fun err w => err = 0 /\ calibrating i w).
  { apply ensures_call. intros w err w' Hw Hrun. split.
    - apply (transceive_on_healthy_bus _ _ _ _ Hrun), Hw.
    - apply (calibrating_steady i w w' (transceive_steady _ _ _ _ Hrun) Hw). }
  intro err.
  apply ensures_bind with (Qmid := fun _ => calibrating i); [ apply Hcheck | intros _ ].
  apply ensures_bind with (Qmid := fun _ => calibrating i).
  { apply ensures_call. intros w a w' Hw Hrun.
    apply (calibrating_steady i w w' (wait_steady _ _ _ _ Hrun) Hw). }
  intros _.
  apply ensures_bind with (Qmid := fun err w => err = 0 /\ calibrating i w).
  { apply ensures_call. intros w err' w' Hw Hrun. split.
    - apply (response_on_healthy_bus _ _ _ _ Hrun), Hw.
    - apply (calibrating_steady i w w' (response_steady _ _ _ _ Hrun) Hw). }
  intro err'.
  apply ensures_bind with (Qmid := fun _ => calibrating i); [ apply Hcheck | intros _ ].
  apply calibration_switch_steps, Hi.
Qed.

(** X21. On a bus that accepts every transfer, with a send buffer of at
    least 15 bytes, [rfid_cr95hf_calibration] returns [-EIO] or a multiple
    of 4 between -4 and 248. *)
Theorem calibration_result_is_a_multiple_of_four :
  forall (size : Z) (config : rfid_cr95hf_spi_config) (w w' : world) (r : Z),
    rfid_cr95hf_calibration size config w = Some (r, w') ->
    healthy w ->
    (15 <= length (snd_buffer (dev w)))%nat ->
    r = - EIO \/ (- 4 <= r <= 248 /\ r mod 4 = 0).
Proof.
  intros size config w w' r Hrun Hh Hl.
  refine (ensures_fn (calibrating 0) _ (fun r _ => calibration_result r)
            _ w r w' _ Hrun); [ | split; [ exact Hh | split; [ exact Hl | exact I ] ] ].
  unfold rfid_cr95hf_calibration.
  repeat (apply ensures_bind with (Qmid := fun _ => calibrating 0);
          [ apply ensures_modify; intros v (H1 & H2 & _);
            split; [ exact H1 | split; [ | exact I ] ];
            cbn [dev with_dev snd_buffer set_snd_buffer];
            rewrite store_length; exact H2
          | intros _ ]).
  apply ensures_bind with (Qmid := fun _ => calibrating (0 + 8)).
  - apply ensures_for_steps. intros i Hi.
    apply calibration_step_steps. lia.
  - intros _. apply ensures_return. intros v _. left. reflexivity.
Qed.

(** On the bench: the answers HIGH, LOW, HIGH, HIGH, HIGH, HIGH, HIGH,
    HIGH. *)
Lemma calibration_result_is_a_multiple_of_four_witness :
  0xF8 = - EIO \/ (- 4 <= 0xF8 <= 248 /\ 0xF8 mod 4 = 0).
Proof.
  apply (calibration_result_is_a_multiple_of_four 64 polled
           (bench READY 0 50 all_high)
           (left_by (rfid_cr95hf_calibration 64 polled) (bench READY 0 50 all_high))).
  - vm_compute. reflexivity.
  - unfold healthy. cbn. repeat constructor.
  - vm_compute. lia.
Defined.



(** ** The modes the driver records *)

Lemma kept_refl : forall w, kept_or_recorded w w.
Proof. intro w. left. reflexivity. Qed.

Lemma kept_trans :
  forall a b c, kept_or_recorded a b -> kept_or_recorded b c -> kept_or_recorded a c.
Proof.
  intros a b c [H1|H1] [H2|H2].
  - left. congruence.
  - right. exact H2.
  - right. rewrite H2. exact H1.
  - right. exact H2.
Qed.

Lemma quiet_kept : forall w w', quiet w w' -> kept_or_recorded w w'.
Proof.
  intros w w' [Hs _]. unfold settings, mode_record in Hs. left. congruence.
Qed.

Lemma switched_kept : forall w w', switched w w' -> kept_or_recorded w w'.
Proof.
  intros w w' (_ & _ & [Hm|[[Hm|Hm] _]]).
  - left. unfold mode_record in Hm. congruence.
  - right. unfold recorded_by_driver. auto.
  - right. unfold recorded_by_driver. auto.
Qed.

Lemma setmode_kept :
  forall {R} (mode : rfid_mode_t),
    recorded_by_driver mode -> respects kept_or_recorded (@rfid_cr95hf_setmode R mode).
Proof.
  intros R mode Hmode w out w' H.
  unfold rfid_cr95hf_setmode, bind, data_set, modify, k_uptime_get, read in H.
  injection H as _ <-. right. exact Hmode.
Qed.

(** Takes a body apart, statement by statement, for [kept_or_recorded]. *)
Ltac kept_body :=
  repeat first
    [ apply setmode_kept; unfold recorded_by_driver; tauto
    | apply (respects_bind kept_or_recorded kept_trans); [ | intro ]
    | apply (respects_ret kept_or_recorded kept_refl)
    | apply (respects_return kept_or_recorded kept_refl)
    | apply (respects_read kept_or_recorded kept_refl)
    | apply (respects_when kept_or_recorded kept_refl); intro
    | apply (respects_modify kept_or_recorded); intro; left; reflexivity
    | apply (respects_call kept_or_recorded);
      intros ? ? ? ?; apply quiet_kept; eapply transceive_quiet; eassumption
    | match goal with
      | |- respects _ (if ?c then _ else _) => destruct c
      | |- respects _ (match ?x with _ => _ end) => destruct x
      end ].

Lemma init_round_kept : respects kept_or_recorded rfid_cr95hf_init_round.
Proof.
  unfold rfid_cr95hf_init_round, rfid_cr95hf_IRQ_IN_pulse, spi_release_dt,
    k_sleep, gpio_pin_set_dt, hw_set, snd_buffer_store, data_set.
  kept_body.
Qed.

Lemma init_loop_kept :
  forall tries : nat, respects kept_or_recorded (rfid_cr95hf_init_loop tries).
Proof.
  induction tries as [|tries IH]; cbn [rfid_cr95hf_init_loop].
  - apply (respects_ret kept_or_recorded kept_refl).
  - apply (respects_bind kept_or_recorded kept_trans); [ apply init_round_kept | intros _ ].
    unfold rcv.
    apply (respects_bind kept_or_recorded kept_trans);
      [ apply (respects_read kept_or_recorded kept_refl) | intro echo ].
    destruct (negb (echo =? 85) && (0 <? tries)%nat);
      [ apply IH | apply (respects_ret kept_or_recorded kept_refl) ].
Qed.

Lemma init_kept :
  forall (config : rfid_cr95hf_spi_config) (brd : board),
    proc_respects kept_or_recorded (rfid_cr95hf_init_spi config brd).
Proof.
  intros config brd. apply respects_fn.
  unfold rfid_cr95hf_init_spi, gpio_pin_configure_dt, k_sem_init_irq_out_sem,
    rfid_cr95hf_IRQ_IN_pulse, spi_release_dt, k_sleep, gpio_pin_set_dt, hw_set,
    data_set, rcv.
  repeat (lazymatch goal with
          | |- respects _ (bind (rfid_cr95hf_init_loop _) _) => fail
          | _ => idtac
          end;
          first
            [ apply setmode_kept; unfold recorded_by_driver; tauto
            | apply (respects_bind kept_or_recorded kept_trans); [ | intro ]
            | apply (respects_ret kept_or_recorded kept_refl)
            | apply (respects_return kept_or_recorded kept_refl)
            | apply (respects_read kept_or_recorded kept_refl)
            | apply (respects_when kept_or_recorded kept_refl); intro
            | apply (respects_modify kept_or_recorded); intro; left; reflexivity
            | match goal with
              | |- respects _ (if ?c then _ else _) => destruct c
              | |- respects _ (match ?x with _ => _ end) => destruct x
              end ]).
  apply (respects_bind kept_or_recorded kept_trans); [ apply init_loop_kept | intro ].
  kept_body.
Qed.


